(** * CausalPy [pymc_models]: the scikit-learn style wrapper around PyMC

    A shallow embedding of [causalpy/pymc_models.py].  The module defines
    one base class, [ModelBuilder], and three subclasses.  Every method is
    a short sequence of calls into PyMC, ArviZ and NumPy, so the embedding
    is organised as follows.

    - NumPy arrays are records of a shape and row-major data; the array
      operations the module performs itself ([y[:, 0]], [.shape[k]],
      [.flatten()], [np.stack], [np.ones]) are executable functions.
    - A [pm.Model] is the part of PyMC's model the statements are about:
      the coordinates, the named variables in declaration order and the
      list of free random variables.  What [build_model] declares is
      recorded symbolically.
    - Everything numerical (sampling, extending inference data, extracting,
      the R^2 score), the libraries' own validation of declarations, the
      conversion of data arrays and the coordinates a declaration adds are
      fields of a [Library] record: the wrapper is verified for every
      library.
    - Methods run in a state-and-exception monad.  A raised exception keeps
      the state reached so far, as in Python. *)

From Stdlib Require Import QArith.
From stdpp Require Import gmap strings list.

Open Scope string_scope.
Open Scope list_scope.

(** ** Python values and exceptions *)

(** The plain Python values that occur in [sample_kwargs], [coords] and
    [priors].  Finite floats are the rationals they denote: the wrapper
    never computes with them. *)
Inductive atom :=
| PyNone
| PyBool (b : bool)
| PyInt (z : Z)
| PyFloat (q : Q)
| PyStr (s : string).

Inductive pyval :=
| PyAtom (a : atom)
| PyList (l : list atom).

(** Exceptions, by class.  [OtherError] stands for any further class a
    library may raise. *)
Inductive exn :=
| NotImplementedError (msg : string)
| IndexError (msg : string)
| KeyError (key : string)
| TypeError (msg : string)
| ValueError (msg : string)
| AttributeError (msg : string)
| OtherError (cls msg : string).

Inductive result (A : Type) :=
| Ok (a : A)
| Raise (e : exn).
Arguments Ok {A} a.
Arguments Raise {A} e.

Definition result_bind {A B} (r : result A) (k : A -> result B) : result B :=
  match r with
  | Ok a => k a
  | Raise e => Raise e
  end.

(** ** NumPy arrays *)

Module np.

Record ndarray := mk_ndarray { shape : list nat; data : list Q }.

Definition size_of (sh : list nat) : nat := foldr Nat.mul 1%nat sh.

(** A well-formed array holds as many items as its shape says. *)
Definition wf (a : ndarray) : Prop := length (data a) = size_of (shape a).

Definition ndim (a : ndarray) : nat := length (shape a).

(** [a.shape[k]]: indexing the shape tuple. *)
Definition shape_at (a : ndarray) (k : nat) : result nat :=
  match shape a !! k with
  | Some n => Ok n
  | None => Raise (IndexError "tuple index out of range")
  end.

(** [np.ones(n)] *)
Definition ones (n : nat) : ndarray :=
  {| shape := [n]; data := replicate n 1%Q |}.

(** [a.flatten()]: a one-dimensional copy in row-major order. *)
Definition flatten (a : ndarray) : ndarray :=
  {| shape := [length (data a)]; data := data a |}.

(** The items of [a[:, 0]]: of each of the [n] blocks of [stride] items
    along axis 0, the first [r]. *)
Fixpoint col0_items (n stride r : nat) (d : list Q) : list Q :=
  match n with
  | O => []
  | S n' => take r d ++ col0_items n' stride r (drop stride d)
  end.

(** [a[:, 0]] *)
Definition getitem_col0 (a : ndarray) : result ndarray :=
  match shape a with
  | n :: m :: rest =>
      if (m =? 0)%nat
      then Raise (IndexError "index 0 is out of bounds for axis 1 with size 0")
      else Ok {| shape := n :: rest;
                 data := col0_items n (m * size_of rest) (size_of rest) (data a) |}
  | _ => Raise (IndexError "too many indices for array")
  end.

(** Interleaving of two item lists: the rows of a two-column array. *)
Fixpoint zip_rows (a b : list Q) : list Q :=
  match a, b with
  | x :: a', y :: b' => x :: y :: zip_rows a' b'
  | _, _ => []
  end.

(** [np.stack(arrays=(a, b), axis=1)] for one-dimensional [a] and [b]. *)
Definition stack2_axis1 (a b : ndarray) : result ndarray :=
  match shape a, shape b with
  | [n], [n'] =>
      if (n =? n')%nat
      then Ok {| shape := [n; 2%nat]; data := zip_rows (data a) (data b) |}
      else Raise (ValueError "all input arrays must have the same shape")
  | _, _ => Raise (ValueError "all input arrays must have the same shape")
  end.

End np.

(** ** The PyMC model registry *)

Module pm.

(** Symbolic tensors: what the module hands to PyMC as parameters of a
    distribution or as the value of a deterministic. *)
Inductive tensor :=
| TVar (name : string)               (* the model variable of that name *)
| TUnpack (name : string) (i : nat)  (* i-th item of the tuple PyMC returned for it *)
| TPy (v : pyval)                    (* a Python number *)
| TArr (a : np.ndarray)              (* a NumPy array *)
| TDot (l r : tensor)                (* pm.math.dot, pt.dot *)
| TTranspose (t : tensor)            (* t.T *)
| TStack2 (a b : tensor) (axis : Z). (* pt.stack(tensors=(a, b), axis) *)

Inductive dist :=
| Normal (mu sigma : tensor)
| HalfNormal (sigma : tensor)
| Dirichlet (a : tensor)
| HalfCauchy (beta : tensor) (shape : option (list nat))
| LKJCholeskyCov (eta : tensor) (n : nat) (sd_dist : dist)
| MvNormal (mu chol : tensor).

Definition dims := option (list string).

(** What can be registered under a name. *)
Inductive decl :=
| MutableData (value : np.ndarray) (d : dims)
| FreeRV (p : dist) (d : dims)
| ObservedRV (p : dist) (observed : tensor) (d : dims) (shape : option (list nat))
| Deterministic (var : tensor) (d : dims).

Definition coords_t := gmap string (list atom).

(** [coords] and [named_vars] are the model's attributes of these names,
    [free_RVs] its list of free random variables, in the order PyMC
    appended them. *)
Record Model := mk_Model {
  coords : coords_t;
  named_vars : list (string * decl);  (* in declaration order *)
  free_RVs : list (string * decl)
}.

Definition empty : Model :=
  {| coords := ∅; named_vars := []; free_RVs := [] |}.

(** [model[name]] *)
Fixpoint assoc (name : string) (vs : list (string * decl)) : option decl :=
  match vs with
  | [] => None
  | (n, d) :: vs' => if String.eqb n name then Some d else assoc name vs'
  end.

Definition lookup (m : Model) (name : string) : option decl :=
  assoc name (named_vars m).

Definition add (m : Model) (name : string) (d : decl) : Model :=
  {| coords := coords m;
     named_vars := named_vars m ++ [(name, d)];
     free_RVs := free_RVs m |}.

(** Replace the value bound to [name], keeping its place. *)
Fixpoint replace (name : string) (d : decl) (vs : list (string * decl))
  : list (string * decl) :=
  match vs with
  | [] => []
  | (n, d0) :: vs' =>
      if String.eqb n name then (n, d) :: vs' else (n, d0) :: replace name d vs'
  end.

Definition is_free_rv (d : decl) : bool :=
  match d with FreeRV _ _ => true | _ => false end.

Definition is_observed_rv (d : decl) : bool :=
  match d with ObservedRV _ _ _ _ => true | _ => false end.

(** The priors of a model are its free random variables; its likelihood
    terms are the observed random variables among the named variables. *)
Definition priors_of (m : Model) : list (string * decl) := free_RVs m.

Definition likelihood_of (m : Model) : list (string * decl) :=
  filter (fun nd => is_observed_rv nd.2 = true) (named_vars m).

End pm.

(** [sample_kwargs]: a dictionary of keyword arguments. *)
Definition kwargs := gmap string pyval.

(** ** The libraries

    The calls the module makes into PyMC, ArviZ and xarray whose results it
    does not compute itself.  [check_*] are the libraries' own validations:
    [Some e] when the call raises [e].  [as_data] is the array PyMC keeps
    for a data variable given the array it is handed (PyMC converts it to
    its own types).  [decl_coords] gives the coordinates of the model once
    PyMC has seen the dimensions of a declaration.  The samplers thread the
    random state.  [pm.sample_posterior_predictive] is called without
    [extend_inferencedata], so it takes its trace by value and returns a
    new object. *)
Record Library (InferenceData DataArray Series Rng : Type) := mk_Library {
  check_coords : pm.Model -> pm.coords_t -> option exn;
  check_decl : pm.Model -> string -> pm.decl -> option exn;
  decl_coords : pm.Model -> string -> pm.decl -> pm.coords_t;
  as_data : np.ndarray -> np.ndarray;
  check_set_data : pm.Model -> string -> np.ndarray -> option exn;
  pm_sample : pm.Model -> kwargs -> Rng -> result InferenceData * Rng;
  pm_sample_prior_predictive : pm.Model -> Rng -> result InferenceData * Rng;
  pm_sample_posterior_predictive :
    pm.Model -> option InferenceData -> option (list string) -> bool -> Rng ->
    result InferenceData * Rng;
  idata_extend : InferenceData -> InferenceData -> result InferenceData;
  az_extract : InferenceData -> string -> string -> result DataArray;
  da_T : DataArray -> DataArray;
  da_values : DataArray -> np.ndarray;
  r2_score : np.ndarray -> np.ndarray -> result Series
}.
Arguments check_coords {_ _ _ _} _ _ _.
Arguments check_decl {_ _ _ _} _ _ _ _.
Arguments decl_coords {_ _ _ _} _ _ _ _.
Arguments as_data {_ _ _ _} _ _.
Arguments check_set_data {_ _ _ _} _ _ _ _.
Arguments pm_sample {_ _ _ _} _ _ _ _.
Arguments pm_sample_prior_predictive {_ _ _ _} _ _ _.
Arguments pm_sample_posterior_predictive {_ _ _ _} _ _ _ _ _ _.
Arguments idata_extend {_ _ _ _} _ _ _.
Arguments az_extract {_ _ _ _} _ _ _ _.
Arguments da_T {_ _ _ _} _ _.
Arguments da_values {_ _ _ _} _ _.
Arguments r2_score {_ _ _ _} _ _ _.

(** ** Classes of the module *)

Inductive class :=
| ModelBuilder
| WeightedSumFitter
| LinearRegression
| InstrumentalVariableRegression.

Inductive method :=
| m_init
| m_build_model
| m_data_setter
| m_fit
| m_predict
| m_score.

(** Every class the module defines, in source order. *)
Definition module_classes : list class :=
  [ModelBuilder; WeightedSumFitter; LinearRegression;
   InstrumentalVariableRegression].

(** The base class named in the class statement, when it is a class of this
    module ([ModelBuilder] itself derives from [pm.Model]). *)
Definition base (c : class) : option class :=
  match c with
  | ModelBuilder => None
  | WeightedSumFitter => Some ModelBuilder
  | LinearRegression => Some ModelBuilder
  | InstrumentalVariableRegression => Some ModelBuilder
  end.

(** The parameters (after [self]) of the methods a class body defines;
    [None] when the body does not define the method. *)
Definition params (c : class) (m : method) : option (list string) :=
  match c, m with
  | ModelBuilder, m_init => Some ["sample_kwargs"]
  | ModelBuilder, m_build_model => Some ["X"; "y"; "coords"]
  | ModelBuilder, m_data_setter => Some ["X"]
  | ModelBuilder, m_fit => Some ["X"; "y"; "coords"]
  | ModelBuilder, m_predict => Some ["X"]
  | ModelBuilder, m_score => Some ["X"; "y"]
  | WeightedSumFitter, m_build_model => Some ["X"; "y"; "coords"]
  | LinearRegression, m_build_model => Some ["X"; "y"; "coords"]
  | InstrumentalVariableRegression, m_build_model =>
      Some ["X"; "Z"; "y"; "t"; "coords"; "priors"]
  | InstrumentalVariableRegression, m_fit =>
      Some ["X"; "Z"; "y"; "t"; "coords"; "priors"]
  | _, _ => None
  end.

Definition defines (c : class) (m : method) : bool :=
  match params c m with Some _ => true | None => false end.

(** Method resolution: the class itself, then its base. *)
Definition resolve (c : class) (m : method) : option class :=
  if defines c m then Some c
  else match base c with
       | Some b => if defines b m then Some b else None
       | None => None
       end.

Definition is_subclass_of_ModelBuilder (c : class) : bool :=
  match base c with Some ModelBuilder => true | _ => false end.

(** A concrete model definition: a proper subclass of [ModelBuilder] whose
    body defines [build_model]. *)
Definition is_concrete_model (c : class) : bool :=
  is_subclass_of_ModelBuilder c && defines c m_build_model.

(** ** Instances and the method monad *)

(** References to the [InferenceData] objects the wrapper binds or returns.
    Objects that are neither bound to an attribute nor returned (the
    argument of [extend]) are passed by value. *)
Definition loc := nat.

(** One instance ([self]) together with the store of inference-data objects
    and the samplers' random state. *)
Record state (InferenceData Rng : Type) := mk_state {
  self_class : class;
  self_model : pm.Model;              (* the [pm.Model] part of [self] *)
  self_idata : option loc;            (* [self.idata]; [None] is Python's None *)
  self_sample_kwargs : kwargs;        (* [self.sample_kwargs] *)
  heap : list InferenceData;
  rng : Rng
}.
Arguments mk_state {_ _} _ _ _ _ _ _.
Arguments self_class {_ _} _.
Arguments self_model {_ _} _.
Arguments self_idata {_ _} _.
Arguments self_sample_kwargs {_ _} _.
Arguments heap {_ _} _.
Arguments rng {_ _} _.

(** The arguments of a call of [fit] or [build_model]: the base signature
    [(X, y, coords)] or the instrumental-variable one
    [(X, Z, y, t, coords, priors)]. *)
Inductive args :=
| Args3 (X y : np.ndarray) (coords : option pm.coords_t)
| Args6 (X Z y t : np.ndarray) (coords : option pm.coords_t)
        (priors : gmap string pyval).

(** [d[k]] on a dictionary and [v[i]] on a value. *)
Definition dict_getitem (d : gmap string pyval) (k : string) : result pyval :=
  match d !! k with
  | Some v => Ok v
  | None => Raise (KeyError k)
  end.

Definition getitem (v : pyval) (i : nat) : result pyval :=
  match v with
  | PyList l =>
      match l !! i with
      | Some a => Ok (PyAtom a)
      | None => Raise (IndexError "list index out of range")
      end
  | PyAtom (PyStr s) =>
      if (i <? String.length s)%nat
      then Ok (PyAtom (PyStr (String.substring i 1 s)))
      else Raise (IndexError "string index out of range")
  | PyAtom _ => Raise (TypeError "object is not subscriptable")
  end.

Section Wrapper.

Context {InferenceData DataArray Series Rng : Type}.
Variable L : Library InferenceData DataArray Series Rng.

Let state : Type := state InferenceData Rng.

Definition M (A : Type) : Type := state -> result A * state.

Definition ret {A} (a : A) : M A := fun s => (Ok a, s).

Definition raise {A} (e : exn) : M A := fun s => (Raise e, s).

Definition bind {A B} (m : M A) (k : A -> M B) : M B :=
  fun s =>
    match m s with
    | (Ok a, s') => k a s'
    | (Raise e, s') => (Raise e, s')
    end.

Definition lift {A} (r : result A) : M A := fun s => (r, s).

Local Notation "x <- m ;; k" := (bind m (fun x => k))
  (at level 100, m at next level, right associativity).
Local Notation "m ;; k" := (bind m (fun _ => k))
  (at level 100, right associativity).

Definition set_model (m : pm.Model) (s : state) : state :=
  mk_state (self_class s) m (self_idata s) (self_sample_kwargs s)
           (heap s) (rng s).

Definition set_idata (i : option loc) (s : state) : state :=
  mk_state (self_class s) (self_model s) i (self_sample_kwargs s)
           (heap s) (rng s).

Definition set_heap (h : list InferenceData) (s : state) : state :=
  mk_state (self_class s) (self_model s) (self_idata s)
           (self_sample_kwargs s) h (rng s).

Definition set_rng (r : Rng) (s : state) : state :=
  mk_state (self_class s) (self_model s) (self_idata s)
           (self_sample_kwargs s) (heap s) r.

(** *** Attribute access *)

Definition get_class : M class := fun s => (Ok (self_class s), s).
Definition get_idata : M (option loc) := fun s => (Ok (self_idata s), s).
Definition get_sample_kwargs : M kwargs :=
  fun s => (Ok (self_sample_kwargs s), s).
Definition assign_idata (i : option loc) : M unit :=
  fun s => (Ok tt, set_idata i s).

(** A new object in the store. *)
Definition alloc (i : InferenceData) : M loc :=
  fun s => (Ok (length (heap s)), set_heap (heap s ++ [i]) s).

(** The object a Python value denotes, [None] for Python's None. *)
Definition deref (s : state) (r : option loc) : option InferenceData :=
  match r with
  | Some l => heap s !! l
  | None => None
  end.

(** *** Calls into PyMC under [with self:] *)

(** [self.add_coords(coords)]: nothing for None. *)
Definition add_coords (coords : option pm.coords_t) : M unit :=
  fun s =>
    match coords with
    | None => (Ok tt, s)
    | Some c =>
        match check_coords L (self_model s) c with
        | Some e => (Raise e, s)
        | None =>
            (Ok tt,
             set_model (pm.mk_Model (c ∪ pm.coords (self_model s))
                                    (pm.named_vars (self_model s))
                                    (pm.free_RVs (self_model s))) s)
        end
    end.

(** The model once PyMC has validated a declaration and before it enters
    the variable under its name: the dimensions are known to the model,
    and a free random variable is in [free_RVs] already. *)
Definition seen (m : pm.Model) (name : string) (d : pm.decl) : pm.Model :=
  pm.mk_Model (decl_coords L m name d) (pm.named_vars m)
              (pm.free_RVs m ++ (if pm.is_free_rv d then [(name, d)] else [])).

(** Declaring a named variable: PyMC runs its own checks, then refuses a
    name that exists, and otherwise enters the variable and returns it.  A
    refused name leaves the model as [seen]. *)
Definition register (name : string) (d : pm.decl) : M pm.tensor :=
  fun s =>
    match check_decl L (self_model s) name d with
    | Some e => (Raise e, s)
    | None =>
        match pm.lookup (self_model s) name with
        | Some _ =>
            (Raise (ValueError (String.append "Variable name "
                                  (String.append name " already exists."))),
             set_model (seen (self_model s) name d) s)
        | None =>
            (Ok (pm.TVar name),
             set_model (pm.add (seen (self_model s) name d) name d) s)
        end
    end.

(** [pm.set_data({name: value})]: [model[name]] raises [KeyError] for an
    unknown name, and only data variables can be set; the variable then
    holds PyMC's conversion of [value]. *)
Definition set_data (name : string) (value : np.ndarray) : M unit :=
  fun s =>
    match pm.lookup (self_model s) name with
    | None => (Raise (KeyError name), s)
    | Some (pm.MutableData _ d) =>
        match check_set_data L (self_model s) name value with
        | Some e => (Raise e, s)
        | None =>
            (Ok tt,
             set_model
               (pm.mk_Model (pm.coords (self_model s))
                  (pm.replace name (pm.MutableData (as_data L value) d)
                              (pm.named_vars (self_model s)))
                  (pm.free_RVs (self_model s))) s)
        end
    | Some _ =>
        (Raise (TypeError "The variable must be a SharedVariable or TensorConstant"), s)
    end.

(** [pm.sample] with the keyword arguments [kw] *)
Definition sample (kw : kwargs) : M InferenceData :=
  fun s =>
    let (r, g) := pm_sample L (self_model s) kw (rng s) in (r, set_rng g s).

(** [pm.sample_prior_predictive()] *)
Definition sample_prior_predictive : M InferenceData :=
  fun s =>
    let (r, g) := pm_sample_prior_predictive L (self_model s) (rng s) in
    (r, set_rng g s).

(** [pm.sample_posterior_predictive(trace, var_names=..., progressbar=...)] *)
Definition sample_posterior_predictive (trace : option loc)
    (var_names : option (list string)) (progressbar : bool) : M InferenceData :=
  fun s =>
    let (r, g) :=
      pm_sample_posterior_predictive L (self_model s) (deref s trace)
                                     var_names progressbar (rng s) in
    (r, set_rng g s).

(** [self.idata.extend]: the method of the object [self.idata] refers to.
    Python looks it up before it evaluates the argument of the call, and
    None has no such attribute. *)
Definition idata_dot_extend : M loc :=
  fun s =>
    match self_idata s with
    | Some l => (Ok l, s)
    | None =>
        (Raise (AttributeError "'NoneType' object has no attribute 'extend'"), s)
    end.

(** [target.extend(other)]: ArviZ updates the object at [target] in place.
    References come from [alloc] only, so the object is there. *)
Definition extend (target : loc) (other : InferenceData) : M unit :=
  fun s =>
    match heap s !! target with
    | None => (Raise (OtherError "ReferenceError" "no such object"), s)
    | Some i =>
        match idata_extend L i other with
        | Raise e => (Raise e, s)
        | Ok i' => (Ok tt, set_heap (<[target := i']> (heap s)) s)
        end
    end.

(** [pm.MutableData(name, value, dims=...)], which holds PyMC's conversion
    of [value], and the random variables and deterministics of
    [build_model]. *)
Definition pm_MutableData (name : string) (value : np.ndarray) (d : pm.dims)
  : M pm.tensor :=
  register name (pm.MutableData (as_data L value) d).

Definition pm_RV (name : string) (p : pm.dist) (d : pm.dims) : M pm.tensor :=
  register name (pm.FreeRV p d).

Definition pm_observed (name : string) (p : pm.dist) (observed : pm.tensor)
    (d : pm.dims) (shape : option (list nat)) : M pm.tensor :=
  register name (pm.ObservedRV p observed d shape).

Definition pm_Deterministic (name : string) (var : pm.tensor) (d : pm.dims)
  : M pm.tensor :=
  register name (pm.Deterministic var d).

(** [pm.LKJCholeskyCov(name, eta, n, sd_dist)] with its defaults
    [compute_corr=True] and [store_in_trace=True]: PyMC declares the packed
    Cholesky factor under [name] and the correlations and standard
    deviations as deterministics under [name_corr] and [name_stds], and
    returns the unpacked factor with these two. *)
Definition pm_LKJCholeskyCov (name : string) (eta : pm.tensor) (n : nat)
    (sd_dist : pm.dist) : M (pm.tensor * pm.tensor * pm.tensor) :=
  register name (pm.FreeRV (pm.LKJCholeskyCov eta n sd_dist) None) ;;
  corr <- register (String.append name "_corr")
                   (pm.Deterministic (pm.TUnpack name 1) None) ;;
  stds <- register (String.append name "_stds")
                   (pm.Deterministic (pm.TUnpack name 2) None) ;;
  ret (pm.TUnpack name 0, corr, stds).

(** *** [ModelBuilder] *)

(** [ModelBuilder.__init__(sample_kwargs=None)], inherited by every
    subclass: an empty model, no inference data, and the given keyword
    arguments or an empty dictionary. *)
Definition init (c : class) (sample_kwargs : option kwargs) (g : Rng) : state :=
  mk_state c pm.empty None
           (match sample_kwargs with Some kw => kw | None => ∅ end) [] g.

Definition ModelBuilder_build_model (X y : np.ndarray)
    (coords : option pm.coords_t) : M unit :=
  raise (NotImplementedError "This method must be implemented by a subclass").

(** [ModelBuilder._data_setter(X)] *)
Definition ModelBuilder_data_setter (X : np.ndarray) : M unit :=
  set_data "X" X.

(** *** [WeightedSumFitter] *)

Definition WeightedSumFitter_build_model (X y : np.ndarray)
    (coords : option pm.coords_t) : M unit :=
  add_coords coords ;;
  n_predictors <- lift (np.shape_at X 1) ;;
  X_ <- pm_MutableData "X" X (Some ["obs_ind"; "coeffs"]) ;;
  y0 <- lift (np.getitem_col0 y) ;;
  y_ <- pm_MutableData "y" y0 (Some ["obs_ind"]) ;;
  beta <- pm_RV "beta" (pm.Dirichlet (pm.TArr (np.ones n_predictors)))
                (Some ["coeffs"]) ;;
  sigma <- pm_RV "sigma" (pm.HalfNormal (pm.TPy (PyAtom (PyInt 1)))) None ;;
  mu <- pm_Deterministic "mu" (pm.TDot X_ beta) (Some ["obs_ind"]) ;;
  pm_observed "y_hat" (pm.Normal mu sigma) y_ (Some ["obs_ind"]) None ;;
  ret tt.

(** *** [LinearRegression] *)

Definition LinearRegression_build_model (X y : np.ndarray)
    (coords : option pm.coords_t) : M unit :=
  add_coords coords ;;
  X_ <- pm_MutableData "X" X (Some ["obs_ind"; "coeffs"]) ;;
  y0 <- lift (np.getitem_col0 y) ;;
  y_ <- pm_MutableData "y" y0 (Some ["obs_ind"]) ;;
  beta <- pm_RV "beta" (pm.Normal (pm.TPy (PyAtom (PyInt 0)))
                                  (pm.TPy (PyAtom (PyInt 50))))
                (Some ["coeffs"]) ;;
  sigma <- pm_RV "sigma" (pm.HalfNormal (pm.TPy (PyAtom (PyInt 1)))) None ;;
  mu <- pm_Deterministic "mu" (pm.TDot X_ beta) (Some ["obs_ind"]) ;;
  pm_observed "y_hat" (pm.Normal mu sigma) y_ (Some ["obs_ind"]) None ;;
  ret tt.

(** *** [InstrumentalVariableRegression] *)

Definition InstrumentalVariableRegression_build_model (X Z y t : np.ndarray)
    (coords : option pm.coords_t) (priors : gmap string pyval) : M unit :=
  add_coords coords ;;
  mus <- lift (dict_getitem priors "mus") ;;
  mu0 <- lift (getitem mus 0) ;;
  sigmas <- lift (dict_getitem priors "sigmas") ;;
  sigma0 <- lift (getitem sigmas 0) ;;
  beta_t <- pm_RV "beta_t" (pm.Normal (pm.TPy mu0) (pm.TPy sigma0))
                  (Some ["instruments"]) ;;
  mus <- lift (dict_getitem priors "mus") ;;
  mu1 <- lift (getitem mus 1) ;;
  sigmas <- lift (dict_getitem priors "sigmas") ;;
  sigma1 <- lift (getitem sigmas 1) ;;
  beta_z <- pm_RV "beta_z" (pm.Normal (pm.TPy mu1) (pm.TPy sigma1))
                  (Some ["covariates"]) ;;
  lkj_sd <- lift (dict_getitem priors "lkj_sd") ;;
  let sd_dist := pm.HalfCauchy (pm.TPy lkj_sd) (Some [2%nat]) in
  eta <- lift (dict_getitem priors "eta") ;;
  unpacked <- pm_LKJCholeskyCov "chol_cov" (pm.TPy eta) 2 sd_dist ;;
  let chol := unpacked.1.1 in
  pm_Deterministic "cov" (pm.TDot chol (pm.TTranspose chol)) None ;;
  mu_y <- pm_Deterministic "mu_y" (pm.TDot (pm.TArr X) beta_z) None ;;
  mu_t <- pm_Deterministic "mu_t" (pm.TDot (pm.TArr Z) beta_t) None ;;
  mu <- pm_Deterministic "mu" (pm.TStack2 mu_y mu_t 1) None ;;
  observed <- lift (np.stack2_axis1 (np.flatten y) (np.flatten t)) ;;
  n_obs <- lift (np.shape_at X 0) ;;
  pm_observed "likelihood" (pm.MvNormal mu chol) (pm.TArr observed) None
              (Some [n_obs; 2%nat]) ;;
  ret tt.

(** *** Method calls on [self] *)

(** Python refuses a call whose number of arguments does not fit the
    parameters of the method found. *)
Definition arity_error {A} : M A :=
  raise (TypeError "wrong number of positional arguments").

(** [self.build_model(...)]: every class of the module defines its own. *)
Definition call_build_model (a : args) : M unit :=
  c <- get_class ;;
  match c, a with
  | ModelBuilder, Args3 X y coords => ModelBuilder_build_model X y coords
  | WeightedSumFitter, Args3 X y coords => WeightedSumFitter_build_model X y coords
  | LinearRegression, Args3 X y coords => LinearRegression_build_model X y coords
  | InstrumentalVariableRegression, Args6 X Z y t coords priors =>
      InstrumentalVariableRegression_build_model X Z y t coords priors
  | _, _ => arity_error
  end.

(** [ModelBuilder.fit(X, y, coords=None)] *)
Definition ModelBuilder_fit (X y : np.ndarray) (coords : option pm.coords_t)
  : M (option loc) :=
  call_build_model (Args3 X y coords) ;;
  kw <- get_sample_kwargs ;;
  posterior <- sample kw ;;
  l <- alloc posterior ;;
  assign_idata (Some l) ;;
  target <- idata_dot_extend ;;
  prior <- sample_prior_predictive ;;
  extend target prior ;;
  target <- idata_dot_extend ;;
  trace <- get_idata ;;
  post_pred <- sample_posterior_predictive trace None false ;;
  extend target post_pred ;;
  get_idata.

(** [InstrumentalVariableRegression.fit(X, Z, y, t, coords, priors)] *)
Definition InstrumentalVariableRegression_fit (X Z y t : np.ndarray)
    (coords : option pm.coords_t) (priors : gmap string pyval)
  : M (option loc) :=
  call_build_model (Args6 X Z y t coords priors) ;;
  kw <- get_sample_kwargs ;;
  posterior <- sample kw ;;
  l <- alloc posterior ;;
  assign_idata (Some l) ;;
  target <- idata_dot_extend ;;
  prior <- sample_prior_predictive ;;
  extend target prior ;;
  target <- idata_dot_extend ;;
  trace <- get_idata ;;
  post_pred <- sample_posterior_predictive trace None false ;;
  extend target post_pred ;;
  get_idata.

(** [self.fit(...)] *)
Definition call_fit (a : args) : M (option loc) :=
  c <- get_class ;;
  match resolve c m_fit, a with
  | Some ModelBuilder, Args3 X y coords => ModelBuilder_fit X y coords
  | Some InstrumentalVariableRegression, Args6 X Z y t coords priors =>
      InstrumentalVariableRegression_fit X Z y t coords priors
  | _, _ => arity_error
  end.

(** [ModelBuilder.predict(X)]: the new object is returned. *)
Definition ModelBuilder_predict (X : np.ndarray) : M loc :=
  ModelBuilder_data_setter X ;;
  trace <- get_idata ;;
  post_pred <- sample_posterior_predictive trace (Some ["y_hat"; "mu"]) false ;;
  alloc post_pred.

(** [az.extract(obj, group=..., var_names=...).T.values] on the object at
    [l]. *)
Definition extract_T_values (l : loc) (group var_names : string)
  : M np.ndarray :=
  fun s =>
    match heap s !! l with
    | Some i =>
        (result_bind (az_extract L i group var_names)
                     (fun da => Ok (da_values L (da_T L da))), s)
    | None => (Raise (OtherError "ReferenceError" "no such object"), s)
    end.

(** [ModelBuilder.score(X, y)] *)
Definition ModelBuilder_score (X y : np.ndarray) : M Series :=
  yhat <- ModelBuilder_predict X ;;
  yhat <- extract_T_values yhat "posterior_predictive" "y_hat" ;;
  lift (r2_score L (np.flatten y) yhat).

(** [self.predict(X)] and [self.score(X, y)]: one parameter list each. *)
Definition call_predict (X : np.ndarray) : M loc :=
  c <- get_class ;;
  match resolve c m_predict with
  | Some ModelBuilder => ModelBuilder_predict X
  | _ => raise (AttributeError "predict")
  end.

Definition call_score (X y : np.ndarray) : M Series :=
  c <- get_class ;;
  match resolve c m_score with
  | Some ModelBuilder => ModelBuilder_score X y
  | _ => raise (AttributeError "score")
  end.

(** *** Call sequences

    For the statements about which call of a [build_model] raised or
    returned, the sequence of its calls as a value: each call with what
    follows it, given what the call returned.  [run] executes a sequence;
    a call that raises ends it. *)
Inductive script (A : Type) : Type :=
| Done (a : A)
| Call {B : Type} (m : M B) (k : B -> script A).
Arguments Done {A} a.
Arguments Call {A B} m k.

Fixpoint run {A} (p : script A) : M A :=
  match p with
  | Done a => ret a
  | Call m k => bind m (fun b => run (k b))
  end.

Local Notation "x <~ m ;; k" := (Call m (fun x => k))
  (at level 100, m at next level, right associativity).
Local Notation "m ;;; k" := (Call m (fun _ => k))
  (at level 100, right associativity).

(** The calls [WeightedSumFitter.build_model] and
    [LinearRegression.build_model] have in common, from the declaration of
    ["X"] on, given the prior of [beta]. *)
Definition regression_calls (X y : np.ndarray) (beta_prior : pm.dist)
  : script unit :=
  X_ <~ pm_MutableData "X" X (Some ["obs_ind"; "coeffs"]) ;;
  y0 <~ lift (np.getitem_col0 y) ;;
  y_ <~ pm_MutableData "y" y0 (Some ["obs_ind"]) ;;
  beta <~ pm_RV "beta" beta_prior (Some ["coeffs"]) ;;
  sigma <~ pm_RV "sigma" (pm.HalfNormal (pm.TPy (PyAtom (PyInt 1)))) None ;;
  mu <~ pm_Deterministic "mu" (pm.TDot X_ beta) (Some ["obs_ind"]) ;;
  pm_observed "y_hat" (pm.Normal mu sigma) y_ (Some ["obs_ind"]) None ;;;
  Done tt.

Definition WeightedSumFitter_calls (X y : np.ndarray)
    (coords : option pm.coords_t) : script unit :=
  add_coords coords ;;;
  n_predictors <~ lift (np.shape_at X 1) ;;
  regression_calls X y (pm.Dirichlet (pm.TArr (np.ones n_predictors))).

Definition LinearRegression_calls (X y : np.ndarray)
    (coords : option pm.coords_t) : script unit :=
  add_coords coords ;;;
  regression_calls X y (pm.Normal (pm.TPy (PyAtom (PyInt 0)))
                                  (pm.TPy (PyAtom (PyInt 50)))).

Definition InstrumentalVariableRegression_calls (X Z y t : np.ndarray)
    (coords : option pm.coords_t) (priors : gmap string pyval)
  : script unit :=
  add_coords coords ;;;
  mus <~ lift (dict_getitem priors "mus") ;;
  mu0 <~ lift (getitem mus 0) ;;
  sigmas <~ lift (dict_getitem priors "sigmas") ;;
  sigma0 <~ lift (getitem sigmas 0) ;;
  beta_t <~ pm_RV "beta_t" (pm.Normal (pm.TPy mu0) (pm.TPy sigma0))
                  (Some ["instruments"]) ;;
  mus <~ lift (dict_getitem priors "mus") ;;
  mu1 <~ lift (getitem mus 1) ;;
  sigmas <~ lift (dict_getitem priors "sigmas") ;;
  sigma1 <~ lift (getitem sigmas 1) ;;
  beta_z <~ pm_RV "beta_z" (pm.Normal (pm.TPy mu1) (pm.TPy sigma1))
                  (Some ["covariates"]) ;;
  lkj_sd <~ lift (dict_getitem priors "lkj_sd") ;;
  eta <~ lift (dict_getitem priors "eta") ;;
  unpacked <~ pm_LKJCholeskyCov "chol_cov" (pm.TPy eta) 2
                (pm.HalfCauchy (pm.TPy lkj_sd) (Some [2%nat])) ;;
  pm_Deterministic "cov"
    (pm.TDot unpacked.1.1 (pm.TTranspose unpacked.1.1)) None ;;;
  mu_y <~ pm_Deterministic "mu_y" (pm.TDot (pm.TArr X) beta_z) None ;;
  mu_t <~ pm_Deterministic "mu_t" (pm.TDot (pm.TArr Z) beta_t) None ;;
  mu <~ pm_Deterministic "mu" (pm.TStack2 mu_y mu_t 1) None ;;
  observed <~ lift (np.stack2_axis1 (np.flatten y) (np.flatten t)) ;;
  n_obs <~ lift (np.shape_at X 0) ;;
  pm_observed "likelihood" (pm.MvNormal mu unpacked.1.1) (pm.TArr observed)
              None (Some [n_obs; 2%nat]) ;;;
  Done tt.

End Wrapper.

Arguments ret {_ _ _} _ _.
Arguments raise {_ _ _} _ _.
Arguments bind {_ _ _ _} _ _ _.
Arguments lift {_ _ _} _ _.
Arguments Done {_ _ _} _.
Arguments Call {_ _ _ _} _ _.
Arguments run {_ _ _} _ _.

(** A library that differs from [L] in the posterior sampler only. *)
Definition with_pm_sample {I D S G} (L : Library I D S G)
    (f : pm.Model -> kwargs -> G -> result I * G) : Library I D S G :=
  mk_Library I D S G
    (check_coords L) (check_decl L) (decl_coords L) (as_data L)
    (check_set_data L)
    f (pm_sample_prior_predictive L) (pm_sample_posterior_predictive L)
    (idata_extend L) (az_extract L) (da_T L) (da_values L) (r2_score L).

(** ** Arrays that agree on their first column

    [y] and [y'] have the same extent along axis 0 and the same trailing
    axes, at least one column each, and equal items at column 0 of every
    row; the other columns, and their number, are free. *)
Definition same_first_column (y y' : np.ndarray) : Prop :=
  exists n m m' rest,
    np.shape y = n :: m :: rest /\ np.shape y' = n :: m' :: rest /\
    (0 < m)%nat /\ (0 < m')%nat /\
    forall i k, (i < n)%nat -> (k < np.size_of rest)%nat ->
      np.data y !! (i * (m * np.size_of rest) + k)%nat =
      np.data y' !! (i * (m' * np.size_of rest) + k)%nat.

(** ** Vocabulary of the statements *)

(** [s'] differs from [s] in the model of the instance at most. *)
Definition only_model_changed {I G} (s s' : state I G) : Prop :=
  self_class s' = self_class s /\
  self_idata s' = self_idata s /\
  self_sample_kwargs s' = self_sample_kwargs s /\
  heap s' = heap s /\
  rng s' = rng s.

(** Every run of [m], returning or raising, relates the states by [R]. *)
Definition preserves {I G A} (R : state I G -> state I G -> Prop)
    (m : state I G -> result A * state I G) : Prop :=
  forall s r s', m s = (r, s') -> R s s'.


(** What [predict] may change: the value bound to the data variable ["X"]
    of the model, and the store, which only grows. *)
Definition predict_frame {I G} (s s' : state I G) : Prop :=
  self_class s' = self_class s /\
  self_idata s' = self_idata s /\
  self_sample_kwargs s' = self_sample_kwargs s /\
  (forall l i, heap s !! l = Some i -> heap s' !! l = Some i) /\
  pm.coords (self_model s') = pm.coords (self_model s) /\
  (pm.named_vars (self_model s')).*1 = (pm.named_vars (self_model s)).*1 /\
  (forall name, name <> "X" ->
     pm.lookup (self_model s') name = pm.lookup (self_model s) name).

(** The calls both [fit] methods make once [build_model] has returned. *)
Definition sampling_steps {I D S G} (L : Library I D S G)
  : unit -> state I G -> result (option loc) * state I G :=
  fun _ =>
    bind get_sample_kwargs (fun kw =>
    bind (sample L kw) (fun posterior =>
    bind (alloc posterior) (fun l =>
    bind (assign_idata (Some l)) (fun _ =>
    bind idata_dot_extend (fun target =>
    bind (sample_prior_predictive L) (fun prior =>
    bind (extend L target prior) (fun _ =>
    bind idata_dot_extend (fun target =>
    bind get_idata (fun trace =>
    bind (sample_posterior_predictive L trace None false) (fun post_pred =>
    bind (extend L target post_pred) (fun _ => get_idata))))))))))).

(** The instance after [fit] has bound a new object holding [i] to
    [self.idata], with random state [g]. *)
Definition bound_idata {I G} (s1 : state I G) (i : I) (g : G) : state I G :=
  mk_state (self_class s1) (self_model s1) (Some (length (heap s1)))
           (self_sample_kwargs s1) (heap s1 ++ [i]) g.

(** [fit_raises L a s e s']: one of the calls [fit] makes with arguments
    [a] from state [s] raised [e], the calls before it having returned;
    [s'] is the state at that point. *)
Inductive fit_raises {I D S G} (L : Library I D S G) (a : args)
    (s : state I G) : exn -> state I G -> Prop :=
| raised_by_build_model e s' :
    call_build_model L a s = (Raise e, s') ->
    fit_raises L a s e s'
| raised_by_sample s1 e g :
    call_build_model L a s = (Ok tt, s1) ->
    pm_sample L (self_model s1) (self_sample_kwargs s1) (rng s1) = (Raise e, g) ->
    fit_raises L a s e (set_rng g s1)
| raised_by_sample_prior_predictive s1 posterior g1 e g2 :
    call_build_model L a s = (Ok tt, s1) ->
    pm_sample L (self_model s1) (self_sample_kwargs s1) (rng s1)
      = (Ok posterior, g1) ->
    pm_sample_prior_predictive L (self_model s1) g1 = (Raise e, g2) ->
    fit_raises L a s e (bound_idata s1 posterior g2)
| raised_by_first_extend s1 posterior g1 prior g2 e :
    call_build_model L a s = (Ok tt, s1) ->
    pm_sample L (self_model s1) (self_sample_kwargs s1) (rng s1)
      = (Ok posterior, g1) ->
    pm_sample_prior_predictive L (self_model s1) g1 = (Ok prior, g2) ->
    idata_extend L posterior prior = Raise e ->
    fit_raises L a s e (bound_idata s1 posterior g2)
| raised_by_sample_posterior_predictive s1 posterior g1 prior g2 i1 e g3 :
    call_build_model L a s = (Ok tt, s1) ->
    pm_sample L (self_model s1) (self_sample_kwargs s1) (rng s1)
      = (Ok posterior, g1) ->
    pm_sample_prior_predictive L (self_model s1) g1 = (Ok prior, g2) ->
    idata_extend L posterior prior = Ok i1 ->
    pm_sample_posterior_predictive L (self_model s1) (Some i1) None false g2
      = (Raise e, g3) ->
    fit_raises L a s e (bound_idata s1 i1 g3)
| raised_by_second_extend s1 posterior g1 prior g2 i1 post_pred g3 e :
    call_build_model L a s = (Ok tt, s1) ->
    pm_sample L (self_model s1) (self_sample_kwargs s1) (rng s1)
      = (Ok posterior, g1) ->
    pm_sample_prior_predictive L (self_model s1) g1 = (Ok prior, g2) ->
    idata_extend L posterior prior = Ok i1 ->
    pm_sample_posterior_predictive L (self_model s1) (Some i1) None false g2
      = (Ok post_pred, g3) ->
    idata_extend L i1 post_pred = Raise e ->
    fit_raises L a s e (bound_idata s1 i1 g3).

(** The two calls of [predict] that can raise. *)
Inductive predict_raises {I D S G} (L : Library I D S G) (X : np.ndarray)
    (s : state I G) : exn -> state I G -> Prop :=
| raised_by_data_setter e s' :
    ModelBuilder_data_setter L X s = (Raise e, s') ->
    predict_raises L X s e s'
| raised_by_posterior_predictive s1 e g :
    ModelBuilder_data_setter L X s = (Ok tt, s1) ->
    pm_sample_posterior_predictive L (self_model s1)
        (deref s1 (self_idata s1)) (Some ["y_hat"; "mu"]) false (rng s1)
      = (Raise e, g) ->
    predict_raises L X s e (set_rng g s1).

(** The three calls of [score] that can raise. *)
Inductive score_raises {I D S G} (L : Library I D S G) (X y : np.ndarray)
    (s : state I G) : exn -> state I G -> Prop :=
| raised_by_predict e s' :
    ModelBuilder_predict L X s = (Raise e, s') ->
    score_raises L X y s e s'
| raised_by_extract l s' post_pred e :
    ModelBuilder_predict L X s = (Ok l, s') ->
    heap s' !! l = Some post_pred ->
    az_extract L post_pred "posterior_predictive" "y_hat" = Raise e ->
    score_raises L X y s e s'
| raised_by_r2_score l s' post_pred da e :
    ModelBuilder_predict L X s = (Ok l, s') ->
    heap s' !! l = Some post_pred ->
    az_extract L post_pred "posterior_predictive" "y_hat" = Ok da ->
    r2_score L (np.flatten y) (da_values L (da_T L da)) = Raise e ->
    score_raises L X y s e s'.

(** The library's posterior predictive sampler raises when it is handed
    None for a trace, as PyMC does. *)
Definition refuses_missing_trace {I D S G} (L : Library I D S G) : Prop :=
  forall m var_names progressbar g,
    exists e g',
      pm_sample_posterior_predictive L m None var_names progressbar g
        = (Raise e, g').

(** [script_raises p s e s']: one of the calls of [p], run from [s],
    raised [e], the calls before it having returned; [s'] is the state that
    call left. *)
Fixpoint script_raises {I G A} (p : script A) (s : state I G) (e : exn)
    (s' : state I G) : Prop :=
  match p with
  | Done _ => False
  | Call m k =>
      m s = (Raise e, s') \/
      exists b s1, m s = (Ok b, s1) /\ script_raises (k b) s1 e s'
  end.

(** [script_returns p s a s']: every call of [p], run from [s], returned,
    the last one leaving [s']. *)
Fixpoint script_returns {I G A} (p : script A) (s : state I G) (a : A)
    (s' : state I G) : Prop :=
  match p with
  | Done a0 => a = a0 /\ s' = s
  | Call m k =>
      exists b s1, m s = (Ok b, s1) /\ script_returns (k b) s1 a s'
  end.

(** With the library [L], [build_model] of class [c] can return: there
    are arguments and an instance of the class with which it does. *)
Definition build_model_can_return {I D S G} (L : Library I D S G)
    (c : class) : Prop :=
  exists a (s s' : state I G),
    self_class s = c /\ call_build_model L a s = (Ok tt, s').

(** The coordinates of a model after [add_coords(coords)]. *)
Definition merged_coords (coords : option pm.coords_t) (old : pm.coords_t)
  : pm.coords_t :=
  match coords with
  | Some c => c ∪ old
  | None => old
  end.

(** ** Vocabulary of the further properties *)

(** [self.idata], when bound, refers to an object of the store. *)
Definition idata_in_store {I G} (s : state I G) : Prop :=
  forall l, self_idata s = Some l -> is_Some (heap s !! l).

(** A step that leaves ["X"] undeclared. *)
Definition keeps_X_undeclared {I G} (s s' : state I G) : Prop :=
  pm.lookup (self_model s) "X" = None -> pm.lookup (self_model s') "X" = None.

(** A step that keeps every declared variable as it is. *)
Definition keeps_declared {I G} (s s' : state I G) : Prop :=
  forall name d,
    pm.lookup (self_model s) name = Some d ->
    pm.lookup (self_model s') name = Some d.

(** The method calls a user can make on an instance. *)
Inductive call :=
| Call_build_model (a : args)
| Call_data_setter (X : np.ndarray)
| Call_fit (a : args)
| Call_predict (X : np.ndarray)
| Call_score (X y : np.ndarray).

(** The instance after a call, whether it returned or raised. *)
Definition after_call {I D S G} (L : Library I D S G) (c : call)
    (s : state I G) : state I G :=
  match c with
  | Call_build_model a => snd (call_build_model L a s)
  | Call_data_setter X => snd (ModelBuilder_data_setter L X s)
  | Call_fit a => snd (call_fit L a s)
  | Call_predict X => snd (call_predict L X s)
  | Call_score X y => snd (call_score L X y s)
  end.

(** The states an instance can get into from [s0] by method calls. *)
Inductive reachable {I D S G} (L : Library I D S G) (s0 : state I G)
  : state I G -> Prop :=
| reachable_here : reachable L s0 s0
| reachable_call c s : reachable L s0 s -> reachable L s0 (after_call L c s).

(** What no method call changes: the class and [sample_kwargs] of the
    instance and the objects of the store; [self.idata] is kept or refers
    to a new object. *)
Definition call_frame {I G} (s s' : state I G) : Prop :=
  self_class s' = self_class s /\
  self_sample_kwargs s' = self_sample_kwargs s /\
  (forall l i, heap s !! l = Some i -> heap s' !! l = Some i) /\
  (self_idata s' = self_idata s \/
   exists l, self_idata s' = Some l /\ heap s !! l = None /\
             is_Some (heap s' !! l)).

(** ** A reference library

    A small deterministic library on which the wrapper can be run.
    Inference data are the lists of their group names and the random state
    counts the sampler calls.  Like PyMC it refuses a data variable whose
    dimensions do not match its array and a variable with a dimension the
    model does not know, makes the dimensions of a data variable
    coordinates of the model, and needs a trace for posterior predictive
    sampling; like ArviZ it scores as many outcomes as there are
    predictions.  The arrays of the runs are small, so the conversion of
    data keeps them. *)
Module RefLib.

Definition InferenceData := list string.

Definition known (m : pm.Model) (d : pm.dims) : bool :=
  match d with
  | Some ds => forallb (fun dname => bool_decide (is_Some (pm.coords m !! dname))) ds
  | None => true
  end.

Definition check (m : pm.Model) (name : string) (d : pm.decl) : option exn :=
  match d with
  | pm.MutableData v (Some ds) =>
      if (length ds =? np.ndim v)%nat then None
      else Some (OtherError "ShapeError"
                   "Length of dims must match the dimensions of the dataset")
  | pm.MutableData _ None => None
  | pm.FreeRV _ ds | pm.ObservedRV _ _ ds _ | pm.Deterministic _ ds =>
      if known m ds then None
      else Some (KeyError "dimensions unknown to the model")
  end.

(** The dimensions of a data variable become coordinates, without values
    when the model has none for them. *)
Definition coords_with (m : pm.Model) (name : string) (d : pm.decl)
  : pm.coords_t :=
  match d with
  | pm.MutableData _ (Some ds) =>
      foldr (fun dname c =>
               match c !! dname with
               | Some _ => c
               | None => <[dname := []]> c
               end) (pm.coords m) ds
  | _ => pm.coords m
  end.

Definition extend (a b : InferenceData) : result InferenceData :=
  Ok (a ++ filter (fun g => g ∉ a) b).

Definition sample_posterior_predictive (m : pm.Model)
    (trace : option InferenceData) (var_names : option (list string))
    (progressbar : bool) (g : nat) : result InferenceData * nat :=
  match trace with
  | Some _ => (Ok ["posterior_predictive"], S g)
  | None => (Raise (TypeError "Unsupported type for trace argument"), g)
  end.

(** Two predictions, one sample: observations by samples. *)
Definition extract (i : InferenceData) (group var_names : string)
  : result np.ndarray :=
  if bool_decide (group ∈ i)
  then Ok (np.mk_ndarray [2; 1]%nat [0; 0]%Q)
  else Raise (KeyError group).

Definition transpose (a : np.ndarray) : np.ndarray :=
  np.mk_ndarray (reverse (np.shape a)) (np.data a).

Definition score (y_true y_pred : np.ndarray) : result (list (string * Q)) :=
  match np.shape y_pred with
  | [_; n] =>
      if (length (np.data y_true) =? n)%nat
      then Ok [("r2", 1%Q); ("r2_std", 0%Q)]
      else Raise (ValueError "operands could not be broadcast together")
  | _ => Raise (ValueError "operands could not be broadcast together")
  end.

Definition lib : Library InferenceData np.ndarray (list (string * Q)) nat :=
  mk_Library _ _ _ _
    (fun _ _ => None) check coords_with (fun a => a) (fun _ _ _ => None)
    (fun _ _ g => (Ok ["posterior"; "sample_stats"], S g))
    (fun _ g => (Ok ["prior"; "prior_predictive"], S g))
    sample_posterior_predictive
    extend extract transpose (fun a => a) score.

(** Two observations of two predictors; outcomes with two columns, with
    three, with one, and one-dimensional ones. *)
Definition X : np.ndarray := np.mk_ndarray [2; 2]%nat [1; 2; 3; 4]%Q.
Definition y : np.ndarray := np.mk_ndarray [2; 2]%nat [5; 6; 7; 8]%Q.
Definition y' : np.ndarray := np.mk_ndarray [2; 3]%nat [5; 0; 0; 7; 0; 0]%Q.
Definition y_col : np.ndarray := np.mk_ndarray [2; 1]%nat [5; 7]%Q.
Definition y1 : np.ndarray := np.mk_ndarray [2]%nat [5; 7]%Q.
Definition t : np.ndarray := np.mk_ndarray [2]%nat [0; 1]%Q.

Definition priors : gmap string pyval :=
  <["mus" := PyList [PyInt 0; PyInt 0]]>
  (<["sigmas" := PyList [PyInt 1; PyInt 1]]>
  (<["eta" := PyAtom (PyInt 2)]>
  (<["lkj_sd" := PyAtom (PyInt 2)]> ∅))).

(** The coordinates of the instrumental-variable model: two instruments
    and two covariates. *)
Definition coords_IV : pm.coords_t :=
  <["instruments" := [PyStr "z0"; PyStr "z1"]]>
  (<["covariates" := [PyStr "x0"; PyStr "x1"]]> ∅).

Definition X_new : np.ndarray := np.mk_ndarray [2; 2]%nat [9; 10; 11; 12]%Q.

Definition new (c : class) : state InferenceData nat := init c None 0%nat.

(** The instances after a first [fit]. *)
Definition fitted (c : class) : state InferenceData nat :=
  snd (call_fit lib (Args3 X y None) (new c)).

(** An instrumental-variable instance after its own [fit]. *)
Definition args_IV : args := Args6 X X y1 t (Some coords_IV) priors.

Definition fitted_IV : state InferenceData nat :=
  snd (call_fit lib args_IV (new InstrumentalVariableRegression)).

(** The same library with a prior predictive sampler that fails. *)
Definition failing_prior_predictive
  : Library InferenceData np.ndarray (list (string * Q)) nat :=
  mk_Library _ _ _ _
    (check_coords lib) (check_decl lib) (decl_coords lib) (as_data lib)
    (check_set_data lib) (pm_sample lib)
    (fun _ g => (Raise (OtherError "SamplingError" "prior predictive"), g))
    (pm_sample_posterior_predictive lib)
    (idata_extend lib) (az_extract lib) (da_T lib) (da_values lib)
    (r2_score lib).

(** A [LinearRegression] after a [fit] that this library made fail. *)
Definition after_failed_fit : state InferenceData nat :=
  snd (call_fit failing_prior_predictive (Args3 X y None)
                (new LinearRegression)).

End RefLib.

(** * Verification *)

(** ** The method monad *)

Section Monad.

Context {InferenceData DataArray Series Rng : Type}.
Variable L : Library InferenceData DataArray Series Rng.

Let state : Type := state InferenceData Rng.

Lemma bind_ok {A B} (m : state -> result A * state)
    (k : A -> state -> result B * state) s a s1 :
  m s = (Ok a, s1) -> bind m k s = k a s1.
Proof. intros E. unfold bind. now rewrite E. Qed.

Lemma bind_raise {A B} (m : state -> result A * state)
    (k : A -> state -> result B * state) s e s1 :
  m s = (Raise e, s1) -> bind m k s = (Raise e, s1).
Proof. intros E. unfold bind. now rewrite E. Qed.

Lemma bind_ok_inv {A B} (m : state -> result A * state)
    (k : A -> state -> result B * state) s b s' :
  bind m k s = (Ok b, s') ->
  exists a s1, m s = (Ok a, s1) /\ k a s1 = (Ok b, s').
Proof.
  unfold bind. destruct (m s) as [[a | e] s1]; intros E.
  - now exists a, s1.
  - discriminate.
Qed.

Lemma bind_raise_inv {A B} (m : state -> result A * state)
    (k : A -> state -> result B * state) s e s' :
  bind m k s = (Raise e, s') ->
  m s = (Raise e, s') \/
  exists a s1, m s = (Ok a, s1) /\ k a s1 = (Raise e, s').
Proof.
  unfold bind. destruct (m s) as [[a | e0] s1]; intros E.
  - right. exists a, s1. split; [reflexivity | exact E].
  - left. injection E as E1 E2. now subst.
Qed.

Lemma lift_ok_inv {A} (r : result A) (s s1 : state) a :
  lift r s = (Ok a, s1) -> r = Ok a /\ s1 = s.
Proof. unfold lift. intros E. injection E as E1 E2. now subst. Qed.

(** A sequence of calls returns exactly when each call returns in turn,
    and raises exactly what the first call that raises raised. *)
Lemma run_returns_iff {A} (p : script A) (s : state) a s' :
  run p s = (Ok a, s') <-> script_returns p s a s'.
Proof.
  revert s. induction p as [a0 | B m k IH]; intros s; simpl.
  - unfold ret. split.
    + intros H. injection H as <- <-. now split.
    + now intros [-> ->].
  - unfold bind. destruct (m s) as [[b | e] s1] eqn:E.
    + rewrite IH. split.
      * intros H. now exists b, s1.
      * intros (b' & s1' & E' & H). injection E' as <- <-. exact H.
    + split; [discriminate |]. intros (b' & s1' & E' & _). discriminate.
Qed.

Lemma run_raises_iff {A} (p : script A) (s : state) e s' :
  run p s = (Raise e, s') <-> script_raises p s e s'.
Proof.
  revert s. induction p as [a0 | B m k IH]; intros s; simpl.
  - unfold ret. split; [discriminate | tauto].
  - unfold bind. destruct (m s) as [[b | e0] s1] eqn:E.
    + rewrite IH. split.
      * intros H. right. now exists b, s1.
      * intros [E' | (b' & s1' & E' & H)]; [discriminate |].
        injection E' as <- <-. exact H.
    + split.
      * intros H. injection H as <- <-. now left.
      * intros [E' | (b' & s1' & E' & _)]; [| discriminate].
        injection E' as <- <-. reflexivity.
Qed.

End Monad.

(** ** NumPy arrays: the operations keep arrays well formed *)

Lemma ones_wf n : np.wf (np.ones n).
Proof. unfold np.wf. simpl. rewrite length_replicate. lia. Qed.

Lemma flatten_wf a : np.wf (np.flatten a).
Proof. unfold np.wf. simpl. lia. Qed.

Lemma col0_items_length n stride r (d : list Q) :
  (r <= stride)%nat -> length d = (n * stride)%nat ->
  length (np.col0_items n stride r d) = (n * r)%nat.
Proof.
  intros Hr. revert d. induction n as [| n IH]; intros d Hd; simpl;
    [reflexivity |].
  rewrite length_app, length_take, IH by (rewrite length_drop; lia). lia.
Qed.

Lemma getitem_col0_wf a b :
  np.wf a -> np.getitem_col0 a = Ok b -> np.wf b.
Proof.
  unfold np.wf, np.getitem_col0.
  destruct (np.shape a) as [| n [| m rest]]; try discriminate.
  destruct (Nat.eqb_spec m 0); [discriminate |].
  simpl. intros Ha H. injection H as <-. simpl.
  apply col0_items_length; [nia | lia].
Qed.

(** ** The model registry *)

Lemma assoc_app name vs ws :
  pm.assoc name (vs ++ ws) =
  match pm.assoc name vs with
  | Some d => Some d
  | None => pm.assoc name ws
  end.
Proof.
  induction vs as [| [n d] vs IH]; simpl; [reflexivity |].
  now destruct (String.eqb n name).
Qed.

Lemma assoc_replace_eq name d vs d0 :
  pm.assoc name vs = Some d0 ->
  pm.assoc name (pm.replace name d vs) = Some d.
Proof.
  induction vs as [| [n d1] vs IH]; simpl; [discriminate |].
  destruct (String.eqb n name) eqn:E; simpl; rewrite E; auto.
Qed.

Lemma assoc_replace_ne name d vs name' :
  name' <> name ->
  pm.assoc name' (pm.replace name d vs) = pm.assoc name' vs.
Proof.
  intros Hne. induction vs as [| [n d1] vs IH]; simpl; [reflexivity |].
  destruct (String.eqb n name) eqn:E; simpl.
  - apply String.eqb_eq in E. subst n.
    destruct (String.eqb name name') eqn:E'; [| reflexivity].
    apply String.eqb_eq in E'. congruence.
  - now rewrite IH.
Qed.

Lemma replace_names name d vs :
  (pm.replace name d vs).*1 = vs.*1.
Proof.
  induction vs as [| [n d1] vs IH]; simpl; [reflexivity |].
  destruct (String.eqb n name); rewrite !fmap_cons; simpl;
    [reflexivity | now rewrite IH].
Qed.

(** ** Steps of [build_model] *)

Section Build.

Context {InferenceData DataArray Series Rng : Type}.
Variable L : Library InferenceData DataArray Series Rng.

Let state : Type := state InferenceData Rng.

Lemma add_coords_ok_inv coords (s s1 : state) u :
  add_coords L coords s = (Ok u, s1) ->
  only_model_changed s s1 /\
  pm.named_vars (self_model s1) = pm.named_vars (self_model s) /\
  pm.coords (self_model s1) = merged_coords coords (pm.coords (self_model s)) /\
  pm.free_RVs (self_model s1) = pm.free_RVs (self_model s).
Proof.
  unfold add_coords. destruct coords as [c |].
  - destruct (check_coords L (self_model s) c); intros E; [discriminate |].
    injection E as _ <-. now repeat split.
  - intros E. injection E as _ <-. now repeat split.
Qed.

Lemma register_ok_inv name d (s s1 : state) t :
  register L name d s = (Ok t, s1) ->
  t = pm.TVar name /\
  pm.lookup (self_model s) name = None /\
  only_model_changed s s1 /\
  pm.coords (self_model s1) = decl_coords L (self_model s) name d /\
  pm.named_vars (self_model s1) = pm.named_vars (self_model s) ++ [(name, d)] /\
  pm.free_RVs (self_model s1) =
    pm.free_RVs (self_model s) ++ (if pm.is_free_rv d then [(name, d)] else []).
Proof.
  unfold register.
  destruct (check_decl L (self_model s) name d); [discriminate |].
  destruct (pm.lookup (self_model s) name); intros E; [discriminate |].
  injection E as <- <-. now repeat split.
Qed.

Lemma only_model_changed_refl (s : state) : only_model_changed s s.
Proof. now repeat split. Qed.

Lemma only_model_changed_trans (s1 s2 s3 : state) :
  only_model_changed s1 s2 -> only_model_changed s2 s3 ->
  only_model_changed s1 s3.
Proof. unfold only_model_changed. intuition congruence. Qed.

Lemma pm_LKJCholeskyCov_ok_inv name eta n sd_dist (s s1 : state) u :
  pm_LKJCholeskyCov L name eta n sd_dist s = (Ok u, s1) ->
  u = (pm.TUnpack name 0, pm.TVar (String.append name "_corr"),
       pm.TVar (String.append name "_stds")) /\
  only_model_changed s s1 /\
  pm.named_vars (self_model s1) =
    pm.named_vars (self_model s) ++
    [(name, pm.FreeRV (pm.LKJCholeskyCov eta n sd_dist) None);
     (String.append name "_corr",
      pm.Deterministic (pm.TUnpack name 1) None);
     (String.append name "_stds",
      pm.Deterministic (pm.TUnpack name 2) None)] /\
  pm.free_RVs (self_model s1) =
    pm.free_RVs (self_model s) ++
    [(name, pm.FreeRV (pm.LKJCholeskyCov eta n sd_dist) None)] /\
  pm.lookup (self_model s) name = None.
Proof.
  unfold pm_LKJCholeskyCov. intros H.
  apply bind_ok_inv in H as (t0 & s2 & E0 & H).
  apply bind_ok_inv in H as (t1 & s3 & E1 & H).
  apply bind_ok_inv in H as (t2 & s4 & E2 & H).
  injection H as <- <-.
  apply register_ok_inv in E0 as (_ & F0 & O0 & _ & V0 & R0).
  apply register_ok_inv in E1 as (-> & _ & O1 & _ & V1 & R1).
  apply register_ok_inv in E2 as (-> & _ & O2 & _ & V2 & R2).
  split; [reflexivity |]. split.
  { eapply only_model_changed_trans; [exact O0 |].
    eapply only_model_changed_trans; [exact O1 | exact O2]. }
  split; [rewrite V2, V1, V0, <- !app_assoc; reflexivity |].
  split; [| exact F0].
  rewrite R2, R1, R0. simpl. now rewrite !app_nil_r.
Qed.

End Build.

Ltac ok_classify E :=
  lazymatch type of E with
  | lift _ _ = _ =>
      let R := fresh "R" in
      apply lift_ok_inv in E; destruct E as [R E]; subst
  | register _ _ _ _ = _ =>
      let T := fresh "T" in
      let F := fresh "F" in
      let O := fresh "O" in
      let C := fresh "C" in
      let V := fresh "V" in
      let P := fresh "P" in
      apply register_ok_inv in E; destruct E as (T & F & O & C & V & P);
      simpl in P; subst
  | pm_LKJCholeskyCov _ _ _ _ _ _ = _ =>
      let T := fresh "T" in
      let F := fresh "F" in
      let O := fresh "O" in
      let V := fresh "V" in
      let P := fresh "P" in
      apply pm_LKJCholeskyCov_ok_inv in E; destruct E as (T & O & V & P & F);
      simpl in V; subst
  | add_coords _ _ _ = _ =>
      let O := fresh "O" in
      let V := fresh "V" in
      let C := fresh "C" in
      let P := fresh "P" in
      apply add_coords_ok_inv in E; destruct E as (O & V & C & P)
  | _ => idtac
  end.

(** One step of a successful run: split the first call off and invert it. *)
Ltac ok_step H :=
  let a := fresh "a" in
  let s := fresh "s" in
  let E := fresh "E" in
  apply bind_ok_inv in H; destruct H as (a & s & E & H);
  ok_classify E.

Ltac chain_frames :=
  repeat (eapply only_model_changed_trans; [eassumption |]);
  apply only_model_changed_refl.

Ltac chain_vars :=
  repeat match goal with
         | V : pm.named_vars (self_model ?s) = _
           |- context [pm.named_vars (self_model ?s)] => rewrite V
         end;
  rewrite <- ?app_assoc; reflexivity.

Ltac chain_free :=
  repeat match goal with
         | P : pm.free_RVs (self_model ?s) = _
           |- context [pm.free_RVs (self_model ?s)] => rewrite P
         end;
  rewrite ?app_nil_r, <- ?app_assoc; reflexivity.

Section BuildModels.

Context {InferenceData DataArray Series Rng : Type}.
Variable L : Library InferenceData DataArray Series Rng.

Let state : Type := state InferenceData Rng.

Lemma lookup_None_before (m m' : pm.Model) ws name :
  pm.named_vars m' = pm.named_vars m ++ ws ->
  pm.lookup m' name = None -> pm.lookup m name = None.
Proof.
  unfold pm.lookup. intros ->. rewrite assoc_app.
  now destruct (pm.assoc name (pm.named_vars m)).
Qed.

Lemma lookup_appended (m m' : pm.Model) ws name :
  pm.named_vars m' = pm.named_vars m ++ ws ->
  pm.lookup m name = None ->
  pm.lookup m' name = pm.assoc name ws.
Proof. unfold pm.lookup. intros -> E. now rewrite assoc_app, E. Qed.

Lemma WeightedSumFitter_build_model_ok X y coords (s s' : state) u :
  WeightedSumFitter_build_model L X y coords s = (Ok u, s') ->
  exists n y0,
    np.shape_at X 1 = Ok n /\ np.getitem_col0 y = Ok y0 /\
    only_model_changed s s' /\
    pm.named_vars (self_model s') =
      pm.named_vars (self_model s) ++
      [("X", pm.MutableData (as_data L X) (Some ["obs_ind"; "coeffs"]));
       ("y", pm.MutableData (as_data L y0) (Some ["obs_ind"]));
       ("beta", pm.FreeRV (pm.Dirichlet (pm.TArr (np.ones n))) (Some ["coeffs"]));
       ("sigma", pm.FreeRV (pm.HalfNormal (pm.TPy (PyAtom (PyInt 1)))) None);
       ("mu", pm.Deterministic (pm.TDot (pm.TVar "X") (pm.TVar "beta"))
                               (Some ["obs_ind"]));
       ("y_hat", pm.ObservedRV (pm.Normal (pm.TVar "mu") (pm.TVar "sigma"))
                               (pm.TVar "y") (Some ["obs_ind"]) None)] /\
    pm.lookup (self_model s) "X" = None /\
    pm.lookup (self_model s) "beta" = None /\
    pm.free_RVs (self_model s') =
      pm.free_RVs (self_model s) ++
      [("beta", pm.FreeRV (pm.Dirichlet (pm.TArr (np.ones n))) (Some ["coeffs"]));
       ("sigma", pm.FreeRV (pm.HalfNormal (pm.TPy (PyAtom (PyInt 1)))) None)].
Proof.
  unfold WeightedSumFitter_build_model, pm_MutableData, pm_RV,
    pm_Deterministic, pm_observed.
  intros H. do 9 ok_step H. injection H as _ <-.
  do 2 eexists. do 2 (split; [eassumption |]).
  split; [chain_frames |]. split; [chain_vars |]. split; [| split].
  - unfold pm.lookup in *. now rewrite <- V.
  - eapply lookup_None_before; [| exact F1]. chain_vars.
  - chain_free.
Qed.

Lemma LinearRegression_build_model_ok X y coords (s s' : state) u :
  LinearRegression_build_model L X y coords s = (Ok u, s') ->
  exists y0,
    np.getitem_col0 y = Ok y0 /\
    only_model_changed s s' /\
    pm.named_vars (self_model s') =
      pm.named_vars (self_model s) ++
      [("X", pm.MutableData (as_data L X) (Some ["obs_ind"; "coeffs"]));
       ("y", pm.MutableData (as_data L y0) (Some ["obs_ind"]));
       ("beta", pm.FreeRV (pm.Normal (pm.TPy (PyAtom (PyInt 0)))
                                     (pm.TPy (PyAtom (PyInt 50))))
                          (Some ["coeffs"]));
       ("sigma", pm.FreeRV (pm.HalfNormal (pm.TPy (PyAtom (PyInt 1)))) None);
       ("mu", pm.Deterministic (pm.TDot (pm.TVar "X") (pm.TVar "beta"))
                               (Some ["obs_ind"]));
       ("y_hat", pm.ObservedRV (pm.Normal (pm.TVar "mu") (pm.TVar "sigma"))
                               (pm.TVar "y") (Some ["obs_ind"]) None)] /\
    pm.lookup (self_model s) "X" = None /\
    pm.lookup (self_model s) "beta" = None /\
    pm.free_RVs (self_model s') =
      pm.free_RVs (self_model s) ++
      [("beta", pm.FreeRV (pm.Normal (pm.TPy (PyAtom (PyInt 0)))
                                     (pm.TPy (PyAtom (PyInt 50))))
                          (Some ["coeffs"]));
       ("sigma", pm.FreeRV (pm.HalfNormal (pm.TPy (PyAtom (PyInt 1)))) None)].
Proof.
  unfold LinearRegression_build_model, pm_MutableData, pm_RV,
    pm_Deterministic, pm_observed.
  intros H. do 8 ok_step H. injection H as _ <-.
  eexists. split; [eassumption |].
  split; [chain_frames |]. split; [chain_vars |]. split; [| split].
  - unfold pm.lookup in *. now rewrite <- V.
  - eapply lookup_None_before; [| exact F1]. chain_vars.
  - chain_free.
Qed.

Lemma InstrumentalVariableRegression_build_model_ok
    X Z y t coords priors (s s' : state) u :
  InstrumentalVariableRegression_build_model L X Z y t coords priors s
    = (Ok u, s') ->
  exists mus sigmas mu0 sigma0 mu1 sigma1 lkj_sd eta observed n_obs,
    dict_getitem priors "mus" = Ok mus /\
    dict_getitem priors "sigmas" = Ok sigmas /\
    getitem mus 0 = Ok mu0 /\ getitem sigmas 0 = Ok sigma0 /\
    getitem mus 1 = Ok mu1 /\ getitem sigmas 1 = Ok sigma1 /\
    dict_getitem priors "lkj_sd" = Ok lkj_sd /\
    dict_getitem priors "eta" = Ok eta /\
    np.stack2_axis1 (np.flatten y) (np.flatten t) = Ok observed /\
    np.shape_at X 0 = Ok n_obs /\
    only_model_changed s s' /\
    pm.named_vars (self_model s') =
      pm.named_vars (self_model s) ++
      [("beta_t", pm.FreeRV (pm.Normal (pm.TPy mu0) (pm.TPy sigma0))
                            (Some ["instruments"]));
       ("beta_z", pm.FreeRV (pm.Normal (pm.TPy mu1) (pm.TPy sigma1))
                            (Some ["covariates"]));
       ("chol_cov",
        pm.FreeRV (pm.LKJCholeskyCov (pm.TPy eta) 2
                     (pm.HalfCauchy (pm.TPy lkj_sd) (Some [2%nat]))) None);
       ("chol_cov_corr", pm.Deterministic (pm.TUnpack "chol_cov" 1) None);
       ("chol_cov_stds", pm.Deterministic (pm.TUnpack "chol_cov" 2) None);
       ("cov", pm.Deterministic
                 (pm.TDot (pm.TUnpack "chol_cov" 0)
                          (pm.TTranspose (pm.TUnpack "chol_cov" 0))) None);
       ("mu_y", pm.Deterministic (pm.TDot (pm.TArr X) (pm.TVar "beta_z")) None);
       ("mu_t", pm.Deterministic (pm.TDot (pm.TArr Z) (pm.TVar "beta_t")) None);
       ("mu", pm.Deterministic
                (pm.TStack2 (pm.TVar "mu_y") (pm.TVar "mu_t") 1) None);
       ("likelihood",
        pm.ObservedRV (pm.MvNormal (pm.TVar "mu") (pm.TUnpack "chol_cov" 0))
                      (pm.TArr observed) None (Some [n_obs; 2%nat]))] /\
    pm.free_RVs (self_model s') =
      pm.free_RVs (self_model s) ++
      [("beta_t", pm.FreeRV (pm.Normal (pm.TPy mu0) (pm.TPy sigma0))
                            (Some ["instruments"]));
       ("beta_z", pm.FreeRV (pm.Normal (pm.TPy mu1) (pm.TPy sigma1))
                            (Some ["covariates"]));
       ("chol_cov",
        pm.FreeRV (pm.LKJCholeskyCov (pm.TPy eta) 2
                     (pm.HalfCauchy (pm.TPy lkj_sd) (Some [2%nat]))) None)] /\
    pm.lookup (self_model s) "beta_t" = None.
Proof.
  unfold InstrumentalVariableRegression_build_model, pm_MutableData, pm_RV,
    pm_Deterministic, pm_observed.
  intros H. do 21 ok_step H. injection H as _ <-.
  repeat match goal with
         | R1 : ?f = Ok ?a, R2 : ?f = Ok ?b |- _ =>
             assert (b = a) by congruence; subst b; clear R2
         end.
  simpl in *.
  do 10 eexists. do 10 (split; [eassumption |]).
  split; [chain_frames |]. split; [chain_vars |]. split; [chain_free |].
  unfold pm.lookup in *. now rewrite <- V.
Qed.

End BuildModels.

(** ** Frames: what a method leaves alone *)

Section Frames.

Context {InferenceData DataArray Series Rng : Type}.
Variable L : Library InferenceData DataArray Series Rng.

Let state : Type := state InferenceData Rng.

Lemma preserves_bind {A B} (R : state -> state -> Prop)
    (m : state -> result A * state) (k : A -> state -> result B * state) :
  (forall s1 s2 s3, R s1 s2 -> R s2 s3 -> R s1 s3) ->
  preserves R m -> (forall a, preserves R (k a)) -> preserves R (bind m k).
Proof.
  intros Tr Hm Hk s r s'. unfold bind.
  destruct (m s) as [[a | e] s1] eqn:E; intros H.
  - eapply Tr; [eapply Hm, E | eapply Hk, H].
  - injection H as _ <-. eapply Hm, E.
Qed.

Lemma preserves_lift {A} (R : state -> state -> Prop) (r : result A) :
  (forall s, R s s) -> preserves R (lift r).
Proof. intros Rf s r' s' H. injection H as _ <-. apply Rf. Qed.

Lemma preserves_ret {A} (R : state -> state -> Prop) (a : A) :
  (forall s, R s s) -> preserves R (ret a).
Proof. intros Rf s r' s' H. injection H as _ <-. apply Rf. Qed.

Lemma preserves_raise {A} (R : state -> state -> Prop) e :
  (forall s, R s s) -> preserves R (@raise _ _ A e).
Proof. intros Rf s r' s' H. injection H as _ <-. apply Rf. Qed.

Lemma add_coords_frame coords : preserves only_model_changed (add_coords L coords).
Proof.
  intros s r s'. unfold add_coords. destruct coords as [c |].
  - destruct (check_coords L (self_model s) c); intros E;
      injection E as _ <-; now repeat split.
  - intros E. injection E as _ <-. now repeat split.
Qed.

Lemma register_frame name d : preserves only_model_changed (register L name d).
Proof.
  intros s r s'. unfold register.
  destruct (check_decl L (self_model s) name d).
  - intros E. injection E as _ <-. now repeat split.
  - destruct (pm.lookup (self_model s) name); intros E;
      injection E as _ <-; now repeat split.
Qed.

Lemma pm_LKJCholeskyCov_frame name eta n sd_dist :
  preserves only_model_changed (pm_LKJCholeskyCov L name eta n sd_dist).
Proof.
  unfold pm_LKJCholeskyCov.
  repeat first
    [ apply preserves_ret; apply only_model_changed_refl
    | apply register_frame
    | apply preserves_bind; [apply only_model_changed_trans | | intros ?] ].
Qed.

Lemma set_data_frame name v : preserves only_model_changed (set_data L name v).
Proof.
  intros s r s'. unfold set_data.
  destruct (pm.lookup (self_model s) name) as [[] |];
    try (intros E; injection E as _ <-; now repeat split).
  destruct (check_set_data L (self_model s) name v); intros E;
    injection E as _ <-; now repeat split.
Qed.

End Frames.

Ltac frame_steps :=
  repeat first
    [ apply preserves_lift; apply only_model_changed_refl
    | apply preserves_ret; apply only_model_changed_refl
    | apply preserves_raise; apply only_model_changed_refl
    | apply add_coords_frame
    | apply register_frame
    | apply pm_LKJCholeskyCov_frame
    | apply preserves_bind; [apply only_model_changed_trans | | intros ?] ].

Section BuildFrames.

Context {InferenceData DataArray Series Rng : Type}.
Variable L : Library InferenceData DataArray Series Rng.

Lemma call_build_model_frame a :
  preserves only_model_changed (call_build_model L a).
Proof.
  unfold call_build_model. apply preserves_bind;
    [apply only_model_changed_trans | |].
  - intros s r s' E. injection E as _ <-. apply only_model_changed_refl.
  - intros c. destruct c, a;
      unfold ModelBuilder_build_model, WeightedSumFitter_build_model,
        LinearRegression_build_model,
        InstrumentalVariableRegression_build_model, arity_error,
        pm_MutableData, pm_RV, pm_Deterministic, pm_observed;
      frame_steps.
Qed.

End BuildFrames.

(** ** The lifecycle: [fit] *)

Section Fit.

Context {InferenceData DataArray Series Rng : Type}.
Variable L : Library InferenceData DataArray Series Rng.

Let state : Type := state InferenceData Rng.

Lemma lookup_fresh {A} (h : list A) (x : A) : (h ++ [x]) !! length h = Some x.
Proof. now rewrite lookup_app_r, Nat.sub_diag by lia. Qed.

Lemma insert_fresh {A} (h : list A) (x y : A) :
  <[length h := y]> (h ++ [x]) = h ++ [y].
Proof. now rewrite insert_app_r_alt, Nat.sub_diag by lia. Qed.

Lemma ModelBuilder_fit_steps X y coords :
  ModelBuilder_fit L X y coords =
  bind (call_build_model L (Args3 X y coords)) (sampling_steps L).
Proof. reflexivity. Qed.

Lemma InstrumentalVariableRegression_fit_steps X Z y t coords priors :
  InstrumentalVariableRegression_fit L X Z y t coords priors =
  bind (call_build_model L (Args6 X Z y t coords priors)) (sampling_steps L).
Proof. reflexivity. Qed.

(** A call of [fit] whose [build_model] returns runs the sampling steps. *)
Lemma call_fit_steps a (s s1 : state) u :
  call_build_model L a s = (Ok u, s1) ->
  call_fit L a s = sampling_steps L tt s1.
Proof.
  intros Hb. destruct u.
  assert (Hrun : bind (call_build_model L a) (sampling_steps L) s =
                 sampling_steps L tt s1) by exact (bind_ok _ _ _ _ _ Hb).
  unfold call_build_model, bind at 1, get_class in Hb.
  unfold call_fit, bind at 1, get_class.
  destruct (self_class s), a; simpl in *; try discriminate Hb; exact Hrun.
Qed.

Lemma sampling_steps_return (s1 : state) posterior g1 prior g2 i1 post_pred g3 i2 :
  pm_sample L (self_model s1) (self_sample_kwargs s1) (rng s1)
    = (Ok posterior, g1) ->
  pm_sample_prior_predictive L (self_model s1) g1 = (Ok prior, g2) ->
  idata_extend L posterior prior = Ok i1 ->
  pm_sample_posterior_predictive L (self_model s1) (Some i1) None false g2
    = (Ok post_pred, g3) ->
  idata_extend L i1 post_pred = Ok i2 ->
  sampling_steps L tt s1 =
    (Ok (Some (length (heap s1))), bound_idata s1 i2 g3).
Proof.
  intros Hs Hp He1 Hpp He2.
  unfold sampling_steps, bind, get_sample_kwargs, sample, alloc, assign_idata,
    get_idata, idata_dot_extend, sample_prior_predictive, extend,
    sample_posterior_predictive, deref, loc.
  simpl. rewrite Hs. simpl. rewrite Hp. simpl.
  rewrite lookup_fresh, He1. simpl. rewrite insert_fresh, lookup_fresh.
  rewrite Hpp. simpl. rewrite lookup_fresh, He2. simpl.
  now rewrite insert_fresh.
Qed.

(** C1, as the code has it: [fit], called with the arguments of the
    class's own [fit] ([(X, y, coords)] where it comes from [ModelBuilder],
    [(X, Z, y, t, coords, priors)] on [InstrumentalVariableRegression]),
    first calls [build_model] with those arguments; when that returns it
    draws the posterior with the stored [sample_kwargs], extends it with
    the prior predictive and the posterior predictive samples, stores the
    combined inference data in [self.idata] and returns that same
    object. *)
Theorem fit_builds_samples_extends_and_returns_idata
    a (s s1 : state) posterior g1 prior g2 i1 post_pred g3 i2 :
  call_build_model L a s = (Ok tt, s1) ->
  pm_sample L (self_model s1) (self_sample_kwargs s) (rng s) = (Ok posterior, g1) ->
  pm_sample_prior_predictive L (self_model s1) g1 = (Ok prior, g2) ->
  idata_extend L posterior prior = Ok i1 ->
  pm_sample_posterior_predictive L (self_model s1) (Some i1) None false g2
    = (Ok post_pred, g3) ->
  idata_extend L i1 post_pred = Ok i2 ->
  exists l s',
    call_fit L a s = (Ok (Some l), s') /\
    self_idata s' = Some l /\
    heap s' !! l = Some i2 /\
    heap s !! l = None /\
    self_model s' = self_model s1 /\
    self_sample_kwargs s' = self_sample_kwargs s /\
    rng s' = g3.
Proof.
  intros Hb Hs Hp He1 Hpp He2.
  pose proof (call_build_model_frame L _ _ _ _ Hb) as (Hc & Hi & Hk & Hh & Hg).
  rewrite <- Hk, <- Hg in Hs.
  exists (length (heap s1)), (bound_idata s1 i2 g3). split.
  - rewrite (call_fit_steps _ _ _ _ Hb).
    now apply (sampling_steps_return s1 posterior g1 prior g2 i1 post_pred).
  - simpl. rewrite Hh, Hk.
    repeat split; auto using lookup_fresh, lookup_ge_None_2.
Qed.

End Fit.

(** ** The abstract base and the three model definitions *)

Section Models.

Context {InferenceData DataArray Series Rng : Type}.
Variable L : Library InferenceData DataArray Series Rng.

Let state : Type := state InferenceData Rng.

(** C6: on a direct [ModelBuilder] instance [build_model] raises
    [NotImplementedError] for every input, so [fit] fails at its first step:
    the instance, the store and the random state are untouched, whatever
    the library. *)
Theorem ModelBuilder_base_is_abstract X y coords m i kw h g :
  call_build_model L (Args3 X y coords) (mk_state ModelBuilder m i kw h g) =
    (Raise (NotImplementedError "This method must be implemented by a subclass"),
     mk_state ModelBuilder m i kw h g) /\
  call_fit L (Args3 X y coords) (mk_state ModelBuilder m i kw h g) =
    (Raise (NotImplementedError "This method must be implemented by a subclass"),
     mk_state ModelBuilder m i kw h g).
Proof. split; reflexivity. Qed.

Lemma likelihood_of_vars m m' ws :
  pm.named_vars m' = pm.named_vars m ++ ws ->
  pm.likelihood_of m' =
  pm.likelihood_of m ++ filter (fun nd => pm.is_observed_rv nd.2 = true) ws.
Proof. unfold pm.likelihood_of. intros ->. apply filter_app. Qed.

(** [build_model] of each class is the run of its call sequence. *)
Lemma WeightedSumFitter_build_model_calls X y coords :
  WeightedSumFitter_build_model L X y coords =
  run (WeightedSumFitter_calls L X y coords).
Proof. reflexivity. Qed.

Lemma LinearRegression_build_model_calls X y coords :
  LinearRegression_build_model L X y coords =
  run (LinearRegression_calls L X y coords).
Proof. reflexivity. Qed.

Lemma InstrumentalVariableRegression_build_model_calls X Z y t coords priors :
  InstrumentalVariableRegression_build_model L X Z y t coords priors =
  run (InstrumentalVariableRegression_calls L X Z y t coords priors).
Proof. reflexivity. Qed.

Lemma base_build_model_never_returns a (s s' : state) :
  self_class s = ModelBuilder -> call_build_model L a s <> (Ok tt, s').
Proof.
  intros Hc. unfold call_build_model, bind, get_class. rewrite Hc.
  destruct a; discriminate.
Qed.

(** C7: the module has exactly three concrete model definitions: of its
    classes, the three subclasses of [ModelBuilder] define [build_model],
    and theirs are the ones that can return, which that of [ModelBuilder]
    never does.  The [build_model] of each returns exactly when every call
    of its sequence returns, and it has then declared the priors and the
    likelihood of its model: a Dirichlet-weighted sum for synthetic
    control, a linear regression with normal coefficients, and the two
    regressions of the instrumental-variable model tied by an LKJ
    covariance. *)
Theorem three_concrete_models_declare_priors_and_likelihood :
  List.filter is_concrete_model module_classes =
    [WeightedSumFitter; LinearRegression; InstrumentalVariableRegression] /\
  (forall c,
     build_model_can_return RefLib.lib c <->
     In c [WeightedSumFitter; LinearRegression;
           InstrumentalVariableRegression]) /\
  (forall a (s s' : state),
     self_class s = ModelBuilder -> call_build_model L a s <> (Ok tt, s')) /\
  (forall X y coords (s s' : state),
     (WeightedSumFitter_build_model L X y coords s = (Ok tt, s') <->
      script_returns (WeightedSumFitter_calls L X y coords) s tt s') /\
     (LinearRegression_build_model L X y coords s = (Ok tt, s') <->
      script_returns (LinearRegression_calls L X y coords) s tt s')) /\
  (forall X Z y t coords priors (s s' : state),
     InstrumentalVariableRegression_build_model L X Z y t coords priors s
       = (Ok tt, s') <->
     script_returns
       (InstrumentalVariableRegression_calls L X Z y t coords priors)
       s tt s') /\
  (forall X y coords (s s' : state),
     WeightedSumFitter_build_model L X y coords s = (Ok tt, s') ->
     exists n,
       np.shape_at X 1 = Ok n /\
       pm.priors_of (self_model s') = pm.priors_of (self_model s) ++
         [("beta", pm.FreeRV (pm.Dirichlet (pm.TArr (np.ones n)))
                             (Some ["coeffs"]));
          ("sigma", pm.FreeRV (pm.HalfNormal (pm.TPy (PyAtom (PyInt 1)))) None)] /\
       pm.likelihood_of (self_model s') = pm.likelihood_of (self_model s) ++
         [("y_hat", pm.ObservedRV (pm.Normal (pm.TVar "mu") (pm.TVar "sigma"))
                                  (pm.TVar "y") (Some ["obs_ind"]) None)]) /\
  (forall X y coords (s s' : state),
     LinearRegression_build_model L X y coords s = (Ok tt, s') ->
     pm.priors_of (self_model s') = pm.priors_of (self_model s) ++
       [("beta", pm.FreeRV (pm.Normal (pm.TPy (PyAtom (PyInt 0)))
                                      (pm.TPy (PyAtom (PyInt 50))))
                           (Some ["coeffs"]));
        ("sigma", pm.FreeRV (pm.HalfNormal (pm.TPy (PyAtom (PyInt 1)))) None)] /\
     pm.likelihood_of (self_model s') = pm.likelihood_of (self_model s) ++
       [("y_hat", pm.ObservedRV (pm.Normal (pm.TVar "mu") (pm.TVar "sigma"))
                                (pm.TVar "y") (Some ["obs_ind"]) None)]) /\
  (forall X Z y t coords priors (s s' : state),
     InstrumentalVariableRegression_build_model L X Z y t coords priors s
       = (Ok tt, s') ->
     exists mus sigmas mu0 sigma0 mu1 sigma1 lkj_sd eta observed n_obs,
       dict_getitem priors "mus" = Ok mus /\
       dict_getitem priors "sigmas" = Ok sigmas /\
       getitem mus 0 = Ok mu0 /\ getitem sigmas 0 = Ok sigma0 /\
       getitem mus 1 = Ok mu1 /\ getitem sigmas 1 = Ok sigma1 /\
       dict_getitem priors "lkj_sd" = Ok lkj_sd /\
       dict_getitem priors "eta" = Ok eta /\
       np.stack2_axis1 (np.flatten y) (np.flatten t) = Ok observed /\
       np.shape_at X 0 = Ok n_obs /\
       pm.priors_of (self_model s') = pm.priors_of (self_model s) ++
         [("beta_t", pm.FreeRV (pm.Normal (pm.TPy mu0) (pm.TPy sigma0))
                               (Some ["instruments"]));
          ("beta_z", pm.FreeRV (pm.Normal (pm.TPy mu1) (pm.TPy sigma1))
                               (Some ["covariates"]));
          ("chol_cov",
           pm.FreeRV (pm.LKJCholeskyCov (pm.TPy eta) 2
                        (pm.HalfCauchy (pm.TPy lkj_sd) (Some [2%nat]))) None)] /\
       pm.likelihood_of (self_model s') = pm.likelihood_of (self_model s) ++
         [("likelihood",
           pm.ObservedRV (pm.MvNormal (pm.TVar "mu") (pm.TUnpack "chol_cov" 0))
                         (pm.TArr observed) None (Some [n_obs; 2%nat]))]).
Proof.
  split; [reflexivity |]. split.
  { intros c. split.
    - intros (a & s & s' & Hc & H). destruct c; simpl; auto.
      exfalso. revert H. unfold call_build_model, bind, get_class.
      rewrite Hc. destruct a; discriminate.
    - intros Hc. destruct c; simpl in Hc;
        try (exfalso; intuition discriminate).
      + exists (Args3 RefLib.X RefLib.y None), (RefLib.new WeightedSumFitter),
          (snd (call_build_model RefLib.lib (Args3 RefLib.X RefLib.y None)
                  (RefLib.new WeightedSumFitter))).
        split; [reflexivity | vm_compute; reflexivity].
      + exists (Args3 RefLib.X RefLib.y None), (RefLib.new LinearRegression),
          (snd (call_build_model RefLib.lib (Args3 RefLib.X RefLib.y None)
                  (RefLib.new LinearRegression))).
        split; [reflexivity | vm_compute; reflexivity].
      + exists RefLib.args_IV, (RefLib.new InstrumentalVariableRegression),
          (snd (call_build_model RefLib.lib RefLib.args_IV
                  (RefLib.new InstrumentalVariableRegression))).
        split; [reflexivity | vm_compute; reflexivity]. }
  split; [exact base_build_model_never_returns |].
  split.
  { intros X y coords s s'. split.
    - rewrite WeightedSumFitter_build_model_calls. apply run_returns_iff.
    - rewrite LinearRegression_build_model_calls. apply run_returns_iff. }
  split.
  { intros X Z y t coords priors s s'.
    rewrite InstrumentalVariableRegression_build_model_calls.
    apply run_returns_iff. }
  split; [| split].
  - intros X y coords s s' H.
    apply WeightedSumFitter_build_model_ok in H
      as (n & y0 & Hn & _ & _ & V & _ & _ & P).
    exists n. split; [exact Hn |].
    split; [exact P |]. now rewrite (likelihood_of_vars _ _ _ V).
  - intros X y coords s s' H.
    apply LinearRegression_build_model_ok in H
      as (y0 & _ & _ & V & _ & _ & P).
    split; [exact P |]. now rewrite (likelihood_of_vars _ _ _ V).
  - intros X Z y t coords priors s s' H.
    apply InstrumentalVariableRegression_build_model_ok in H
      as (mus & sigmas & mu0 & sigma0 & mu1 & sigma1 & lkj_sd & eta & obs &
          n_obs & H1 & H2 & H3 & H4 & H5 & H6 & H7 & H8 & H9 & H10 & _ & V
          & P & _).
    exists mus, sigmas, mu0, sigma0, mu1, sigma1, lkj_sd, eta, obs, n_obs.
    do 10 (split; [assumption |]).
    split; [exact P |]. now rewrite (likelihood_of_vars _ _ _ V).
Qed.

End Models.

(** ** The outcome column *)

Lemma col0_items_ext n stride stride' r (d d' : list Q) :
  (forall i k, (i < n)%nat -> (k < r)%nat ->
     d !! (i * stride + k)%nat = d' !! (i * stride' + k)%nat) ->
  np.col0_items n stride r d = np.col0_items n stride' r d'.
Proof.
  revert d d'. induction n as [| n IH]; intros d d' H; simpl; [reflexivity |].
  f_equal.
  - apply list_eq. intros k. destruct (decide (k < r)%nat) as [Hk | Hk].
    + rewrite !lookup_take_lt by exact Hk. apply (H 0%nat k); [lia | exact Hk].
    + rewrite !lookup_take_ge by lia. reflexivity.
  - apply IH. intros i k Hi Hk. rewrite !lookup_drop.
    replace (stride + (i * stride + k))%nat with (S i * stride + k)%nat by lia.
    replace (stride' + (i * stride' + k))%nat with (S i * stride' + k)%nat by lia.
    apply H; [lia | exact Hk].
Qed.

Lemma same_first_column_getitem y y' :
  same_first_column y y' -> np.getitem_col0 y = np.getitem_col0 y'.
Proof.
  intros (n & m & m' & rest & Hy & Hy' & Hm & Hm' & H).
  unfold np.getitem_col0. rewrite Hy, Hy'.
  destruct (Nat.eqb_spec m 0); [lia |]. destruct (Nat.eqb_spec m' 0); [lia |].
  do 2 f_equal. apply col0_items_ext. exact H.
Qed.

Lemma getitem_col0_low_dim y :
  (np.ndim y < 2)%nat ->
  np.getitem_col0 y = Raise (IndexError "too many indices for array").
Proof.
  unfold np.ndim, np.getitem_col0.
  destruct (np.shape y) as [| n [| m rest]]; simpl; intros H;
    [reflexivity | reflexivity | lia].
Qed.

Section Outcome.

Context {InferenceData DataArray Series Rng : Type}.
Variable L : Library InferenceData DataArray Series Rng.

Let state : Type := state InferenceData Rng.

Lemma never_ok_WeightedSumFitter X y coords (s : state) :
  (np.ndim y < 2)%nat ->
  forall u s', WeightedSumFitter_build_model L X y coords s <> (Ok u, s').
Proof.
  intros Hy u s' H. apply WeightedSumFitter_build_model_ok in H
    as (n & y0 & _ & Hy0 & _).
  rewrite getitem_col0_low_dim in Hy0 by exact Hy. discriminate.
Qed.

Lemma never_ok_LinearRegression X y coords (s : state) :
  (np.ndim y < 2)%nat ->
  forall u s', LinearRegression_build_model L X y coords s <> (Ok u, s').
Proof.
  intros Hy u s' H. apply LinearRegression_build_model_ok in H
    as (y0 & Hy0 & _).
  rewrite getitem_col0_low_dim in Hy0 by exact Hy. discriminate.
Qed.

Lemma call_build_model_same_column X y y' coords (s : state) :
  np.getitem_col0 y = np.getitem_col0 y' ->
  call_build_model L (Args3 X y coords) s =
  call_build_model L (Args3 X y' coords) s.
Proof.
  intros E. unfold call_build_model, bind, get_class. simpl.
  destruct (self_class s); try reflexivity.
  - unfold WeightedSumFitter_build_model. now rewrite E.
  - unfold LinearRegression_build_model. now rewrite E.
Qed.

(** C9: [build_model] of [WeightedSumFitter] and of [LinearRegression]
    reads the outcome as [y[:, 0]].  A [y] of fewer than two dimensions
    never builds, and when everything before the indexing succeeded the
    failure is the indexing's [IndexError].  Two outcomes that agree on
    their first column give the same run of [build_model], and of [fit]. *)
Theorem build_model_reads_only_the_first_column_of_y X coords (s : state) :
  (forall y, (np.ndim y < 2)%nat ->
     (forall u s', WeightedSumFitter_build_model L X y coords s <> (Ok u, s')) /\
     (forall u s', LinearRegression_build_model L X y coords s <> (Ok u, s')) /\
     (forall u s0 n t s1,
        add_coords L coords s = (Ok u, s0) ->
        np.shape_at X 1 = Ok n ->
        pm_MutableData L "X" X (Some ["obs_ind"; "coeffs"]) s0 = (Ok t, s1) ->
        WeightedSumFitter_build_model L X y coords s =
          (Raise (IndexError "too many indices for array"), s1)) /\
     (forall u s0 t s1,
        add_coords L coords s = (Ok u, s0) ->
        pm_MutableData L "X" X (Some ["obs_ind"; "coeffs"]) s0 = (Ok t, s1) ->
        LinearRegression_build_model L X y coords s =
          (Raise (IndexError "too many indices for array"), s1))) /\
  (forall y y', same_first_column y y' ->
     WeightedSumFitter_build_model L X y coords s =
       WeightedSumFitter_build_model L X y' coords s /\
     LinearRegression_build_model L X y coords s =
       LinearRegression_build_model L X y' coords s /\
     call_fit L (Args3 X y coords) s = call_fit L (Args3 X y' coords) s).
Proof.
  split.
  - intros y Hy. split; [now apply never_ok_WeightedSumFitter |].
    split; [now apply never_ok_LinearRegression |]. split.
    + intros u s0 n t s1 Hc Hn Hx. unfold WeightedSumFitter_build_model.
      rewrite (bind_ok _ _ _ _ _ Hc). unfold bind at 1, lift at 1.
      rewrite Hn. rewrite (bind_ok _ _ _ _ _ Hx).
      unfold bind, lift. now rewrite getitem_col0_low_dim.
    + intros u s0 t s1 Hc Hx. unfold LinearRegression_build_model.
      rewrite (bind_ok _ _ _ _ _ Hc). rewrite (bind_ok _ _ _ _ _ Hx).
      unfold bind, lift. now rewrite getitem_col0_low_dim.
  - intros y y' Hyy. apply same_first_column_getitem in Hyy.
    split; [unfold WeightedSumFitter_build_model; now rewrite Hyy |].
    split; [unfold LinearRegression_build_model; now rewrite Hyy |].
    unfold call_fit, bind, get_class. simpl.
    destruct (resolve (self_class s) m_fit) as [[] |]; try reflexivity.
    unfold ModelBuilder_fit, bind.
    now rewrite (call_build_model_same_column X y y' coords s Hyy).
Qed.

End Outcome.

(** ** [predict] and [score] *)

Section Predict.

Context {InferenceData DataArray Series Rng : Type}.
Variable L : Library InferenceData DataArray Series Rng.

Let state : Type := state InferenceData Rng.

Lemma predict_frame_refl (s : state) : predict_frame s s.
Proof. now repeat split. Qed.

Lemma predict_frame_trans (s1 s2 s3 : state) :
  predict_frame s1 s2 -> predict_frame s2 s3 -> predict_frame s1 s3.
Proof.
  intros (C1 & I1 & K1 & H1 & Co1 & N1 & V1) (C2 & I2 & K2 & H2 & Co2 & N2 & V2).
  repeat split; try congruence.
  - intros l i Hl. auto.
  - intros name Hn. rewrite V2, V1 by exact Hn. reflexivity.
Qed.

Lemma set_data_ok_inv name v (s s1 : state) u :
  set_data L name v s = (Ok u, s1) ->
  exists old d,
    pm.lookup (self_model s) name = Some (pm.MutableData old d) /\
    check_set_data L (self_model s) name v = None /\
    s1 = set_model
           (pm.mk_Model (pm.coords (self_model s))
              (pm.replace name (pm.MutableData (as_data L v) d)
                          (pm.named_vars (self_model s)))
              (pm.free_RVs (self_model s))) s.
Proof.
  unfold set_data.
  destruct (pm.lookup (self_model s) name) as [[old d | | |] |] eqn:E;
    try discriminate.
  destruct (check_set_data L (self_model s) name v) eqn:Ec; [discriminate |].
  intros H. injection H as _ <-. now exists old, d.
Qed.

Lemma set_data_predict_frame v (s s1 : state) r :
  set_data L "X" v s = (r, s1) -> predict_frame s s1.
Proof.
  destruct r as [u | e].
  - intros H. apply set_data_ok_inv in H as (old & d & _ & _ & ->).
    repeat split; simpl; auto.
    + apply replace_names.
    + intros name Hn. unfold pm.lookup. simpl. now apply assoc_replace_ne.
  - unfold set_data.
    destruct (pm.lookup (self_model s) "X") as [[] |];
      try (intros H; injection H as _ <-; apply predict_frame_refl).
    destruct (check_set_data L (self_model s) "X" v); intros H;
      [injection H as _ <-; apply predict_frame_refl | discriminate].
Qed.

Lemma ModelBuilder_predict_frame X (s s' : state) r :
  ModelBuilder_predict L X s = (r, s') -> predict_frame s s'.
Proof.
  unfold ModelBuilder_predict, ModelBuilder_data_setter, bind.
  destruct (set_data L "X" X s) as [[u | e] s1] eqn:Es;
    pose proof (set_data_predict_frame _ _ _ _ Es) as F1.
  - unfold get_idata, sample_posterior_predictive, alloc. simpl.
    destruct (pm_sample_posterior_predictive L _ _ _ _ _) as [[pp | e] g];
      intros H; injection H as _ <-;
      (eapply predict_frame_trans; [exact F1 |]);
      repeat split; simpl; auto.
    intros l i Hl. apply lookup_app_l_Some. exact Hl.
  - intros H. injection H as _ <-. exact F1.
Qed.

Lemma call_predict_frame X (s s' : state) r :
  call_predict L X s = (r, s') -> predict_frame s s'.
Proof.
  unfold call_predict, bind, get_class. simpl.
  destruct (resolve (self_class s) m_predict) as [[] |];
    try (intros H; injection H as _ <-; apply predict_frame_refl).
  apply ModelBuilder_predict_frame.
Qed.



End Predict.

Section PredictScore.

Context {InferenceData DataArray Series Rng : Type}.
Variable L : Library InferenceData DataArray Series Rng.

Let state : Type := state InferenceData Rng.

Lemma call_predict_unfold
    (L' : Library InferenceData DataArray Series Rng) X (s : state) :
  call_predict L' X s = ModelBuilder_predict L' X s.
Proof.
  unfold call_predict, bind, get_class. simpl. now destruct (self_class s).
Qed.

Lemma call_score_unfold X y (s : state) :
  call_score L X y s = ModelBuilder_score L X y s.
Proof.
  unfold call_score, bind, get_class. simpl. now destruct (self_class s).
Qed.

(** Without a variable ["X"] the three methods that set it raise the
    [KeyError] of [pm.set_data] and change nothing. *)
Lemma lookup_None_no_data_setter X (s : state) :
  pm.lookup (self_model s) "X" = None ->
  ModelBuilder_data_setter L X s = (Raise (KeyError "X"), s).
Proof. unfold ModelBuilder_data_setter, set_data. now intros ->. Qed.

Lemma lookup_None_no_predict X (s : state) :
  pm.lookup (self_model s) "X" = None ->
  call_predict L X s = (Raise (KeyError "X"), s).
Proof.
  intros H. rewrite call_predict_unfold. unfold ModelBuilder_predict.
  apply bind_raise. now apply lookup_None_no_data_setter.
Qed.

Lemma lookup_None_no_score X y (s : state) :
  pm.lookup (self_model s) "X" = None ->
  call_score L X y s = (Raise (KeyError "X"), s).
Proof.
  intros H. rewrite call_score_unfold. unfold ModelBuilder_score.
  apply bind_raise. rewrite <- call_predict_unfold.
  now apply lookup_None_no_predict.
Qed.

Lemma predict_ignores_pm_sample f X (s : state) :
  call_predict (with_pm_sample L f) X s = call_predict L X s.
Proof. rewrite !call_predict_unfold. reflexivity. Qed.

(** C3, as the code has it: on a fitted instance whose model has the data
    variable ["X"], when [pm.set_data] accepts [X_new] and the
    posterior predictive sampler returns, [predict(X_new)] has re-bound the
    data variable ["X"] to what PyMC makes of [X_new] before sampling, has
    sampled ["y_hat"] and ["mu"] from the re-bound model and the inference
    data stored by [fit], and returns those samples as a new object.  The
    posterior sampler plays no part: replacing it changes nothing. *)
Theorem predict_rebinds_X_then_samples_posterior_predictive
    X_new (s s1 : state) l fitted post_pred g :
  self_idata s = Some l ->
  heap s !! l = Some fitted ->
  ModelBuilder_data_setter L X_new s = (Ok tt, s1) ->
  pm_sample_posterior_predictive L (self_model s1) (Some fitted)
      (Some ["y_hat"; "mu"]) false (rng s) = (Ok post_pred, g) ->
  exists l' s',
    call_predict L X_new s = (Ok l', s') /\
    heap s' !! l' = Some post_pred /\
    heap s !! l' = None /\
    self_model s' = self_model s1 /\
    (exists d, pm.lookup (self_model s1) "X" =
                 Some (pm.MutableData (as_data L X_new) d)) /\
    (forall name, name <> "X" ->
       pm.lookup (self_model s1) name = pm.lookup (self_model s) name) /\
    self_idata s' = Some l /\
    heap s' !! l = Some fitted /\
    (forall f, call_predict (with_pm_sample L f) X_new s = (Ok l', s')).
Proof.
  intros Hi Hl Hset Hpp.
  pose proof Hset as Hinv. unfold ModelBuilder_data_setter in Hinv.
  apply set_data_ok_inv in Hinv as (old & d & Hold & _ & Hs1).
  assert (Hrun : call_predict L X_new s =
    (Ok (length (heap s)),
     mk_state (self_class s) (self_model s1) (Some l)
              (self_sample_kwargs s) (heap s ++ [post_pred]) g)).
  { rewrite call_predict_unfold. unfold ModelBuilder_predict.
    rewrite (bind_ok _ _ _ _ _ Hset).
    unfold bind, get_idata, sample_posterior_predictive, alloc, deref.
    subst s1. simpl in *. unfold loc in *.
    rewrite Hi, Hl, Hpp.
    unfold set_heap, set_rng, set_model. simpl. now rewrite Hi. }
  exists (length (heap s)),
    (mk_state (self_class s) (self_model s1) (Some l)
              (self_sample_kwargs s) (heap s ++ [post_pred]) g).
  split; [exact Hrun |]. simpl.
  split; [apply lookup_fresh |].
  split; [now apply lookup_ge_None_2 |].
  split; [reflexivity |]. split.
  { exists d. subst s1. unfold pm.lookup in *. simpl.
    eapply assoc_replace_eq. exact Hold. }
  split.
  { intros name Hn. subst s1. unfold pm.lookup. simpl.
    now apply assoc_replace_ne. }
  split; [reflexivity |].
  split; [now apply lookup_app_l_Some |].
  intros f. now rewrite predict_ignores_pm_sample.
Qed.

(** C4: [score(X, y)] is the library's [r2_score] applied to [y.flatten()]
    and to the values of the ["y_hat"] samples that [az.extract] takes from
    the posterior predictive group of what [predict(X)] returned; a failing
    [predict] is the failure of [score]. *)
Theorem score_is_r2_score_of_flattened_y_and_predicted_y_hat
    X y (s : state) :
  (forall l s', call_predict L X s = (Ok l, s') ->
     exists post_pred,
       heap s' !! l = Some post_pred /\
       call_score L X y s =
         (result_bind (az_extract L post_pred "posterior_predictive" "y_hat")
            (fun da => r2_score L (np.flatten y) (da_values L (da_T L da))),
          s')) /\
  (forall e s', call_predict L X s = (Raise e, s') ->
     call_score L X y s = (Raise e, s')).
Proof.
  rewrite call_predict_unfold, call_score_unfold. split.
  - intros l s' Hp. unfold ModelBuilder_score.
    rewrite (bind_ok _ _ _ _ _ Hp).
    assert (Hl : exists post_pred, heap s' !! l = Some post_pred).
    { unfold ModelBuilder_predict in Hp. ok_step Hp. ok_step Hp. ok_step Hp.
      unfold alloc in Hp. injection Hp as <- <-. simpl.
      eexists. apply lookup_fresh. }
    destruct Hl as [post_pred Hl]. exists post_pred. split; [exact Hl |].
    unfold bind, extract_T_values, lift. unfold loc in *. rewrite Hl.
    destruct (az_extract L post_pred "posterior_predictive" "y_hat");
      reflexivity.
  - intros e s' Hp. unfold ModelBuilder_score.
    now rewrite (bind_raise _ _ _ _ _ Hp).
Qed.

End PredictScore.

(** ** Exceptions *)

Section Exceptions.

Context {InferenceData DataArray Series Rng : Type}.
Variable L : Library InferenceData DataArray Series Rng.

Let state : Type := state InferenceData Rng.

Lemma sampling_block_raises a (s : state) e s' :
  bind (call_build_model L a) (sampling_steps L) s = (Raise e, s') <->
  fit_raises L a s e s'.
Proof.
  unfold sampling_steps, bind, get_sample_kwargs, sample, alloc, assign_idata,
    get_idata, idata_dot_extend, sample_prior_predictive, extend,
    sample_posterior_predictive, deref, loc. split.
  - destruct (call_build_model L a s) as [[[] | e0] s1] eqn:Eb.
    2: { intros H. injection H as <- <-. now constructor. }
    destruct (pm_sample L (self_model s1) (self_sample_kwargs s1) (rng s1))
      as [[posterior | e0] g1] eqn:Es; simpl.
    2: { intros H. injection H as <- <-. now econstructor 2. }
    destruct (pm_sample_prior_predictive L (self_model s1) g1)
      as [[prior | e0] g2] eqn:Ep; simpl.
    2: { intros H. injection H as <- <-.
         exact (raised_by_sample_prior_predictive L a s s1 _ _ _ _ Eb Es Ep). }
    rewrite lookup_fresh.
    destruct (idata_extend L posterior prior) as [i1 | e0] eqn:E1; simpl.
    2: { intros H. injection H as <- <-.
         exact (raised_by_first_extend L a s s1 _ _ _ _ _ Eb Es Ep E1). }
    rewrite insert_fresh, lookup_fresh.
    destruct (pm_sample_posterior_predictive L (self_model s1) (Some i1)
                None false g2) as [[post_pred | e0] g3] eqn:Epp; simpl.
    2: { intros H. injection H as <- <-.
         exact (raised_by_sample_posterior_predictive L a s s1 _ _ _ _ _ _ _
                  Eb Es Ep E1 Epp). }
    rewrite lookup_fresh.
    destruct (idata_extend L i1 post_pred) as [i2 | e0] eqn:E2; simpl.
    2: { intros H. injection H as <- <-.
         exact (raised_by_second_extend L a s s1 _ _ _ _ _ _ _ _
                  Eb Es Ep E1 Epp E2). }
    discriminate.
  - intros H. destruct H as
      [e s' Hb | s1 e g Hb Hs | s1 po g1 e g2 Hb Hs Hp
       | s1 po g1 pr g2 e Hb Hs Hp H1
       | s1 po g1 pr g2 i1 e g3 Hb Hs Hp H1 Hpp
       | s1 po g1 pr g2 i1 pp g3 e Hb Hs Hp H1 Hpp H2]; rewrite Hb;
      try reflexivity; rewrite Hs; simpl; try reflexivity;
      rewrite Hp; simpl; try reflexivity;
      rewrite lookup_fresh, H1; simpl; try reflexivity;
      rewrite insert_fresh, lookup_fresh, Hpp; simpl; try reflexivity;
      rewrite lookup_fresh, H2; reflexivity.
Qed.

Lemma predict_raises_iff X (s : state) e s' :
  ModelBuilder_predict L X s = (Raise e, s') <-> predict_raises L X s e s'.
Proof.
  unfold ModelBuilder_predict, bind, get_idata, sample_posterior_predictive,
    alloc. split.
  - destruct (ModelBuilder_data_setter L X s) as [[[] | e0] s1] eqn:Ed.
    2: { intros H. injection H as <- <-. now constructor. }
    destruct (pm_sample_posterior_predictive L _ _ _ _ _)
      as [[pp | e0] g] eqn:Ep; simpl; [discriminate |].
    intros H. injection H as <- <-. now econstructor 2.
  - intros [e0 s0 Hd | s1 e0 g Hd Hp]; rewrite Hd; [reflexivity |].
    now rewrite Hp.
Qed.

Lemma score_raises_iff X y (s : state) e s' :
  ModelBuilder_score L X y s = (Raise e, s') <-> score_raises L X y s e s'.
Proof.
  unfold ModelBuilder_score, bind, extract_T_values, lift. split.
  - destruct (ModelBuilder_predict L X s) as [[l | e0] s1] eqn:Ep.
    2: { intros H. injection H as <- <-. now constructor. }
    assert (Hl : exists post_pred, heap s1 !! l = Some post_pred).
    { unfold ModelBuilder_predict in Ep. do 3 ok_step Ep.
      unfold alloc in Ep. injection Ep as <- <-. simpl.
      eexists. apply lookup_fresh. }
    destruct Hl as [pp Hl]. unfold loc in *. rewrite Hl.
    destruct (az_extract L pp "posterior_predictive" "y_hat")
      as [da | e0] eqn:Ex; simpl.
    + destruct (r2_score L (np.flatten y) (da_values L (da_T L da)))
        as [r | e0] eqn:Er; [discriminate |].
      intros H. injection H as <- <-.
      exact (raised_by_r2_score L X y s l s1 pp da _ Ep Hl Ex Er).
    + intros H. injection H as <- <-.
      exact (raised_by_extract L X y s l s1 pp _ Ep Hl Ex).
  - intros [e0 s0 Hp | l s0 pp e0 Hp Hl Hx | l s0 pp da e0 Hp Hl Hx Hr];
      rewrite Hp; [reflexivity | |]; unfold loc in *; rewrite Hl, Hx; simpl;
      [reflexivity | now rewrite Hr].
Qed.

Lemma data_setter_raises_iff X (s : state) e s' :
  ModelBuilder_data_setter L X s = (Raise e, s') <->
  s' = s /\
  (pm.lookup (self_model s) "X" = None /\ e = KeyError "X" \/
   (exists old d, pm.lookup (self_model s) "X" = Some (pm.MutableData old d) /\
                  check_set_data L (self_model s) "X" X = Some e) \/
   (exists d, pm.lookup (self_model s) "X" = Some d /\
              (forall old dm, d <> pm.MutableData old dm) /\
              e = TypeError "The variable must be a SharedVariable or TensorConstant")).
Proof.
  unfold ModelBuilder_data_setter, set_data. split.
  - destruct (pm.lookup (self_model s) "X") as [d |] eqn:El.
    + destruct d as [old dm | p dm | p o dm sh | v dm];
        try (intros H; injection H as <- <-; split; [reflexivity |];
             right; right; eexists; split; [reflexivity |];
             split; [discriminate | reflexivity]).
      destruct (check_set_data L (self_model s) "X" X) as [e0 |] eqn:Ec;
        [| discriminate].
      intros H. injection H as <- <-. split; [reflexivity |].
      right; left. now exists old, dm.
    + intros H. injection H as <- <-. split; [reflexivity |]. now left.
  - intros [-> [[-> ->] | [(old & d & -> & ->) | (d & -> & Hd & ->)]]];
      try reflexivity.
    destruct d; try reflexivity. now destruct (Hd value d).
Qed.

End Exceptions.

Section Lifecycle.

Context {InferenceData DataArray Series Rng : Type}.
Variable L : Library InferenceData DataArray Series Rng.

Let state : Type := state InferenceData Rng.

(** What the two calls into PyMC that [build_model] makes raise: the
    exception of the library's own validation, as it is, or PyMC's refusal
    of a name that exists. *)
Lemma add_coords_raises_iff coords (s : state) e s' :
  add_coords L coords s = (Raise e, s') <->
  exists c, coords = Some c /\ check_coords L (self_model s) c = Some e /\
            s' = s.
Proof.
  unfold add_coords. destruct coords as [c |].
  - destruct (check_coords L (self_model s) c) as [e0 |] eqn:E.
    + split.
      * intros H. injection H as <- <-. now exists c.
      * intros (c' & Hc & He & ->). injection Hc as <-.
        rewrite E in He. now injection He as <-.
    + split; [discriminate |]. intros (c' & Hc & He & _).
      injection Hc as <-. congruence.
  - split; [discriminate |]. intros (c' & Hc & _). discriminate.
Qed.

Lemma register_raises_iff name d (s : state) e s' :
  register L name d s = (Raise e, s') <->
  (check_decl L (self_model s) name d = Some e /\ s' = s) \/
  (check_decl L (self_model s) name d = None /\
   pm.lookup (self_model s) name <> None /\
   e = ValueError (String.append "Variable name "
                     (String.append name " already exists.")) /\
   s' = set_model (seen L (self_model s) name d) s).
Proof.
  unfold register.
  destruct (check_decl L (self_model s) name d) as [e0 |] eqn:E.
  - split.
    + intros H. injection H as <- <-. now left.
    + intros [[He ->] | (Hc & _)]; [now injection He as <- | discriminate].
  - destruct (pm.lookup (self_model s) name) as [d0 |] eqn:El.
    + split.
      * intros H. injection H as <- <-. right. now repeat split.
      * intros [[He _] | (_ & _ & -> & ->)]; [discriminate | reflexivity].
    + split; [discriminate |].
      intros [[He _] | (_ & Hl & _)]; [discriminate | congruence].
Qed.

(** C5, as the code has it: no method catches, retries or alters a
    failure.  [fit], [predict] and [score] raise [e] exactly when one of
    the calls they make raised [e], the earlier ones having returned, and
    they stop in the state of that call; [_data_setter] raises what
    [pm.set_data] raises; [build_model] of each class raises [e] exactly
    when one of the calls of its sequence raised [e], the earlier ones
    having returned; a call of [build_model] is the [build_model] of the
    class or Python's refusal of the arguments; [add_coords] raises the
    exception of the library's validation and nothing else, and a
    declaration raises that of the library's validation or PyMC's
    [ValueError] for a name that exists.  While [self.idata] is None, and
    the library refuses a missing trace, [predict] and [score] fail with
    the exception of one of their library calls; an instance whose model
    has no variable ["X"], a new instance in particular, makes them fail
    with the [KeyError] of [pm.set_data]. *)
Theorem wrapper_methods_propagate_exceptions_unchanged (s : state) e s' :
  (forall X y coords,
     ModelBuilder_fit L X y coords s = (Raise e, s') <->
     fit_raises L (Args3 X y coords) s e s') /\
  (forall X Z y t coords priors,
     InstrumentalVariableRegression_fit L X Z y t coords priors s
       = (Raise e, s') <->
     fit_raises L (Args6 X Z y t coords priors) s e s') /\
  (forall X,
     ModelBuilder_predict L X s = (Raise e, s') <-> predict_raises L X s e s') /\
  (forall X y,
     ModelBuilder_score L X y s = (Raise e, s') <-> score_raises L X y s e s') /\
  (forall X,
     ModelBuilder_data_setter L X s = (Raise e, s') <->
     s' = s /\
     (pm.lookup (self_model s) "X" = None /\ e = KeyError "X" \/
      (exists old d,
         pm.lookup (self_model s) "X" = Some (pm.MutableData old d) /\
         check_set_data L (self_model s) "X" X = Some e) \/
      (exists d,
         pm.lookup (self_model s) "X" = Some d /\
         (forall old dm, d <> pm.MutableData old dm) /\
         e = TypeError "The variable must be a SharedVariable or TensorConstant"))) /\
  (forall X y coords,
     (WeightedSumFitter_build_model L X y coords s = (Raise e, s') <->
      script_raises (WeightedSumFitter_calls L X y coords) s e s') /\
     (LinearRegression_build_model L X y coords s = (Raise e, s') <->
      script_raises (LinearRegression_calls L X y coords) s e s') /\
     (ModelBuilder_build_model X y coords s = (Raise e, s') <->
      e = NotImplementedError "This method must be implemented by a subclass"
      /\ s' = s)) /\
  (forall X Z y t coords priors,
     InstrumentalVariableRegression_build_model L X Z y t coords priors s
       = (Raise e, s') <->
     script_raises
       (InstrumentalVariableRegression_calls L X Z y t coords priors)
       s e s') /\
  (forall a,
     call_build_model L a s = (Raise e, s') <->
     match self_class s, a with
     | ModelBuilder, Args3 X y coords =>
         ModelBuilder_build_model X y coords s = (Raise e, s')
     | WeightedSumFitter, Args3 X y coords =>
         WeightedSumFitter_build_model L X y coords s = (Raise e, s')
     | LinearRegression, Args3 X y coords =>
         LinearRegression_build_model L X y coords s = (Raise e, s')
     | InstrumentalVariableRegression, Args6 X Z y t coords priors =>
         InstrumentalVariableRegression_build_model L X Z y t coords priors s
           = (Raise e, s')
     | _, _ =>
         e = TypeError "wrong number of positional arguments" /\ s' = s
     end) /\
  (forall coords,
     add_coords L coords s = (Raise e, s') <->
     exists c, coords = Some c /\ check_coords L (self_model s) c = Some e /\
               s' = s) /\
  (forall name d,
     register L name d s = (Raise e, s') <->
     (check_decl L (self_model s) name d = Some e /\ s' = s) \/
     (check_decl L (self_model s) name d = None /\
      pm.lookup (self_model s) name <> None /\
      e = ValueError (String.append "Variable name "
                        (String.append name " already exists.")) /\
      s' = set_model (seen L (self_model s) name d) s)) /\
  (forall X y,
     self_idata s = None -> refuses_missing_trace L ->
     (exists e0 s0, call_predict L X s = (Raise e0, s0) /\
                    predict_raises L X s e0 s0) /\
     (exists e0 s0, call_score L X y s = (Raise e0, s0) /\
                    score_raises L X y s e0 s0)) /\
  (forall X y,
     pm.lookup (self_model s) "X" = None ->
     call_predict L X s = (Raise (KeyError "X"), s) /\
     call_score L X y s = (Raise (KeyError "X"), s)) /\
  (forall c kw g X y,
     call_predict L X (init c kw g) = (Raise (KeyError "X"), init c kw g) /\
     call_score L X y (init c kw g) = (Raise (KeyError "X"), init c kw g)).
Proof.
  assert (Hnew : forall (s0 : state) X y,
    pm.lookup (self_model s0) "X" = None ->
    call_predict L X s0 = (Raise (KeyError "X"), s0) /\
    call_score L X y s0 = (Raise (KeyError "X"), s0)).
  { intros s0 X y Hx. split.
    - now apply lookup_None_no_predict.
    - now apply lookup_None_no_score. }
  split; [intros; apply sampling_block_raises |].
  split; [intros; apply sampling_block_raises |].
  split; [intros; apply predict_raises_iff |].
  split; [intros; apply score_raises_iff |].
  split; [intros; apply data_setter_raises_iff |].
  split.
  { intros X y coords. split; [| split].
    - rewrite WeightedSumFitter_build_model_calls. apply run_raises_iff.
    - rewrite LinearRegression_build_model_calls. apply run_raises_iff.
    - unfold ModelBuilder_build_model, raise. split.
      + intros H. injection H as <- <-. now split.
      + now intros [-> ->]. }
  split.
  { intros X Z y t coords priors.
    rewrite InstrumentalVariableRegression_build_model_calls.
    apply run_raises_iff. }
  split.
  { intros a. unfold call_build_model, bind at 1, get_class.
    destruct (self_class s), a; try reflexivity;
      unfold arity_error, raise;
      (split; [intros H; injection H as <- <-; now split
              | now intros [-> ->]]). }
  split; [intros; apply add_coords_raises_iff |].
  split; [intros; apply register_raises_iff |].
  split.
  { intros X y Hi Hlib. rewrite call_predict_unfold, call_score_unfold.
    assert (Hp : exists e0 s0,
      ModelBuilder_predict L X s = (Raise e0, s0) /\
      predict_raises L X s e0 s0).
    { destruct (ModelBuilder_data_setter L X s) as [[[] | e0] s1] eqn:Ed.
      - pose proof (set_data_frame L _ _ _ _ _ Ed) as (_ & Hi1 & _).
        destruct (Hlib (self_model s1) (Some ["y_hat"; "mu"]) false (rng s1))
          as (e0 & g' & Hs).
        assert (Hr : predict_raises L X s e0 (set_rng g' s1)).
        { apply (raised_by_posterior_predictive L X s s1 e0 g' Ed).
          now rewrite Hi1, Hi. }
        exists e0, (set_rng g' s1). split; [| exact Hr].
        now apply predict_raises_iff.
      - assert (Hr : predict_raises L X s e0 s1) by now constructor.
        exists e0, s1. split; [| exact Hr]. now apply predict_raises_iff. }
    destruct Hp as (e0 & s0 & Hp & Hr). split; [now exists e0, s0 |].
    exists e0, s0. split; [| now constructor].
    unfold ModelBuilder_score. now rewrite (bind_raise _ _ _ _ _ Hp). }
  split; [intros X y; apply Hnew |].
  intros c kw g X y. now apply Hnew.
Qed.

(** C2, as the code has it: the three model classes inherit [predict],
    [score] and [_data_setter] from [ModelBuilder]; [WeightedSumFitter] and
    [LinearRegression] inherit [fit] too and declare [build_model] with the
    base parameters, while [InstrumentalVariableRegression] defines its own
    [fit] and [build_model], both taking
    [(X, Z, y, t, coords, priors)].  Both [fit] methods are their
    [build_model] followed by one and the same sequence of calls.
    [build_model] of [WeightedSumFitter] and of [LinearRegression] make the
    same calls but for two things: [WeightedSumFitter] reads [X.shape[1]]
    once [add_coords] has returned, raising [IndexError] for an [X] of fewer
    than two dimensions where [LinearRegression] goes on, and it declares
    [beta] with the Dirichlet prior where [LinearRegression] declares the
    normal one; when both return from the same state, their variables
    differ at [beta] only.  The model of [InstrumentalVariableRegression]
    gets neither a variable ["X"] nor a variable ["y_hat"], so on an
    instance whose model had no ["X"] the inherited [predict] and [score]
    raise the [KeyError] of [pm.set_data]. *)
Theorem model_classes_share_the_lifecycle_up_to_fit_of_IV :
  Forall (fun c =>
            resolve c m_predict = Some ModelBuilder /\
            resolve c m_score = Some ModelBuilder /\
            resolve c m_data_setter = Some ModelBuilder)
         [WeightedSumFitter; LinearRegression;
          InstrumentalVariableRegression] /\
  Forall (fun c =>
            resolve c m_fit = Some ModelBuilder /\
            params c m_build_model = params ModelBuilder m_build_model)
         [WeightedSumFitter; LinearRegression] /\
  resolve InstrumentalVariableRegression m_fit
    = Some InstrumentalVariableRegression /\
  params InstrumentalVariableRegression m_fit
    = Some ["X"; "Z"; "y"; "t"; "coords"; "priors"] /\
  params InstrumentalVariableRegression m_build_model
    = Some ["X"; "Z"; "y"; "t"; "coords"; "priors"] /\
  (exists k : unit -> state -> result (option loc) * state,
     (forall X y coords,
        ModelBuilder_fit L X y coords =
        bind (call_build_model L (Args3 X y coords)) k) /\
     (forall X Z y t coords priors,
        InstrumentalVariableRegression_fit L X Z y t coords priors =
        bind (call_build_model L (Args6 X Z y t coords priors)) k)) /\
  (forall X y coords (s : state) e s',
     add_coords L coords s = (Raise e, s') ->
     WeightedSumFitter_build_model L X y coords s = (Raise e, s') /\
     LinearRegression_build_model L X y coords s = (Raise e, s')) /\
  (forall X y coords (s s0 : state),
     add_coords L coords s = (Ok tt, s0) ->
     LinearRegression_build_model L X y coords s =
       run (regression_calls L X y
              (pm.Normal (pm.TPy (PyAtom (PyInt 0)))
                         (pm.TPy (PyAtom (PyInt 50))))) s0 /\
     (forall n, np.shape_at X 1 = Ok n ->
        WeightedSumFitter_build_model L X y coords s =
          run (regression_calls L X y
                 (pm.Dirichlet (pm.TArr (np.ones n)))) s0) /\
     ((np.ndim X < 2)%nat ->
        WeightedSumFitter_build_model L X y coords s =
          (Raise (IndexError "tuple index out of range"), s0))) /\
  (forall X y coords (s sW sL : state),
     WeightedSumFitter_build_model L X y coords s = (Ok tt, sW) ->
     LinearRegression_build_model L X y coords s = (Ok tt, sL) ->
     exists n pre post,
       np.shape_at X 1 = Ok n /\
       pm.named_vars (self_model sW) =
         pre ++ ("beta", pm.FreeRV (pm.Dirichlet (pm.TArr (np.ones n)))
                                   (Some ["coeffs"])) :: post /\
       pm.named_vars (self_model sL) =
         pre ++ ("beta", pm.FreeRV (pm.Normal (pm.TPy (PyAtom (PyInt 0)))
                                              (pm.TPy (PyAtom (PyInt 50))))
                                   (Some ["coeffs"])) :: post /\
       only_model_changed sW sL) /\
  (forall X Z y t coords priors (s s' : state),
     InstrumentalVariableRegression_build_model L X Z y t coords priors s
       = (Ok tt, s') ->
     pm.lookup (self_model s') "X" = pm.lookup (self_model s) "X" /\
     pm.lookup (self_model s') "y_hat" = pm.lookup (self_model s) "y_hat" /\
     (pm.lookup (self_model s) "X" = None ->
      forall X' y',
        call_predict L X' s' = (Raise (KeyError "X"), s') /\
        call_score L X' y' s' = (Raise (KeyError "X"), s'))).
Proof.
  split; [repeat constructor |]. split; [repeat constructor |].
  do 3 (split; [reflexivity |]). split; [| split; [| split; [| split]]].
  - exists (sampling_steps L). split.
    + exact (ModelBuilder_fit_steps L).
    + exact (InstrumentalVariableRegression_fit_steps L).
  - intros X y coords s e s' Hc. split.
    + unfold WeightedSumFitter_build_model. exact (bind_raise _ _ _ _ _ Hc).
    + unfold LinearRegression_build_model. exact (bind_raise _ _ _ _ _ Hc).
  - intros X y coords s s0 Hc. split; [| split].
    + rewrite LinearRegression_build_model_calls. simpl.
      exact (bind_ok _ _ _ _ _ Hc).
    + intros n Hn. rewrite WeightedSumFitter_build_model_calls. simpl.
      rewrite (bind_ok _ _ _ _ _ Hc). unfold bind at 1, lift at 1.
      now rewrite Hn.
    + intros HX. unfold WeightedSumFitter_build_model.
      rewrite (bind_ok _ _ _ _ _ Hc). unfold bind at 1, lift at 1.
      unfold np.shape_at, np.ndim in *.
      now rewrite lookup_ge_None_2 by lia.
  - intros X y coords s sW sL HW HL.
    apply WeightedSumFitter_build_model_ok in HW
      as (n & y0 & Hn & Hy0 & OW & VW & _).
    apply LinearRegression_build_model_ok in HL as (y1 & Hy1 & OL & VL & _).
    assert (y1 = y0) by congruence. subst y1.
    exists n, (pm.named_vars (self_model s) ++
               [("X", pm.MutableData (as_data L X) (Some ["obs_ind"; "coeffs"]));
                ("y", pm.MutableData (as_data L y0) (Some ["obs_ind"]))]).
    eexists. split; [exact Hn |].
    split; [rewrite VW, <- app_assoc; reflexivity |].
    split; [rewrite VL, <- app_assoc; reflexivity |].
    unfold only_model_changed in *. intuition congruence.
  - intros X Z y t coords priors s s' H.
    apply InstrumentalVariableRegression_build_model_ok in H
      as (mus & sigmas & mu0 & sigma0 & mu1 & sigma1 & lkj_sd & eta & obs &
          n_obs & _ & _ & _ & _ & _ & _ & _ & _ & _ & _ & _ & V & _).
    assert (HX : pm.lookup (self_model s') "X" = pm.lookup (self_model s) "X").
    { unfold pm.lookup. rewrite V, !assoc_app. simpl.
      now destruct (pm.assoc "X" (pm.named_vars (self_model s))). }
    split; [exact HX |]. split.
    + unfold pm.lookup. rewrite V, !assoc_app. simpl.
      now destruct (pm.assoc "y_hat" (pm.named_vars (self_model s))).
    + intros Hx X' y'. rewrite <- HX in Hx. split.
      * now apply lookup_None_no_predict.
      * now apply lookup_None_no_score.
Qed.

End Lifecycle.

(** ** Where the classes part ways *)

(** C1 as stated fails on [InstrumentalVariableRegression], a subclass
    that implements [build_model]: [fit(X, y, coords)] is refused before
    anything is built or sampled, where the same call on a
    [WeightedSumFitter] runs the whole lifecycle. *)
Lemma IV_refuses_fit_with_the_base_arguments :
  is_concrete_model InstrumentalVariableRegression = true /\
  call_fit RefLib.lib (Args3 RefLib.X RefLib.y None)
           (RefLib.new InstrumentalVariableRegression) =
    (Raise (TypeError "wrong number of positional arguments"),
     RefLib.new InstrumentalVariableRegression) /\
  fst (call_fit RefLib.lib (Args3 RefLib.X RefLib.y None)
                (RefLib.new WeightedSumFitter)) = Ok (Some 0%nat).
Proof. repeat split; vm_compute; reflexivity. Qed.

(** C2 as stated fails: [InstrumentalVariableRegression] does not take
    [fit] from [ModelBuilder], and its [fit] has other parameters. *)
Lemma IV_fit_is_not_the_base_fit :
  ~ (forall c m, is_concrete_model c = true ->
       In m [m_fit; m_predict; m_score] ->
       resolve c m = Some ModelBuilder /\
       params (default c (resolve c m)) m = params ModelBuilder m).
Proof.
  intros H.
  destruct (H InstrumentalVariableRegression m_fit eq_refl (or_introl eq_refl))
    as [H1 _].
  discriminate H1.
Qed.

(** C3 as stated fails on a fitted [InstrumentalVariableRegression]: its
    model has no data variable ["X"], so [predict] raises the [KeyError]
    of [pm.set_data] and samples nothing. *)
Lemma predict_on_a_fitted_IV_raises_KeyError :
  fst (call_fit RefLib.lib RefLib.args_IV
         (RefLib.new InstrumentalVariableRegression)) = Ok (Some 0%nat) /\
  call_predict RefLib.lib RefLib.X_new RefLib.fitted_IV =
    (Raise (KeyError "X"), RefLib.fitted_IV).
Proof. split; vm_compute; reflexivity. Qed.

(** C5 as stated fails in its last clause: after a [fit] that raised once
    [idata] was bound, no [fit] has succeeded, and [predict] returns. *)
Lemma predict_returns_after_a_failed_fit :
  fst (call_fit RefLib.failing_prior_predictive
         (Args3 RefLib.X RefLib.y None) (RefLib.new LinearRegression)) =
    Raise (OtherError "SamplingError" "prior predictive") /\
  fst (call_predict RefLib.failing_prior_predictive RefLib.X_new
                    RefLib.after_failed_fit) = Ok 1%nat.
Proof. split; vm_compute; reflexivity. Qed.

(** ** Runs on the reference library *)

(** C1 on a [WeightedSumFitter] and on an
    [InstrumentalVariableRegression], each called with the arguments of its
    own [fit]: the object returned is the one bound to [idata], and it
    holds the five groups. *)
Lemma fit_reference_run :
  (exists l s',
     call_fit RefLib.lib (Args3 RefLib.X RefLib.y None)
              (RefLib.new WeightedSumFitter) = (Ok (Some l), s') /\
     self_idata s' = Some l /\
     heap s' !! l = Some ["posterior"; "sample_stats"; "prior";
                          "prior_predictive"; "posterior_predictive"] /\
     rng s' = 3%nat) /\
  (exists l s',
     call_fit RefLib.lib RefLib.args_IV
       (RefLib.new InstrumentalVariableRegression) = (Ok (Some l), s') /\
     self_idata s' = Some l /\
     heap s' !! l = Some ["posterior"; "sample_stats"; "prior";
                          "prior_predictive"; "posterior_predictive"] /\
     rng s' = 3%nat).
Proof.
  split.
  - destruct (fit_builds_samples_extends_and_returns_idata RefLib.lib
                (Args3 RefLib.X RefLib.y None) (RefLib.new WeightedSumFitter)
                (snd (call_build_model RefLib.lib
                        (Args3 RefLib.X RefLib.y None)
                        (RefLib.new WeightedSumFitter)))
                ["posterior"; "sample_stats"] 1%nat
                ["prior"; "prior_predictive"] 2%nat
                ["posterior"; "sample_stats"; "prior"; "prior_predictive"]
                ["posterior_predictive"] 3%nat
                ["posterior"; "sample_stats"; "prior"; "prior_predictive";
                 "posterior_predictive"]
                ltac:(vm_compute; reflexivity) eq_refl eq_refl eq_refl
                eq_refl eq_refl)
      as (l & s' & Hrun & Hi & Hh & _ & _ & _ & Hg).
    exists l, s'. repeat split; assumption.
  - destruct (fit_builds_samples_extends_and_returns_idata RefLib.lib
                RefLib.args_IV
                (RefLib.new InstrumentalVariableRegression)
                (snd (call_build_model RefLib.lib RefLib.args_IV
                        (RefLib.new InstrumentalVariableRegression)))
                ["posterior"; "sample_stats"] 1%nat
                ["prior"; "prior_predictive"] 2%nat
                ["posterior"; "sample_stats"; "prior"; "prior_predictive"]
                ["posterior_predictive"] 3%nat
                ["posterior"; "sample_stats"; "prior"; "prior_predictive";
                 "posterior_predictive"]
                ltac:(vm_compute; reflexivity) eq_refl eq_refl eq_refl
                eq_refl eq_refl)
      as (l & s' & Hrun & Hi & Hh & _ & _ & _ & Hg).
    exists l, s'. repeat split; assumption.
Defined.

(** C2 on the reference inputs: the two models, built from a new
    instance, differ at [beta] only; and with a one-dimensional [X],
    [WeightedSumFitter.build_model] raises the [IndexError] of
    [X.shape[1]] before it declares anything. *)
Lemma WeightedSumFitter_and_LinearRegression_differ_at_beta :
  (exists n pre post,
     np.shape_at RefLib.X 1 = Ok n /\
     pm.named_vars
       (self_model (snd (WeightedSumFitter_build_model RefLib.lib
                           RefLib.X RefLib.y None
                           (RefLib.new WeightedSumFitter)))) =
       pre ++ ("beta", pm.FreeRV (pm.Dirichlet (pm.TArr (np.ones n)))
                                 (Some ["coeffs"])) :: post /\
     pm.named_vars
       (self_model (snd (LinearRegression_build_model RefLib.lib
                           RefLib.X RefLib.y None
                           (RefLib.new WeightedSumFitter)))) =
       pre ++ ("beta", pm.FreeRV (pm.Normal (pm.TPy (PyAtom (PyInt 0)))
                                            (pm.TPy (PyAtom (PyInt 50))))
                                 (Some ["coeffs"])) :: post /\
     only_model_changed
       (snd (WeightedSumFitter_build_model RefLib.lib RefLib.X RefLib.y None
               (RefLib.new WeightedSumFitter)))
       (snd (LinearRegression_build_model RefLib.lib RefLib.X RefLib.y None
               (RefLib.new WeightedSumFitter)))) /\
  WeightedSumFitter_build_model RefLib.lib RefLib.t RefLib.y None
    (RefLib.new WeightedSumFitter) =
    (Raise (IndexError "tuple index out of range"),
     RefLib.new WeightedSumFitter).
Proof.
  destruct (model_classes_share_the_lifecycle_up_to_fit_of_IV RefLib.lib)
    as (_ & _ & _ & _ & _ & _ & _ & Hsame & Hbeta & _).
  split.
  - exact (Hbeta RefLib.X RefLib.y None (RefLib.new WeightedSumFitter) _ _
             ltac:(vm_compute; reflexivity) ltac:(vm_compute; reflexivity)).
  - destruct (Hsame RefLib.t RefLib.y None (RefLib.new WeightedSumFitter)
                (RefLib.new WeightedSumFitter) eq_refl) as (_ & _ & H).
    apply H. vm_compute. lia.
Defined.

(** C3 on a fitted [LinearRegression]: [predict] returns a new object
    holding the posterior predictive group, ["X"] is re-bound, and the
    fitted inference data stay where they were. *)
Lemma predict_reference_run :
  exists l' s',
    call_predict RefLib.lib RefLib.X_new (RefLib.fitted LinearRegression)
      = (Ok l', s') /\
    heap s' !! l' = Some ["posterior_predictive"] /\
    pm.lookup (self_model s') "X" =
      Some (pm.MutableData RefLib.X_new (Some ["obs_ind"; "coeffs"])) /\
    self_idata s' = Some 0%nat /\
    heap s' !! 0%nat = Some ["posterior"; "sample_stats"; "prior";
                             "prior_predictive"; "posterior_predictive"].
Proof.
  destruct (predict_rebinds_X_then_samples_posterior_predictive RefLib.lib
              RefLib.X_new (RefLib.fitted LinearRegression)
              (snd (ModelBuilder_data_setter RefLib.lib RefLib.X_new
                      (RefLib.fitted LinearRegression)))
              0%nat
              ["posterior"; "sample_stats"; "prior"; "prior_predictive";
               "posterior_predictive"]
              ["posterior_predictive"] 4%nat
              ltac:(vm_compute; reflexivity) ltac:(vm_compute; reflexivity)
              ltac:(vm_compute; reflexivity) ltac:(vm_compute; reflexivity))
    as (l' & s' & Hrun & Hnew & _ & Hm & _ & _ & Hi & Hh & _).
  exists l', s'. split; [exact Hrun |]. split; [exact Hnew |].
  split; [rewrite Hm; vm_compute; reflexivity |]. split; [exact Hi | exact Hh].
Defined.

(** C4 on a fitted [LinearRegression] and outcomes in one column: the
    score is what the library's [r2_score] returned. *)
Lemma score_reference_run :
  call_score RefLib.lib RefLib.X RefLib.y_col
             (RefLib.fitted LinearRegression) =
    (Ok [("r2", 1%Q); ("r2_std", 0%Q)],
     snd (call_predict RefLib.lib RefLib.X (RefLib.fitted LinearRegression))).
Proof.
  destruct (proj1 (score_is_r2_score_of_flattened_y_and_predicted_y_hat
                     RefLib.lib RefLib.X RefLib.y_col
                     (RefLib.fitted LinearRegression))
              1%nat
              (snd (call_predict RefLib.lib RefLib.X
                                 (RefLib.fitted LinearRegression)))
              ltac:(vm_compute; reflexivity)) as (post_pred & Hl & Hs).
  vm_compute in Hl. injection Hl as <-. rewrite Hs. vm_compute. reflexivity.
Defined.

Lemma reference_library_refuses_missing_trace :
  refuses_missing_trace RefLib.lib.
Proof. intros m var_names progressbar g. eexists _, _. reflexivity. Qed.

(** C5 on the reference library.  With a failing prior predictive sampler
    [fit] raises the sampler's exception as it is, the posterior already
    bound to [idata]; [build_model] handed a one-dimensional [X] raises the
    library's refusal of the data variable as it is, nothing declared; and
    on an instance whose model is built while [idata] is None, [predict]
    fails with the exception of one of its library calls. *)
Lemma fit_propagates_the_sampler_exception :
  ModelBuilder_fit RefLib.failing_prior_predictive RefLib.X RefLib.y None
                   (RefLib.new LinearRegression) =
    (Raise (OtherError "SamplingError" "prior predictive"),
     bound_idata
       (snd (call_build_model RefLib.failing_prior_predictive
               (Args3 RefLib.X RefLib.y None) (RefLib.new LinearRegression)))
       ["posterior"; "sample_stats"] 1%nat) /\
  LinearRegression_build_model RefLib.lib RefLib.t RefLib.y None
    (RefLib.new LinearRegression) =
    (Raise (OtherError "ShapeError"
              "Length of dims must match the dimensions of the dataset"),
     RefLib.new LinearRegression) /\
  exists e0 s0,
    call_predict RefLib.lib RefLib.X_new
      (snd (call_build_model RefLib.lib (Args3 RefLib.X RefLib.y None)
              (RefLib.new LinearRegression))) = (Raise e0, s0) /\
    predict_raises RefLib.lib RefLib.X_new
      (snd (call_build_model RefLib.lib (Args3 RefLib.X RefLib.y None)
              (RefLib.new LinearRegression))) e0 s0.
Proof.
  split; [| split].
  - destruct (wrapper_methods_propagate_exceptions_unchanged
                RefLib.failing_prior_predictive (RefLib.new LinearRegression)
                (OtherError "SamplingError" "prior predictive")
                (bound_idata
                   (snd (call_build_model RefLib.failing_prior_predictive
                           (Args3 RefLib.X RefLib.y None)
                           (RefLib.new LinearRegression)))
                   ["posterior"; "sample_stats"] 1%nat))
      as (H & _).
    apply H.
    eapply raised_by_sample_prior_predictive;
      [vm_compute; reflexivity | reflexivity | reflexivity].
  - destruct (wrapper_methods_propagate_exceptions_unchanged RefLib.lib
                (RefLib.new LinearRegression)
                (OtherError "ShapeError"
                   "Length of dims must match the dimensions of the dataset")
                (RefLib.new LinearRegression))
      as (_ & _ & _ & _ & _ & H & _).
    apply (H RefLib.t RefLib.y None). simpl. right.
    exists tt, (RefLib.new LinearRegression). split; [reflexivity |].
    left. reflexivity.
  - destruct (wrapper_methods_propagate_exceptions_unchanged RefLib.lib
                (snd (call_build_model RefLib.lib
                        (Args3 RefLib.X RefLib.y None)
                        (RefLib.new LinearRegression)))
                (KeyError "X")
                (RefLib.new LinearRegression))
      as (_ & _ & _ & _ & _ & _ & _ & _ & _ & _ & H & _).
    exact (proj1 (H RefLib.X_new RefLib.y eq_refl
                    reference_library_refuses_missing_trace)).
Defined.

(** C7 on the reference inputs: the priors and the likelihood of the model
    each of the three classes builds on a new instance. *)
Lemma three_reference_models :
  (pm.priors_of
     (self_model (snd (WeightedSumFitter_build_model RefLib.lib
                         RefLib.X RefLib.y None
                         (RefLib.new WeightedSumFitter)))) =
     [("beta", pm.FreeRV (pm.Dirichlet (pm.TArr (np.ones 2)))
                         (Some ["coeffs"]));
      ("sigma", pm.FreeRV (pm.HalfNormal (pm.TPy (PyAtom (PyInt 1)))) None)] /\
   pm.likelihood_of
     (self_model (snd (WeightedSumFitter_build_model RefLib.lib
                         RefLib.X RefLib.y None
                         (RefLib.new WeightedSumFitter)))) =
     [("y_hat", pm.ObservedRV (pm.Normal (pm.TVar "mu") (pm.TVar "sigma"))
                              (pm.TVar "y") (Some ["obs_ind"]) None)]) /\
  (pm.priors_of
     (self_model (snd (LinearRegression_build_model RefLib.lib
                         RefLib.X RefLib.y None
                         (RefLib.new LinearRegression)))) =
     [("beta", pm.FreeRV (pm.Normal (pm.TPy (PyAtom (PyInt 0)))
                                    (pm.TPy (PyAtom (PyInt 50))))
                         (Some ["coeffs"]));
      ("sigma", pm.FreeRV (pm.HalfNormal (pm.TPy (PyAtom (PyInt 1)))) None)] /\
   pm.likelihood_of
     (self_model (snd (LinearRegression_build_model RefLib.lib
                         RefLib.X RefLib.y None
                         (RefLib.new LinearRegression)))) =
     [("y_hat", pm.ObservedRV (pm.Normal (pm.TVar "mu") (pm.TVar "sigma"))
                              (pm.TVar "y") (Some ["obs_ind"]) None)]) /\
  (pm.priors_of
     (self_model (snd (InstrumentalVariableRegression_build_model RefLib.lib
                         RefLib.X RefLib.X RefLib.y1 RefLib.t
                         (Some RefLib.coords_IV) RefLib.priors
                         (RefLib.new InstrumentalVariableRegression)))) =
     [("beta_t", pm.FreeRV (pm.Normal (pm.TPy (PyAtom (PyInt 0)))
                                      (pm.TPy (PyAtom (PyInt 1))))
                           (Some ["instruments"]));
      ("beta_z", pm.FreeRV (pm.Normal (pm.TPy (PyAtom (PyInt 0)))
                                      (pm.TPy (PyAtom (PyInt 1))))
                           (Some ["covariates"]));
      ("chol_cov",
       pm.FreeRV (pm.LKJCholeskyCov (pm.TPy (PyAtom (PyInt 2))) 2
                    (pm.HalfCauchy (pm.TPy (PyAtom (PyInt 2)))
                                   (Some [2%nat]))) None)] /\
   pm.likelihood_of
     (self_model (snd (InstrumentalVariableRegression_build_model RefLib.lib
                         RefLib.X RefLib.X RefLib.y1 RefLib.t
                         (Some RefLib.coords_IV) RefLib.priors
                         (RefLib.new InstrumentalVariableRegression)))) =
     [("likelihood",
       pm.ObservedRV (pm.MvNormal (pm.TVar "mu") (pm.TUnpack "chol_cov" 0))
                     (pm.TArr (np.mk_ndarray [2; 2]%nat [5; 0; 7; 1]%Q))
                     None (Some [2%nat; 2%nat]))]).
Proof.
  destruct (three_concrete_models_declare_priors_and_likelihood RefLib.lib)
    as (_ & _ & _ & _ & _ & HW & HL & HIV).
  split; [| split].
  - destruct (HW RefLib.X RefLib.y None (RefLib.new WeightedSumFitter) _
                ltac:(vm_compute; reflexivity)) as (n & Hn & Hp & Hl).
    vm_compute in Hn. injection Hn as <-. exact (conj Hp Hl).
  - exact (HL RefLib.X RefLib.y None (RefLib.new LinearRegression) _
              ltac:(vm_compute; reflexivity)).
  - destruct (HIV RefLib.X RefLib.X RefLib.y1 RefLib.t
                (Some RefLib.coords_IV) RefLib.priors
                (RefLib.new InstrumentalVariableRegression) _
                ltac:(vm_compute; reflexivity))
      as (mus & sigmas & mu0 & sigma0 & mu1 & sigma1 & lkj_sd & eta & obs &
          n_obs & Hm & Hs & Hm0 & Hs0 & Hm1 & Hs1 & Hk & He & Ho & Hn &
          Hp & Hl).
    vm_compute in Hm. injection Hm as <-.
    vm_compute in Hs. injection Hs as <-.
    vm_compute in Hm0. injection Hm0 as <-.
    vm_compute in Hs0. injection Hs0 as <-.
    vm_compute in Hm1. injection Hm1 as <-.
    vm_compute in Hs1. injection Hs1 as <-.
    vm_compute in Hk. injection Hk as <-.
    vm_compute in He. injection He as <-.
    vm_compute in Ho. injection Ho as <-.
    vm_compute in Hn. injection Hn as <-.
    exact (conj Hp Hl).
Defined.

Lemma reference_outcomes_agree_on_first_column :
  same_first_column RefLib.y RefLib.y'.
Proof.
  exists 2%nat, 2%nat, 3%nat, []. repeat split; try (simpl; lia).
  intros i k Hi Hk. simpl in Hk.
  destruct i as [| [| i]], k as [| k]; try lia; reflexivity.
Defined.

(** C9 on the reference inputs: a one-dimensional outcome never builds,
    and outcomes with the same first column give the same [fit]. *)
Lemma first_column_reference_run :
  (forall u s',
     LinearRegression_build_model RefLib.lib RefLib.X RefLib.y1 None
       (RefLib.new LinearRegression) <> (Ok u, s')) /\
  call_fit RefLib.lib (Args3 RefLib.X RefLib.y None)
           (RefLib.new LinearRegression) =
  call_fit RefLib.lib (Args3 RefLib.X RefLib.y' None)
           (RefLib.new LinearRegression).
Proof.
  destruct (build_model_reads_only_the_first_column_of_y RefLib.lib
              RefLib.X None (RefLib.new LinearRegression)) as [H1 H2].
  split.
  - destruct (H1 RefLib.y1) as (_ & H & _); [vm_compute; lia | exact H].
  - destruct (H2 RefLib.y RefLib.y'
                reference_outcomes_agree_on_first_column) as (_ & _ & H).
    exact H.
Defined.


(** * Further properties of the lifecycle *)

Section FitOutcomes.

Context {InferenceData DataArray Series Rng : Type}.
Variable L : Library InferenceData DataArray Series Rng.

Let state : Type := state InferenceData Rng.

(** Every class runs [fit] as its [build_model] and the sampling steps: a
    call whose arguments do not fit is refused by both alike. *)
Lemma call_fit_unfold a (s : state) :
  call_fit L a s = bind (call_build_model L a) (sampling_steps L) s.
Proof.
  unfold call_fit, bind at 1, get_class.
  destruct (self_class s) eqn:Ec, a; simpl;
    try reflexivity;
    unfold call_build_model, bind, get_class; now rewrite Ec.
Qed.

(** Every run of the sampling steps stops in one of three shapes of
    state. *)
Lemma sampling_steps_outcome (s1 s' : state) r :
  sampling_steps L tt s1 = (r, s') ->
  (exists e g, r = Raise e /\ s' = set_rng g s1) \/
  (exists e i g, r = Raise e /\ s' = bound_idata s1 i g) \/
  (exists i g, r = Ok (Some (length (heap s1))) /\ s' = bound_idata s1 i g).
Proof.
  unfold sampling_steps, bind, get_sample_kwargs, sample, alloc, assign_idata,
    get_idata, idata_dot_extend, sample_prior_predictive, extend,
    sample_posterior_predictive, deref, loc.
  destruct (pm_sample L (self_model s1) (self_sample_kwargs s1) (rng s1))
    as [[posterior | e0] g1]; simpl.
  2: { intros H. injection H as <- <-. left. now exists e0, g1. }
  destruct (pm_sample_prior_predictive L (self_model s1) g1)
    as [[prior | e0] g2]; simpl.
  2: { intros H. injection H as <- <-. right; left.
       now exists e0, posterior, g2. }
  rewrite lookup_fresh.
  destruct (idata_extend L posterior prior) as [i1 | e0]; simpl.
  2: { intros H. injection H as <- <-. right; left.
       now exists e0, posterior, g2. }
  rewrite insert_fresh, lookup_fresh.
  destruct (pm_sample_posterior_predictive L (self_model s1) (Some i1)
              None false g2) as [[post_pred | e0] g3]; simpl.
  2: { intros H. injection H as <- <-. right; left. now exists e0, i1, g3. }
  rewrite lookup_fresh.
  destruct (idata_extend L i1 post_pred) as [i2 | e0]; simpl.
  2: { intros H. injection H as <- <-. right; left. now exists e0, i1, g3. }
  rewrite insert_fresh. intros H. injection H as <- <-.
  right; right. now exists i2, g3.
Qed.

(** A call of [fit] stops where [build_model] raised, or runs the sampling
    steps on the state [build_model] left. *)
Lemma call_fit_outcome a (s s' : state) r :
  call_fit L a s = (r, s') ->
  (exists e, r = Raise e /\ call_build_model L a s = (Raise e, s')) \/
  (exists s1, call_build_model L a s = (Ok tt, s1) /\
              sampling_steps L tt s1 = (r, s')).
Proof.
  rewrite call_fit_unfold. unfold bind.
  destruct (call_build_model L a s) as [[[] | e] s1] eqn:Eb; intros H.
  - right. now exists s1.
  - injection H as <- <-. left. now exists e.
Qed.

(** X1: [fit] never returns None.  Whenever it returns, the value is a
    reference to an object it has just added to the store, [self.idata] is
    that reference, the objects that were in the store are untouched, the
    model is the one [build_model] left, and the class and [sample_kwargs]
    are unchanged. *)
Theorem fit_returns_the_new_object_it_stored a (s s' : state) r :
  call_fit L a s = (Ok r, s') ->
  exists i s1,
    r = Some (length (heap s)) /\
    self_idata s' = Some (length (heap s)) /\
    heap s' = heap s ++ [i] /\
    call_build_model L a s = (Ok tt, s1) /\
    self_model s' = self_model s1 /\
    self_class s' = self_class s /\
    self_sample_kwargs s' = self_sample_kwargs s.
Proof.
  intros H. apply call_fit_outcome in H as [(e & He & _) | (s1 & Hb & Hs)];
    [discriminate |].
  pose proof (call_build_model_frame L _ _ _ _ Hb) as (Hc & _ & Hk & Hh & _).
  apply sampling_steps_outcome in Hs
    as [(e & g & He & _) | [(e & i & g & He & _) | (i & g & Hr & ->)]];
    try discriminate.
  injection Hr as ->. exists i, s1. simpl. rewrite Hh.
  repeat split; auto.
Qed.

(** X2: a [fit] that raises leaves the class and [sample_kwargs] as they
    were and touches no object that was in the store.  Either [self.idata]
    and the store are unchanged, or [self.idata] refers to one new object,
    the inference data drawn before the failure. *)
Theorem failed_fit_leaves_old_data_untouched a (s s' : state) e :
  call_fit L a s = (Raise e, s') ->
  self_class s' = self_class s /\
  self_sample_kwargs s' = self_sample_kwargs s /\
  ((self_idata s' = self_idata s /\ heap s' = heap s) \/
   (exists i, self_idata s' = Some (length (heap s)) /\
              heap s' = heap s ++ [i])).
Proof.
  intros H. apply call_fit_outcome in H as [(e0 & _ & Hb) | (s1 & Hb & Hs)];
    pose proof (call_build_model_frame L _ _ _ _ Hb) as (Hc & Hi & Hk & Hh & _).
  - repeat split; auto.
  - apply sampling_steps_outcome in Hs
      as [(e0 & g & _ & ->) | [(e0 & i & g & _ & ->) | (i & g & Hr & _)]];
      try discriminate; simpl; repeat split; auto.
    right. exists i. rewrite Hh. now split.
Qed.

End FitOutcomes.

(** ** What every call keeps *)

Section CallFrames.

Context {InferenceData DataArray Series Rng : Type}.
Variable L : Library InferenceData DataArray Series Rng.

Let state : Type := state InferenceData Rng.

Lemma call_frame_refl (s : state) : call_frame s s.
Proof. repeat split; auto. Qed.

Lemma call_frame_trans (s1 s2 s3 : state) :
  call_frame s1 s2 -> call_frame s2 s3 -> call_frame s1 s3.
Proof.
  intros (C1 & K1 & H1 & I1) (C2 & K2 & H2 & I2).
  split; [congruence |]. split; [congruence |].
  split; [intros l i Hl; auto |].
  destruct I2 as [I2 | (l & I2 & Hn & Hs)].
  - rewrite I2. destruct I1 as [I1 | (l & I1 & Hn & Hs)]; [now left |].
    right. exists l. split; [exact I1 |]. split; [exact Hn |].
    destruct Hs as [i Hs]. exists i. auto.
  - right. exists l. split; [exact I2 |]. split; [| exact Hs].
    destruct (heap s1 !! l) as [i |] eqn:E; [| reflexivity].
    apply H1 in E. unfold loc in *. congruence.
Qed.

Lemma only_model_changed_call_frame (s s' : state) :
  only_model_changed s s' -> call_frame s s'.
Proof.
  intros (Hc & Hi & Hk & Hh & _).
  repeat split; auto. intros l i. now rewrite Hh.
Qed.

Lemma predict_frame_call_frame (s s' : state) :
  predict_frame s s' -> call_frame s s'.
Proof.
  intros (Hc & Hi & Hk & Hh & _). repeat split; auto.
Qed.

Lemma call_build_model_call_frame a (s s' : state) r :
  call_build_model L a s = (r, s') -> call_frame s s'.
Proof.
  intros H. apply only_model_changed_call_frame.
  exact (call_build_model_frame L _ _ _ _ H).
Qed.

Lemma sampling_steps_call_frame (s1 s' : state) r :
  sampling_steps L tt s1 = (r, s') -> call_frame s1 s'.
Proof.
  intros H. apply sampling_steps_outcome in H
    as [(e & g & _ & ->) | [(e & i & g & _ & ->) | (i & g & _ & ->)]].
  - repeat split; simpl; auto.
  - repeat split; simpl; auto using lookup_app_l_Some.
    right. exists (length (heap s1)).
    split; [reflexivity |]. split; [now apply lookup_ge_None_2 |].
    exists i. apply lookup_fresh.
  - repeat split; simpl; auto using lookup_app_l_Some.
    right. exists (length (heap s1)).
    split; [reflexivity |]. split; [now apply lookup_ge_None_2 |].
    exists i. apply lookup_fresh.
Qed.

Lemma call_fit_call_frame a (s s' : state) r :
  call_fit L a s = (r, s') -> call_frame s s'.
Proof.
  intros H. apply call_fit_outcome in H as [(e & _ & Hb) | (s1 & Hb & Hs)].
  - exact (call_build_model_call_frame _ _ _ _ Hb).
  - eapply call_frame_trans.
    + exact (call_build_model_call_frame _ _ _ _ Hb).
    + exact (sampling_steps_call_frame _ _ _ Hs).
Qed.

Lemma call_score_predict_frame X y (s s' : state) r :
  call_score L X y s = (r, s') -> predict_frame s s'.
Proof.
  unfold call_score, bind at 1, get_class. simpl.
  destruct (resolve (self_class s) m_score) as [[] |];
    try (intros H; injection H as _ <-; apply predict_frame_refl).
  unfold ModelBuilder_score, bind.
  destruct (ModelBuilder_predict L X s) as [[l | e] s1] eqn:Ep;
    pose proof (ModelBuilder_predict_frame L _ _ _ _ Ep) as F.
  - unfold extract_T_values, lift.
    destruct (heap s1 !! l) as [i |].
    + destruct (result_bind _ _); intros H; injection H as _ <-; exact F.
    + intros H. injection H as _ <-. exact F.
  - intros H. injection H as _ <-. exact F.
Qed.

Lemma after_call_frame c (s : state) : call_frame s (after_call L c s).
Proof.
  destruct c as [a | X | a | X | X y]; simpl.
  - eapply call_build_model_call_frame. apply surjective_pairing.
  - apply predict_frame_call_frame.
    eapply set_data_predict_frame. apply surjective_pairing.
  - eapply call_fit_call_frame. apply surjective_pairing.
  - apply predict_frame_call_frame.
    eapply call_predict_frame. apply surjective_pairing.
  - apply predict_frame_call_frame.
    eapply call_score_predict_frame. apply surjective_pairing.
Qed.

Lemma reachable_call_frame (s0 s : state) :
  reachable L s0 s -> call_frame s0 s.
Proof.
  induction 1 as [| c s _ IH]; [apply call_frame_refl |].
  eapply call_frame_trans; [exact IH | apply after_call_frame].
Qed.

(** X3: what no call changes.  After any sequence of calls of
    [build_model], [_data_setter], [fit], [predict] and [score], returning
    or raising, on an instance as [__init__] made it: the class is the one
    it was made with, and [sample_kwargs] is the dictionary given to
    [__init__], or the empty one when none was given. *)
Theorem calls_keep_the_instance_invariants c kw g (s : state) :
  reachable L (init c kw g) s ->
  self_class s = c /\
  self_sample_kwargs s = match kw with Some k => k | None => ∅ end.
Proof.
  intros H. apply reachable_call_frame in H as (Hc & Hk & _).
  split; [exact Hc | exact Hk].
Qed.

(** X4: an inference data object, once in the store, is never modified:
    after any sequence of calls every reference that was valid still
    refers to the same contents, and [self.idata] either is the reference
    it was or refers to an object that did not exist before.  [fit] binds
    a new object and extends that one. *)
Theorem stored_inference_data_is_never_modified (s0 s : state) :
  reachable L s0 s ->
  (forall l i, heap s0 !! l = Some i -> heap s !! l = Some i) /\
  (self_idata s = self_idata s0 \/
   exists l, self_idata s = Some l /\ heap s0 !! l = None /\
             is_Some (heap s !! l)).
Proof.
  intros H. apply reachable_call_frame in H as (_ & _ & Hh & Hi).
  now split.
Qed.

End CallFrames.

(** ** A model is declared once *)

Section Rebuild.

Context {InferenceData DataArray Series Rng : Type}.
Variable L : Library InferenceData DataArray Series Rng.

Let state : Type := state InferenceData Rng.

Lemma add_coords_vars coords (s s' : state) r :
  add_coords L coords s = (r, s') ->
  only_model_changed s s' /\
  pm.named_vars (self_model s') = pm.named_vars (self_model s) /\
  pm.free_RVs (self_model s') = pm.free_RVs (self_model s).
Proof.
  unfold add_coords. destruct coords as [c |].
  - destruct (check_coords L (self_model s) c); intros E;
      injection E as _ <-; now repeat split.
  - intros E. injection E as _ <-. now repeat split.
Qed.

(** Declaring a name the model has raises.  No variable is added under a
    name, but a random variable that passed the library's checks is
    already among the free variables of the model. *)
Lemma register_taken name d d0 (s : state) :
  pm.lookup (self_model s) name = Some d0 ->
  exists e s',
    register L name d s = (Raise e, s') /\
    only_model_changed s s' /\
    pm.named_vars (self_model s') = pm.named_vars (self_model s) /\
    (pm.free_RVs (self_model s') = pm.free_RVs (self_model s) \/
     pm.is_free_rv d = true /\
     pm.free_RVs (self_model s') = pm.free_RVs (self_model s) ++ [(name, d)]).
Proof.
  intros H. unfold register. rewrite H.
  destruct (check_decl L (self_model s) name d).
  - do 2 eexists. split; [reflexivity |]. repeat split. now left.
  - do 2 eexists. split; [reflexivity |]. simpl. repeat split.
    destruct (pm.is_free_rv d); [now right | left; apply app_nil_r].
Qed.

(** With ["X"] declared, [build_model] of the two regression classes
    raises and declares nothing. *)
Lemma rebuild_raises_X a d (s : state) :
  self_class s = WeightedSumFitter \/ self_class s = LinearRegression ->
  pm.lookup (self_model s) "X" = Some d ->
  exists e s',
    call_build_model L a s = (Raise e, s') /\
    only_model_changed s s' /\
    pm.named_vars (self_model s') = pm.named_vars (self_model s) /\
    pm.free_RVs (self_model s') = pm.free_RVs (self_model s).
Proof.
  intros Hc Hx. unfold call_build_model, bind at 1, get_class.
  assert (Hs : only_model_changed s s /\
               pm.named_vars (self_model s) = pm.named_vars (self_model s) /\
               pm.free_RVs (self_model s) = pm.free_RVs (self_model s))
    by (split; [apply only_model_changed_refl | now split]).
  destruct Hc as [-> | ->], a as [X y coords | X Z y t coords priors];
    try (do 2 eexists; split; [reflexivity | exact Hs]);
    unfold WeightedSumFitter_build_model, LinearRegression_build_model,
      bind at 1;
    destruct (add_coords L coords s) as [[[] | e] s0] eqn:Ea;
    pose proof (add_coords_vars _ _ _ _ Ea) as (F & V & R);
    try (do 2 eexists; split; [reflexivity | exact (conj F (conj V R))]);
    assert (Hx0 : pm.lookup (self_model s0) "X" = Some d)
      by (unfold pm.lookup in *; now rewrite V).
  - unfold bind at 1, lift at 1.
    destruct (np.shape_at X 1) as [n | e];
      [| do 2 eexists; split; [reflexivity | exact (conj F (conj V R))]].
    unfold bind at 1, pm_MutableData.
    destruct (register_taken "X"
                (pm.MutableData (as_data L X) (Some ["obs_ind"; "coeffs"]))
                _ _ Hx0) as (e & s' & -> & F' & V' & [R' | [R' _]]);
      [| discriminate R'].
    do 2 eexists. split; [reflexivity |].
    split; [eapply only_model_changed_trans; eassumption |].
    split; congruence.
  - unfold bind at 1, pm_MutableData.
    destruct (register_taken "X"
                (pm.MutableData (as_data L X) (Some ["obs_ind"; "coeffs"]))
                _ _ Hx0) as (e & s' & -> & F' & V' & [R' | [R' _]]);
      [| discriminate R'].
    do 2 eexists. split; [reflexivity |].
    split; [eapply only_model_changed_trans; eassumption |].
    split; congruence.
Qed.

(** With ["beta_t"] declared, [build_model] of the instrumental-variable
    class raises and declares nothing under a name; the refused ["beta_t"]
    may have joined the free variables. *)
Lemma rebuild_raises_beta_t a d (s : state) :
  self_class s = InstrumentalVariableRegression ->
  pm.lookup (self_model s) "beta_t" = Some d ->
  exists e s',
    call_build_model L a s = (Raise e, s') /\
    only_model_changed s s' /\
    pm.named_vars (self_model s') = pm.named_vars (self_model s) /\
    (pm.free_RVs (self_model s') = pm.free_RVs (self_model s) \/
     exists d', pm.free_RVs (self_model s') =
                pm.free_RVs (self_model s) ++ [("beta_t", d')]).
Proof.
  intros Hc Hx. unfold call_build_model, bind at 1, get_class. rewrite Hc.
  destruct a as [X y coords | X Z y t coords priors].
  { do 2 eexists. split; [reflexivity |].
    split; [apply only_model_changed_refl |]. split; [reflexivity | now left]. }
  unfold InstrumentalVariableRegression_build_model, bind at 1.
  destruct (add_coords L coords s) as [[[] | e] s0] eqn:Ea;
    pose proof (add_coords_vars _ _ _ _ Ea) as (F & V & R);
    try (do 2 eexists; split; [reflexivity |];
         split; [exact F |]; split; [exact V | now left]).
  assert (Hx0 : pm.lookup (self_model s0) "beta_t" = Some d)
    by (unfold pm.lookup in *; now rewrite V).
  assert (Hs0 : only_model_changed s s0 /\
                pm.named_vars (self_model s0) = pm.named_vars (self_model s) /\
                (pm.free_RVs (self_model s0) = pm.free_RVs (self_model s) \/
                 exists d', pm.free_RVs (self_model s0) =
                            pm.free_RVs (self_model s) ++ [("beta_t", d')]))
    by (split; [exact F |]; split; [exact V | now left]).
  unfold bind at 1, lift at 1.
  destruct (dict_getitem priors "mus") as [mus | e];
    [| do 2 eexists; split; [reflexivity | exact Hs0]].
  unfold bind at 1, lift at 1.
  destruct (getitem mus 0) as [mu0 | e];
    [| do 2 eexists; split; [reflexivity | exact Hs0]].
  unfold bind at 1, lift at 1.
  destruct (dict_getitem priors "sigmas") as [sigmas | e];
    [| do 2 eexists; split; [reflexivity | exact Hs0]].
  unfold bind at 1, lift at 1.
  destruct (getitem sigmas 0) as [sigma0 | e];
    [| do 2 eexists; split; [reflexivity | exact Hs0]].
  unfold bind at 1, pm_RV.
  destruct (register_taken "beta_t"
              (pm.FreeRV (pm.Normal (pm.TPy mu0) (pm.TPy sigma0))
                         (Some ["instruments"]))
              _ _ Hx0) as (e & s' & -> & F' & V' & R').
  do 2 eexists. split; [reflexivity |].
  split; [eapply only_model_changed_trans; eassumption |].
  split; [congruence |].
  destruct R' as [R' | [_ R']]; [left; congruence |].
  right. eexists. rewrite R', R. reflexivity.
Qed.

(** A state from which [build_model] raises makes [fit] raise the same. *)
Lemma fit_raises_with_build_model a (s s' : state) e :
  call_build_model L a s = (Raise e, s') ->
  call_fit L a s = (Raise e, s').
Proof. intros H. rewrite call_fit_unfold. exact (bind_raise _ _ _ _ _ H). Qed.

(** X5: [fit] works once per instance.  After a [fit] that returned, every
    further [fit], with any arguments, raises in [build_model]:
    [self.idata] still refers to the inference data of the first [fit], the
    store and the random state are untouched and the model has the same
    named variables.  Its free variables are the same too, except that on
    an [InstrumentalVariableRegression] the refused ["beta_t"] may have
    been added to them once more. *)
Theorem fit_returns_at_most_once a (s s1 : state) r :
  call_fit L a s = (Ok r, s1) ->
  forall a',
    exists e s2,
      call_fit L a' s1 = (Raise e, s2) /\
      self_idata s2 = r /\
      heap s2 = heap s1 /\
      rng s2 = rng s1 /\
      pm.named_vars (self_model s2) = pm.named_vars (self_model s1) /\
      (pm.free_RVs (self_model s2) = pm.free_RVs (self_model s1) \/
       self_class s = InstrumentalVariableRegression /\
       exists d, pm.free_RVs (self_model s2) =
                 pm.free_RVs (self_model s1) ++ [("beta_t", d)]).
Proof.
  intros H a'.
  apply call_fit_outcome in H as [(e & He & _) | (s0 & Hb & Hs)];
    [discriminate |].
  apply sampling_steps_outcome in Hs
    as [(e & g & He & _) | [(e & i & g & He & _) | (i & g & Hr & ->)]];
    try discriminate.
  injection Hr as ->.
  assert (Hm : self_model (bound_idata s0 i g) = self_model s0) by reflexivity.
  assert (Hc : self_class (bound_idata s0 i g) = self_class s).
  { simpl. now destruct (call_build_model_frame L _ _ _ _ Hb). }
  assert (Hi : self_idata (bound_idata s0 i g) = Some (length (heap s0)))
    by reflexivity.
  revert Hm Hc Hi. generalize (bound_idata s0 i g). intros s1 Hm Hc Hi.
  assert (Hre : exists e s2,
    call_build_model L a' s1 = (Raise e, s2) /\
    only_model_changed s1 s2 /\
    pm.named_vars (self_model s2) = pm.named_vars (self_model s1) /\
    (pm.free_RVs (self_model s2) = pm.free_RVs (self_model s1) \/
     self_class s = InstrumentalVariableRegression /\
     exists d, pm.free_RVs (self_model s2) =
               pm.free_RVs (self_model s1) ++ [("beta_t", d)])).
  { unfold call_build_model, bind at 1, get_class in Hb.
    destruct (self_class s) eqn:Ec, a as [X y coords | X Z y t coords priors];
      simpl in Hb; try discriminate Hb.
    - apply WeightedSumFitter_build_model_ok in Hb
        as (n & y0 & _ & _ & _ & V & Hx & _).
      destruct (rebuild_raises_X a'
                  (pm.MutableData (as_data L X) (Some ["obs_ind"; "coeffs"]))
                  s1) as (e & s2 & Hr & F & V' & R').
      + left. congruence.
      + rewrite Hm. erewrite lookup_appended; [| exact V | exact Hx].
        reflexivity.
      + exists e, s2. repeat split; try apply F; auto.
    - apply LinearRegression_build_model_ok in Hb
        as (y0 & _ & _ & V & Hx & _).
      destruct (rebuild_raises_X a'
                  (pm.MutableData (as_data L X) (Some ["obs_ind"; "coeffs"]))
                  s1) as (e & s2 & Hr & F & V' & R').
      + right. congruence.
      + rewrite Hm. erewrite lookup_appended; [| exact V | exact Hx].
        reflexivity.
      + exists e, s2. repeat split; try apply F; auto.
    - apply InstrumentalVariableRegression_build_model_ok in Hb
        as (mus & sigmas & mu0 & sigma0 & mu1 & sigma1 & lkj & eta & obs & n
            & _ & _ & _ & _ & _ & _ & _ & _ & _ & _ & _ & V & _ & Hx).
      destruct (rebuild_raises_beta_t a'
                  (pm.FreeRV (pm.Normal (pm.TPy mu0) (pm.TPy sigma0))
                             (Some ["instruments"]))
                  s1) as (e & s2 & Hr & F & V' & R').
      + congruence.
      + rewrite Hm. erewrite lookup_appended; [| exact V | exact Hx].
        reflexivity.
      + exists e, s2. split; [exact Hr |]. split; [exact F |].
        split; [exact V' |]. destruct R' as [R' | R']; [now left |].
        right. now split. }
  destruct Hre as (e & s2 & Hr & (_ & Hi2 & _ & Hh & Hg) & Hv & Hf).
  exists e, s2. split; [now apply fit_raises_with_build_model |].
  repeat split; try congruence; exact Hf.
Qed.

End Rebuild.

Section HalfBuilt.

Context {InferenceData DataArray Series Rng : Type}.
Variable L : Library InferenceData DataArray Series Rng.

Let state : Type := state InferenceData Rng.

(** X6: a failed [build_model] is not rolled back.  On a
    [WeightedSumFitter] or [LinearRegression] whose model has no ["X"] yet,
    [fit(X, y)] with a [y] of fewer than two dimensions raises the
    [IndexError] of [y[:, 0]] after ["X"] has been declared; the variable
    stays in the model, so every later [fit] on the instance raises too,
    whatever its arguments. *)
Theorem fit_with_a_flat_y_leaves_X_declared X y (s : state) :
  self_class s = WeightedSumFitter \/ self_class s = LinearRegression ->
  pm.lookup (self_model s) "X" = None ->
  check_decl L (self_model s) "X"
             (pm.MutableData (as_data L X) (Some ["obs_ind"; "coeffs"]))
    = None ->
  (self_class s = WeightedSumFitter -> (2 <= np.ndim X)%nat) ->
  (np.ndim y < 2)%nat ->
  exists s1,
    call_fit L (Args3 X y None) s =
      (Raise (IndexError "too many indices for array"), s1) /\
    pm.named_vars (self_model s1) =
      pm.named_vars (self_model s) ++
      [("X", pm.MutableData (as_data L X) (Some ["obs_ind"; "coeffs"]))] /\
    only_model_changed s s1 /\
    forall a, exists e s2,
      call_fit L a s1 = (Raise e, s2) /\
      only_model_changed s1 s2 /\
      pm.named_vars (self_model s2) = pm.named_vars (self_model s1).
Proof.
  intros Hc Hx Hd HX Hy.
  set (dX := pm.MutableData (as_data L X) (Some ["obs_ind"; "coeffs"])).
  set (s1 := set_model (pm.add (seen L (self_model s) "X" dX) "X" dX) s).
  assert (Hreg : pm_MutableData L "X" X (Some ["obs_ind"; "coeffs"]) s =
                 (Ok (pm.TVar "X"), s1)).
  { unfold pm_MutableData, register, s1, dX. now rewrite Hd, Hx. }
  assert (Hb : call_build_model L (Args3 X y None) s =
               (Raise (IndexError "too many indices for array"), s1)).
  { unfold call_build_model, bind at 1, get_class.
    destruct Hc as [Hc | Hc]; rewrite Hc.
    - unfold WeightedSumFitter_build_model, bind at 1, add_coords.
      unfold bind at 1, lift at 1, np.shape_at.
      specialize (HX Hc). unfold np.ndim in HX.
      destruct (np.shape X !! 1%nat) as [n |] eqn:En.
      2: { apply lookup_ge_None_1 in En. lia. }
      rewrite (bind_ok _ _ _ _ _ Hreg).
      unfold bind, lift. now rewrite getitem_col0_low_dim.
    - unfold LinearRegression_build_model, bind at 1, add_coords.
      rewrite (bind_ok _ _ _ _ _ Hreg).
      unfold bind, lift. now rewrite getitem_col0_low_dim. }
  exists s1. split; [now apply fit_raises_with_build_model |].
  split; [reflexivity |]. split; [now repeat split |].
  intros a.
  destruct (rebuild_raises_X L a dX s1) as (e & s2 & Hr & F & V & _).
  - exact Hc.
  - unfold s1, pm.lookup in *. simpl. rewrite assoc_app, Hx. reflexivity.
  - exists e, s2. split; [now apply fit_raises_with_build_model |].
    now split.
Qed.

(** X7: [predict] returns only on an instance whose model has the data
    variable ["X"], and then with ["X"] re-bound to what PyMC makes of the
    argument and a new object for a result, which [self.idata] does not
    refer to when it is in the store.  With a library that refuses a missing trace, [predict]
    returns only when [self.idata] refers to stored inference data: that
    is, after a [fit] that got as far as [pm.sample] returning. *)
Theorem predict_returns_only_on_a_built_and_sampled_instance
    X (s s' : state) l :
  call_predict L X s = (Ok l, s') ->
  (exists old d,
     pm.lookup (self_model s) "X" = Some (pm.MutableData old d) /\
     pm.lookup (self_model s') "X" =
       Some (pm.MutableData (as_data L X) d)) /\
  l = length (heap s) /\
  (exists post_pred, heap s' = heap s ++ [post_pred]) /\
  (idata_in_store s -> self_idata s' <> Some l) /\
  (refuses_missing_trace L ->
   exists l0 fitted, self_idata s = Some l0 /\ heap s !! l0 = Some fitted).
Proof.
  rewrite call_predict_unfold. unfold ModelBuilder_predict. intros H.
  apply bind_ok_inv in H as ([] & s1 & Hd & H).
  unfold ModelBuilder_data_setter in Hd.
  apply set_data_ok_inv in Hd as (old & d & Hold & _ & ->).
  unfold bind, get_idata, sample_posterior_predictive, alloc in H.
  simpl in H.
  destruct (pm_sample_posterior_predictive L _ _ _ _ _)
    as [[pp | e] g] eqn:Ep; [| discriminate].
  injection H as <- <-. simpl. split.
  { exists old, d. split; [exact Hold |]. unfold pm.lookup in *. simpl.
    eapply assoc_replace_eq. exact Hold. }
  split; [reflexivity |]. split; [now exists pp |]. split.
  - intros Hin Hl. destruct (Hin _ Hl) as [i Hi].
    apply lookup_lt_Some in Hi. lia.
  - intros Href. unfold deref in Ep. simpl in Ep.
    destruct (self_idata s) as [l0 |] eqn:Ei.
    + destruct (heap s !! l0) as [i |] eqn:Eh; [now exists l0, i |].
      match type of Ep with
      | pm_sample_posterior_predictive _ ?m _ _ _ _ = _ =>
          destruct (Href m (Some ["y_hat"; "mu"]) false (rng s))
            as (e & g' & Hr)
      end.
      rewrite Hr in Ep. discriminate.
    + match type of Ep with
      | pm_sample_posterior_predictive _ ?m _ _ _ _ = _ =>
          destruct (Href m (Some ["y_hat"; "mu"]) false (rng s))
            as (e & g' & Hr)
      end.
      rewrite Hr in Ep. discriminate.
Qed.

Lemma register_keeps_X_undeclared name d :
  name <> "X" -> preserves keeps_X_undeclared (register L name d).
Proof.
  intros Hn s r s'. unfold register.
  destruct (check_decl L (self_model s) name d).
  - intros E. injection E as _ <-. now intros H.
  - destruct (pm.lookup (self_model s) name); intros E;
      injection E as _ <-; intros H; [exact H |].
    unfold pm.lookup in *. simpl. rewrite assoc_app, H. simpl.
    destruct (String.eqb_spec name "X"); [contradiction | reflexivity].
Qed.

Lemma add_coords_keeps_X_undeclared coords :
  preserves keeps_X_undeclared (add_coords L coords).
Proof.
  intros s r s' E. apply add_coords_vars in E as (_ & V & _).
  unfold keeps_X_undeclared, pm.lookup. now rewrite V.
Qed.

Lemma IV_build_model_keeps_X_undeclared X Z y t coords priors :
  preserves keeps_X_undeclared
    (InstrumentalVariableRegression_build_model L X Z y t coords priors).
Proof.
  assert (Rf : forall s : state, keeps_X_undeclared s s) by now intros s H.
  assert (Tr : forall s1 s2 s3 : state,
    keeps_X_undeclared s1 s2 -> keeps_X_undeclared s2 s3 ->
    keeps_X_undeclared s1 s3) by (unfold keeps_X_undeclared; auto).
  unfold InstrumentalVariableRegression_build_model, pm_RV,
    pm_Deterministic, pm_observed.
  repeat first
    [ apply preserves_lift; exact Rf
    | apply preserves_ret; exact Rf
    | apply add_coords_keeps_X_undeclared
    | apply register_keeps_X_undeclared; discriminate
    | apply preserves_bind; [exact Tr | | intros ?] ].
Qed.

Lemma IV_after_call_keeps_X_undeclared c (s : state) :
  self_class s = InstrumentalVariableRegression ->
  keeps_X_undeclared s (after_call L c s).
Proof.
  intros Hc Hx.
  assert (Hb : forall a r s',
    call_build_model L a s = (r, s') -> pm.lookup (self_model s') "X" = None).
  { intros a r s'. unfold call_build_model, bind at 1, get_class.
    rewrite Hc. destruct a as [X y coords | X Z y t coords priors].
    - intros E. injection E as _ <-. exact Hx.
    - intros E. apply IV_build_model_keeps_X_undeclared in E. now apply E. }
  destruct c as [a | X | a | X | X y]; simpl.
  - eapply Hb. apply surjective_pairing.
  - now rewrite lookup_None_no_data_setter.
  - destruct (call_fit L a s) as [r s'] eqn:Ef. simpl.
    apply call_fit_outcome in Ef as [(e & _ & E) | (s1 & E & Hs)].
    + eapply Hb, E.
    + apply Hb in E.
      apply sampling_steps_outcome in Hs
        as [(e & g & _ & ->) | [(e & i & g & _ & ->) | (i & g & _ & ->)]];
        exact E.
  - now rewrite lookup_None_no_predict.
  - now rewrite lookup_None_no_score.
Qed.

(** X8: an [InstrumentalVariableRegression] never predicts.  Whatever
    calls were made on the instance since [__init__], with any library,
    its model has no variable ["X"]: [predict], [score] and [_data_setter]
    raise [KeyError("X")] and change nothing. *)
Theorem IV_instance_never_predicts kw g (s : state) :
  reachable L (init InstrumentalVariableRegression kw g) s ->
  pm.lookup (self_model s) "X" = None /\
  (forall X, ModelBuilder_data_setter L X s = (Raise (KeyError "X"), s)) /\
  (forall X, call_predict L X s = (Raise (KeyError "X"), s)) /\
  (forall X y, call_score L X y s = (Raise (KeyError "X"), s)).
Proof.
  intros H.
  assert (Hx : self_class s = InstrumentalVariableRegression /\
               pm.lookup (self_model s) "X" = None).
  { induction H as [| c s H [IHc IHx]]; [now split |]. split.
    - destruct (after_call_frame L c s) as (Hc & _). congruence.
    - now apply IV_after_call_keeps_X_undeclared. }
  destruct Hx as [_ Hx]. split; [exact Hx |].
  split; [intros X; now apply lookup_None_no_data_setter |].
  split; [intros X; now apply lookup_None_no_predict |].
  intros X y. now apply lookup_None_no_score.
Qed.

(** X9: a direct [ModelBuilder] instance never changes.  Every call on it
    raises and leaves the instance as [__init__] made it: an empty model,
    no inference data, an empty store. *)
Theorem base_instance_never_changes kw g (s : state) :
  reachable L (init ModelBuilder kw g) s ->
  s = init ModelBuilder kw g /\
  forall c, exists e,
    match c with
    | Call_build_model a => fst (call_build_model L a s) = Raise e
    | Call_data_setter X => fst (ModelBuilder_data_setter L X s) = Raise e
    | Call_fit a => fst (call_fit L a s) = Raise e
    | Call_predict X => fst (call_predict L X s) = Raise e
    | Call_score X y => fst (call_score L X y s) = Raise e
    end.
Proof.
  intros H.
  assert (Hs : s = init ModelBuilder kw g).
  { induction H as [| c s H IH]; [reflexivity |]. rewrite IH.
    destruct c as [[] | X | [] | X | X y]; reflexivity. }
  split; [exact Hs |]. subst s.
  intros [[] | X | [] | X | X y]; eexists; reflexivity.
Qed.

End HalfBuilt.

(** ** Where [build_model] stops *)

(** One step of a run that returned, kept as an equation for a second run
    that makes the same call in the same state. *)
Ltac same_step H :=
  let a := fresh "a" in
  let s := fresh "s" in
  let E := fresh "E" in
  let K := fresh "K" in
  apply bind_ok_inv in H; destruct H as (a & s & E & H);
  pose proof E as K; ok_classify E; cbv beta zeta in H.

Ltac replay_steps :=
  repeat (cbv beta zeta;
          match goal with
          | K : ?m ?s = (Ok _, _) |- bind ?m _ ?s = _ =>
              rewrite (bind_ok _ _ _ _ _ K)
          end).

Section StackLast.

Context {InferenceData DataArray Series Rng : Type}.
Variable L : Library InferenceData DataArray Series Rng.

Let state : Type := state InferenceData Rng.

(** X13: [InstrumentalVariableRegression.build_model] compares [y] with
    [t] last.  Where [build_model] returns for some outcome and treatment
    arrays, it raises for a [y] and a [t] that differ in their number of
    items: [np.stack] raises its [ValueError] after the nine variables
    before the likelihood have been declared, and they stay in the model,
    which is the model of the run that returned less its likelihood. *)
Theorem IV_build_model_checks_y_against_t_last
    X Z y t y' t' coords priors (s s' : state) :
  InstrumentalVariableRegression_build_model L X Z y' t' coords priors s
    = (Ok tt, s') ->
  length (np.data y) <> length (np.data t) ->
  exists s1 likelihood,
    InstrumentalVariableRegression_build_model L X Z y t coords priors s =
      (Raise (ValueError "all input arrays must have the same shape"), s1) /\
    only_model_changed s s1 /\
    pm.named_vars (self_model s') =
      pm.named_vars (self_model s1) ++ [("likelihood", likelihood)] /\
    length (pm.named_vars (self_model s1)) =
      (length (pm.named_vars (self_model s)) + 9)%nat /\
    pm.free_RVs (self_model s1) = pm.free_RVs (self_model s') /\
    pm.lookup (self_model s1) "likelihood" = None.
Proof.
  intros Hb Hyt.
  unfold InstrumentalVariableRegression_build_model, pm_RV, pm_Deterministic,
    pm_observed in *.
  do 18 same_step Hb.
  apply bind_ok_inv in Hb as (obs & sA & Eo & Hb).
  apply lift_ok_inv in Eo as [_ ->].
  apply bind_ok_inv in Hb as (n & sB & En & Hb).
  apply lift_ok_inv in En as [_ ->].
  apply bind_ok_inv in Hb as (tl & sC & El & Hb).
  injection Hb as <-.
  apply register_ok_inv in El as (_ & Fl & _ & _ & Vl & Pl).
  simpl in Pl. rewrite app_nil_r in Pl.
  match type of Vl with
  | _ = pm.named_vars (self_model ?sN) ++ [(_, ?d)] => exists sN, d
  end.
  split.
  { replay_steps. unfold bind at 1, lift at 1, np.stack2_axis1. simpl.
    destruct (Nat.eqb_spec (length (np.data y)) (length (np.data t)));
      [contradiction | reflexivity]. }
  split; [chain_frames |]. split; [exact Vl |].
  split.
  { repeat match goal with
           | V : pm.named_vars (self_model ?s) = _
             |- context [pm.named_vars (self_model ?s)] => rewrite V
           end.
    rewrite !length_app. simpl. lia. }
  split; [now rewrite Pl | exact Fl].
Qed.

End StackLast.

(** ** The outcome data of the model and of [score] *)

Lemma col0_items_lookup n stride r (d : list Q) i k :
  (r <= stride)%nat -> (n * stride <= length d)%nat ->
  (i < n)%nat -> (k < r)%nat ->
  np.col0_items n stride r d !! (i * r + k)%nat = d !! (i * stride + k)%nat.
Proof.
  intros Hr. revert d i. induction n as [| n IH]; intros d i Hd Hi Hk;
    [lia |]. simpl.
  assert (Hlen : length (take r d) = r) by (rewrite length_take; nia).
  destruct i as [| i].
  - simpl. rewrite lookup_app_l by lia. now apply lookup_take_lt.
  - rewrite lookup_app_r by (rewrite Hlen; simpl; lia). rewrite Hlen.
    replace (S i * r + k - r)%nat with (i * r + k)%nat by (simpl; lia).
    rewrite IH; [| rewrite length_drop; simpl in Hd; nia | lia | exact Hk].
    rewrite lookup_drop. f_equal. simpl. lia.
Qed.

Lemma col0_items_single n (d : list Q) :
  length d = n -> np.col0_items n 1 1 d = d.
Proof.
  revert d. induction n as [| n IH]; intros d Hd; simpl.
  - destruct d; [reflexivity | discriminate].
  - destruct d as [| x d]; [discriminate |]. simpl. f_equal.
    apply IH. simpl in Hd. lia.
Qed.

Section Outcomes.

Context {InferenceData DataArray Series Rng : Type}.
Variable L : Library InferenceData DataArray Series Rng.

Let state : Type := state InferenceData Rng.

Lemma keeps_declared_refl (s : state) : keeps_declared s s.
Proof. now intros name d H. Qed.

Lemma keeps_declared_trans (s1 s2 s3 : state) :
  keeps_declared s1 s2 -> keeps_declared s2 s3 -> keeps_declared s1 s3.
Proof. unfold keeps_declared. auto. Qed.

Lemma register_keeps_declared name d :
  preserves keeps_declared (register L name d).
Proof.
  intros s r s'. unfold register.
  destruct (check_decl L (self_model s) name d).
  - intros E. injection E as _ <-. apply keeps_declared_refl.
  - destruct (pm.lookup (self_model s) name) eqn:El; intros E;
      injection E as _ <-; intros name' d' H; [exact H |].
    unfold pm.lookup in *. simpl. now rewrite assoc_app, H.
Qed.

Lemma register_declares name d (s s1 : state) t :
  register L name d s = (Ok t, s1) ->
  pm.lookup (self_model s1) name = Some d.
Proof.
  intros H. apply register_ok_inv in H as (_ & F & _ & _ & V & _).
  unfold pm.lookup in *. rewrite V, assoc_app, F. simpl.
  now rewrite String.eqb_refl.
Qed.

(** The two data variables of a built regression model. *)
Lemma regression_build_model_data X y coords (s s' : state) :
  self_class s = WeightedSumFitter \/ self_class s = LinearRegression ->
  call_build_model L (Args3 X y coords) s = (Ok tt, s') ->
  exists y0,
    np.getitem_col0 y = Ok y0 /\
    pm.lookup (self_model s') "X" =
      Some (pm.MutableData (as_data L X) (Some ["obs_ind"; "coeffs"])) /\
    pm.lookup (self_model s') "y" =
      Some (pm.MutableData (as_data L y0) (Some ["obs_ind"])).
Proof.
  assert (Rf := keeps_declared_refl). assert (Tr := keeps_declared_trans).
  intros Hc. unfold call_build_model, bind at 1, get_class.
  destruct Hc as [-> | ->];
    unfold WeightedSumFitter_build_model, LinearRegression_build_model,
      pm_MutableData, pm_RV, pm_Deterministic, pm_observed; intros H.
  - apply bind_ok_inv in H as (u & s0 & _ & H).
    apply bind_ok_inv in H as (n & s0' & En & H).
    apply lift_ok_inv in En as [_ <-].
    apply bind_ok_inv in H as (tX & sX & EX & H).
    apply bind_ok_inv in H as (y0 & sX' & Ey & H).
    apply lift_ok_inv in Ey as [Ey <-].
    apply bind_ok_inv in H as (tY & sY & EY & H).
    assert (K : keeps_declared sY s').
    { match type of H with
      | ?m sY = _ =>
          assert (P : preserves keeps_declared m);
          [| exact (P _ _ _ H)]
      end.
      repeat first
        [ apply preserves_ret; exact Rf
        | apply register_keeps_declared
        | apply preserves_bind; [exact Tr | | intros ?] ]. }
    exists y0. split; [exact Ey |]. split; apply K.
    + eapply register_keeps_declared; [exact EY |].
      eapply register_declares, EX.
    + eapply register_declares, EY.
  - apply bind_ok_inv in H as (u & s0 & _ & H).
    apply bind_ok_inv in H as (tX & sX & EX & H).
    apply bind_ok_inv in H as (y0 & sX' & Ey & H).
    apply lift_ok_inv in Ey as [Ey <-].
    apply bind_ok_inv in H as (tY & sY & EY & H).
    assert (K : keeps_declared sY s').
    { match type of H with
      | ?m sY = _ =>
          assert (P : preserves keeps_declared m);
          [| exact (P _ _ _ H)]
      end.
      repeat first
        [ apply preserves_ret; exact Rf
        | apply register_keeps_declared
        | apply preserves_bind; [exact Tr | | intros ?] ]. }
    exists y0. split; [exact Ey |]. split; apply K.
    + eapply register_keeps_declared; [exact EY |].
      eapply register_declares, EX.
    + eapply register_declares, EY.
Qed.

(** X14: the data variables of a built regression model.  After
    [build_model(X, y, coords)] of [WeightedSumFitter] or
    [LinearRegression] returned, ["X"] holds what [pm.Data] made of [X]
    and ["y"] what it made of the first column of [y]: of an array with
    the shape of [y] less its second axis, whose item at row [i] is the
    item of [y] at row [i], column 0. *)
Theorem built_model_holds_X_and_the_first_column_of_y
    X y coords (s s' : state) n m rest :
  self_class s = WeightedSumFitter \/ self_class s = LinearRegression ->
  call_build_model L (Args3 X y coords) s = (Ok tt, s') ->
  np.wf y ->
  np.shape y = n :: m :: rest ->
  exists y0,
    pm.lookup (self_model s') "X" =
      Some (pm.MutableData (as_data L X) (Some ["obs_ind"; "coeffs"])) /\
    pm.lookup (self_model s') "y" =
      Some (pm.MutableData (as_data L y0) (Some ["obs_ind"])) /\
    np.shape y0 = n :: rest /\
    np.wf y0 /\
    forall i k, (i < n)%nat -> (k < np.size_of rest)%nat ->
      np.data y0 !! (i * np.size_of rest + k)%nat =
      np.data y !! (i * (m * np.size_of rest) + k)%nat.
Proof.
  intros Hc Hb Hwf Hsh.
  destruct (regression_build_model_data X y coords s s' Hc Hb)
    as (y0 & Hy & HX & HY).
  exists y0. split; [exact HX |]. split; [exact HY |].
  pose proof (getitem_col0_wf _ _ Hwf Hy) as Hwf0.
  unfold np.getitem_col0 in Hy. rewrite Hsh in Hy.
  destruct (Nat.eqb_spec m 0) as [| Hm]; [discriminate |].
  injection Hy as <-. simpl. split; [reflexivity |].
  split; [exact Hwf0 |].
  intros i k Hi Hk. apply col0_items_lookup; try assumption.
  - nia.
  - unfold np.wf in Hwf. rewrite Hwf, Hsh. simpl. lia.
Qed.

(** X15: [score] compares against every item of [y], [fit] trains on
    column 0.  [score(X, y)] depends on [y] through its items in row-major
    order only.  For a well-formed [y] of shape [(n, 1)] these are the
    outcomes [build_model] put into the model, so scoring against [y] is
    scoring against the registered outcomes; for [m] columns [score] hands
    [n * m] outcomes to [r2_score] where the model holds [n]. *)
Theorem score_flattens_y_where_build_model_takes_column_0 X (s : state) :
  (forall y y', np.data y = np.data y' ->
     call_score L X y s = call_score L X y' s) /\
  (forall y n m, np.wf y -> np.shape y = [n; m] -> m <> 0%nat ->
     exists y0,
       np.getitem_col0 y = Ok y0 /\
       length (np.data y0) = n /\
       length (np.data (np.flatten y)) = (n * m)%nat /\
       (m = 1%nat ->
        y0 = np.flatten y /\ call_score L X y s = call_score L X y0 s)).
Proof.
  assert (Hd : forall y y', np.data y = np.data y' ->
            call_score L X y s = call_score L X y' s).
  { intros y y' E. rewrite !call_score_unfold. unfold ModelBuilder_score.
    assert (Ef : np.flatten y = np.flatten y')
      by (unfold np.flatten; now rewrite E).
    now rewrite Ef. }
  split; [exact Hd |].
  intros y n m Hwf Hsh Hm. unfold np.getitem_col0. rewrite Hsh.
  destruct (Nat.eqb_spec m 0); [contradiction |].
  unfold np.wf in Hwf. rewrite Hsh in Hwf. simpl in Hwf.
  eexists. split; [reflexivity |]. simpl. split.
  - rewrite col0_items_length; [lia | lia | lia].
  - split; [lia |]. intros ->.
    rewrite col0_items_single by lia.
    unfold np.flatten. rewrite Hwf.
    replace (n * (1 * 1))%nat with n by lia.
    split; [reflexivity |]. now apply Hd.
Qed.

End Outcomes.

(** ** Further runs on the reference library *)

(** X1 on a new [WeightedSumFitter]: [fit] returns the reference to the
    one object of the store. *)
Lemma fit_reference_result :
  self_idata (RefLib.fitted WeightedSumFitter) = Some 0%nat /\
  exists i, heap (RefLib.fitted WeightedSumFitter) = [i].
Proof.
  destruct (fit_returns_the_new_object_it_stored RefLib.lib
              (Args3 RefLib.X RefLib.y None) (RefLib.new WeightedSumFitter)
              (RefLib.fitted WeightedSumFitter) (Some 0%nat)
              ltac:(vm_compute; reflexivity))
    as (i & s1 & _ & Hi & Hh & _).
  split; [exact Hi | now exists i].
Defined.

(** X2 on the [fit] that the failing prior predictive sampler stopped. *)
Lemma failed_fit_reference_run :
  self_class RefLib.after_failed_fit = LinearRegression /\
  self_sample_kwargs RefLib.after_failed_fit = ∅ /\
  ((self_idata RefLib.after_failed_fit = None /\
    heap RefLib.after_failed_fit = []) \/
   (exists i, self_idata RefLib.after_failed_fit = Some 0%nat /\
              heap RefLib.after_failed_fit = [i])).
Proof.
  exact (failed_fit_leaves_old_data_untouched RefLib.failing_prior_predictive
           (Args3 RefLib.X RefLib.y None) (RefLib.new LinearRegression)
           RefLib.after_failed_fit
           (OtherError "SamplingError" "prior predictive")
           ltac:(vm_compute; reflexivity)).
Defined.

(** A fitted [LinearRegression] after a [predict] and a [score]. *)
Lemma reference_calls_are_reachable :
  reachable RefLib.lib (RefLib.new LinearRegression)
    (after_call RefLib.lib (Call_score RefLib.X RefLib.y_col)
       (after_call RefLib.lib (Call_predict RefLib.X_new)
          (after_call RefLib.lib (Call_fit (Args3 RefLib.X RefLib.y None))
             (RefLib.new LinearRegression)))).
Proof. do 3 apply reachable_call. apply reachable_here. Defined.

(** X3 on that instance. *)
Lemma invariants_reference_run :
  self_class
    (after_call RefLib.lib (Call_score RefLib.X RefLib.y_col)
       (after_call RefLib.lib (Call_predict RefLib.X_new)
          (after_call RefLib.lib (Call_fit (Args3 RefLib.X RefLib.y None))
             (RefLib.new LinearRegression)))) = LinearRegression /\
  self_sample_kwargs
    (after_call RefLib.lib (Call_score RefLib.X RefLib.y_col)
       (after_call RefLib.lib (Call_predict RefLib.X_new)
          (after_call RefLib.lib (Call_fit (Args3 RefLib.X RefLib.y None))
             (RefLib.new LinearRegression)))) = ∅.
Proof.
  exact (calls_keep_the_instance_invariants RefLib.lib LinearRegression
           None 0%nat _ reference_calls_are_reachable).
Defined.

(** X4 from a fitted [LinearRegression]: a [predict], a [score] and a
    second [fit] leave the inference data of the first [fit] as it was. *)
Lemma stored_data_reference_run :
  heap (after_call RefLib.lib (Call_fit (Args3 RefLib.X RefLib.y None))
          (after_call RefLib.lib (Call_score RefLib.X RefLib.y_col)
             (after_call RefLib.lib (Call_predict RefLib.X_new)
                (RefLib.fitted LinearRegression)))) !! 0%nat =
    Some ["posterior"; "sample_stats"; "prior"; "prior_predictive";
          "posterior_predictive"].
Proof.
  destruct (stored_inference_data_is_never_modified RefLib.lib
              (RefLib.fitted LinearRegression)
              (after_call RefLib.lib (Call_fit (Args3 RefLib.X RefLib.y None))
                 (after_call RefLib.lib (Call_score RefLib.X RefLib.y_col)
                    (after_call RefLib.lib (Call_predict RefLib.X_new)
                       (RefLib.fitted LinearRegression)))))
    as [H _].
  - do 3 apply reachable_call. apply reachable_here.
  - apply H. vm_compute. reflexivity.
Defined.

(** X5 on a fitted [LinearRegression] and on the fitted
    instrumental-variable instance: a second [fit] raises and keeps the
    inference data and the named variables. *)
Lemma second_fit_reference_run :
  (exists e s2,
     call_fit RefLib.lib (Args3 RefLib.X_new RefLib.y None)
              (RefLib.fitted LinearRegression) = (Raise e, s2) /\
     self_idata s2 = Some 0%nat /\
     heap s2 = heap (RefLib.fitted LinearRegression) /\
     pm.named_vars (self_model s2) =
       pm.named_vars (self_model (RefLib.fitted LinearRegression))) /\
  (exists e s2,
     call_fit RefLib.lib RefLib.args_IV RefLib.fitted_IV = (Raise e, s2) /\
     self_idata s2 = Some 0%nat /\
     heap s2 = heap RefLib.fitted_IV /\
     pm.named_vars (self_model s2) =
       pm.named_vars (self_model RefLib.fitted_IV)).
Proof.
  split.
  - destruct (fit_returns_at_most_once RefLib.lib
                (Args3 RefLib.X RefLib.y None) (RefLib.new LinearRegression)
                (RefLib.fitted LinearRegression) (Some 0%nat)
                ltac:(vm_compute; reflexivity)
                (Args3 RefLib.X_new RefLib.y None))
      as (e & s2 & Hr & Hi & Hh & _ & Hv & _).
    exists e, s2. now repeat split.
  - destruct (fit_returns_at_most_once RefLib.lib
                RefLib.args_IV (RefLib.new InstrumentalVariableRegression)
                RefLib.fitted_IV (Some 0%nat)
                ltac:(vm_compute; reflexivity) RefLib.args_IV)
      as (e & s2 & Hr & Hi & Hh & _ & Hv & _).
    exists e, s2. now repeat split.
Defined.

(** X6 on a new [WeightedSumFitter] and the one-dimensional outcomes. *)
Lemma flat_y_reference_run :
  exists s1,
    call_fit RefLib.lib (Args3 RefLib.X RefLib.y1 None)
             (RefLib.new WeightedSumFitter) =
      (Raise (IndexError "too many indices for array"), s1) /\
    exists e s2,
      call_fit RefLib.lib (Args3 RefLib.X RefLib.y None) s1 = (Raise e, s2).
Proof.
  destruct (fit_with_a_flat_y_leaves_X_declared RefLib.lib
              RefLib.X RefLib.y1 (RefLib.new WeightedSumFitter)
              (or_introl eq_refl) eq_refl ltac:(vm_compute; reflexivity)
              ltac:(intros _; vm_compute; lia)
              ltac:(vm_compute; lia))
    as (s1 & Hr & _ & _ & Hlater).
  exists s1. split; [exact Hr |].
  destruct (Hlater (Args3 RefLib.X RefLib.y None)) as (e & s2 & H & _).
  now exists e, s2.
Defined.

(** X7 on a fitted [LinearRegression]. *)
Lemma predict_reference_preconditions :
  (exists old d,
     pm.lookup (self_model (RefLib.fitted LinearRegression)) "X" =
       Some (pm.MutableData old d)) /\
  exists l0 fitted,
    self_idata (RefLib.fitted LinearRegression) = Some l0 /\
    heap (RefLib.fitted LinearRegression) !! l0 = Some fitted.
Proof.
  destruct (predict_returns_only_on_a_built_and_sampled_instance RefLib.lib
              RefLib.X_new (RefLib.fitted LinearRegression)
              (snd (call_predict RefLib.lib RefLib.X_new
                      (RefLib.fitted LinearRegression)))
              1%nat ltac:(vm_compute; reflexivity))
    as ((old & d & Hx & _) & _ & _ & _ & Ht).
  split; [now exists old, d |].
  exact (Ht reference_library_refuses_missing_trace).
Defined.

(** X8 on the fitted instrumental-variable instance. *)
Lemma IV_reference_run :
  call_predict RefLib.lib RefLib.X_new RefLib.fitted_IV =
    (Raise (KeyError "X"), RefLib.fitted_IV) /\
  call_score RefLib.lib RefLib.X RefLib.y1 RefLib.fitted_IV =
    (Raise (KeyError "X"), RefLib.fitted_IV).
Proof.
  destruct (IV_instance_never_predicts RefLib.lib None 0%nat
              RefLib.fitted_IV
              (reachable_call RefLib.lib _ (Call_fit RefLib.args_IV)
                 _ (reachable_here RefLib.lib _)))
    as (_ & _ & Hp & Hs).
  split; [apply Hp | apply Hs].
Defined.

(** X9 on a direct [ModelBuilder] after a [fit] and a [predict]. *)
Lemma base_reference_run :
  after_call RefLib.lib (Call_predict RefLib.X)
    (after_call RefLib.lib (Call_fit (Args3 RefLib.X RefLib.y None))
       (RefLib.new ModelBuilder)) = RefLib.new ModelBuilder.
Proof.
  destruct (base_instance_never_changes RefLib.lib None 0%nat
              (after_call RefLib.lib (Call_predict RefLib.X)
                 (after_call RefLib.lib
                    (Call_fit (Args3 RefLib.X RefLib.y None))
                    (RefLib.new ModelBuilder)))) as [H _].
  - do 2 apply reachable_call. apply reachable_here.
  - exact H.
Defined.

(** X13 on four outcomes and two treatments, where two outcomes build. *)
Lemma IV_reference_size_mismatch :
  exists s1,
    InstrumentalVariableRegression_build_model RefLib.lib
      RefLib.X RefLib.X RefLib.y RefLib.t (Some RefLib.coords_IV)
      RefLib.priors (RefLib.new InstrumentalVariableRegression) =
      (Raise (ValueError "all input arrays must have the same shape"), s1) /\
    length (pm.named_vars (self_model s1)) = 9%nat /\
    pm.lookup (self_model s1) "likelihood" = None.
Proof.
  destruct (IV_build_model_checks_y_against_t_last RefLib.lib
              RefLib.X RefLib.X RefLib.y RefLib.t RefLib.y1 RefLib.t
              (Some RefLib.coords_IV) RefLib.priors
              (RefLib.new InstrumentalVariableRegression)
              (snd (InstrumentalVariableRegression_build_model RefLib.lib
                      RefLib.X RefLib.X RefLib.y1 RefLib.t
                      (Some RefLib.coords_IV) RefLib.priors
                      (RefLib.new InstrumentalVariableRegression)))
              ltac:(vm_compute; reflexivity)
              ltac:(vm_compute; lia))
    as (s1 & lik & Hr & _ & _ & Hlen & _ & Hl).
  exists s1. split; [exact Hr |]. split; [exact Hlen | exact Hl].
Defined.

(** X14 on the reference inputs: the outcomes 5 and 7 of column 0. *)
Lemma built_reference_data :
  exists y0,
    pm.lookup
      (self_model (snd (call_build_model RefLib.lib
                          (Args3 RefLib.X RefLib.y None)
                          (RefLib.new LinearRegression)))) "y" =
      Some (pm.MutableData y0 (Some ["obs_ind"])) /\
    np.shape y0 = [2%nat] /\
    np.data y0 !! 0%nat = Some 5%Q /\
    np.data y0 !! 1%nat = Some 7%Q.
Proof.
  destruct (built_model_holds_X_and_the_first_column_of_y RefLib.lib
              RefLib.X RefLib.y None (RefLib.new LinearRegression)
              (snd (call_build_model RefLib.lib
                      (Args3 RefLib.X RefLib.y None)
                      (RefLib.new LinearRegression)))
              2%nat 2%nat [] (or_intror eq_refl)
              ltac:(vm_compute; reflexivity) eq_refl eq_refl)
    as (y0 & _ & Hy & Hsh & _ & Hitems).
  exists y0. split; [exact Hy |]. split; [exact Hsh |]. split.
  - exact (Hitems 0%nat 0%nat ltac:(lia) ltac:(simpl; lia)).
  - exact (Hitems 1%nat 0%nat ltac:(lia) ltac:(simpl; lia)).
Defined.

(** X15 on outcomes of shape (2, 1). *)
Lemma single_column_reference_run :
  np.getitem_col0 (np.mk_ndarray [2; 1]%nat [5; 7]%Q) =
    Ok (np.flatten (np.mk_ndarray [2; 1]%nat [5; 7]%Q)).
Proof.
  destruct (proj2 (score_flattens_y_where_build_model_takes_column_0
                     RefLib.lib RefLib.X (RefLib.fitted LinearRegression))
              (np.mk_ndarray [2; 1]%nat [5; 7]%Q) 2%nat 1%nat
              eq_refl eq_refl ltac:(lia))
    as (y0 & Hy & _ & _ & H1).
  destruct (H1 eq_refl) as [<- _]. exact Hy.
Defined.
